(** * Book-generation workflow engine: a shallow embedding

    The development follows the Python sources module by module:

    - [Py]: the fragment of Python's [str], [re] and [float] the sources
      use;
    - [OutlineParser]: [parse_outline_chapters] of backend/api_interactive.py
      and [ChapterWorkflow.parse_outline_chapters] of
      workflows/chapter_workflow.py;
    - [Book], [Outline], [Chapter] and the status enumerations of
      src/models/schemas.py;
    - [World] and the monad [M]: the tables of the store, the log, the
      sleeps, and the answers of the store, of the model and of the clock;
    - [validators]: the status validators of src/utils/validators.py;
    - [DatabaseService], [LLMService], [StateMachine], [ContextManager],
      [ChapterWorkflow]: the classes of the same names;
    - [Api]: the outline, chapter and status endpoints of
      backend/api_interactive.py.

    The properties follow the definitions: the outline parsers, the Context
    Chain, the Stage Gate, sequential gating, the retries of the Generation
    Client, approval, and the creation of chapter records; then the
    validators, the attributes the gates and the workflow read, the bounds
    of the retries, the round trips of the store, the rebuilding of the
    Context Chain, the endpoints and their errors, and the parser on
    well-formed outlines.

    Python strings are modelled as Rocq strings whose characters are read as
    the code points U+0000 to U+00FF; Python integers are [Z]; a Python
    [float] that is not negative is the rational a binary64 number
    denotes, or infinity. *)

From Stdlib Require Import ZArith QArith.QArith_base QArith.Qreduction String
  Ascii List Lia.
From stdpp Require Import base option list gmap strings sorting.

Local Open Scope string_scope.
Local Open Scope Z_scope.

#[local] Set Warnings "-clear-no-such-hyp".

(** ** Python strings and the regular expressions of the sources *)

Module Py.

(** The double quote, for messages that contain one. *)
Definition dquote : string := String (ascii_of_nat 34) EmptyString.

Definition newline : ascii := ascii_of_nat 10.

Definition code (c : ascii) : nat := nat_of_ascii c.

Definition between (lo hi : nat) (c : ascii) : bool :=
  (Nat.leb lo (code c)) && (Nat.leb (code c) hi).

(** [str.isspace] on one character, which is also the class [\s] of [re]
    on [str] patterns: TAB..CR, FS..US, space, NEL and NBSP. *)
Definition isspace (c : ascii) : bool :=
  between 9 13 c || between 28 32 c || Nat.eqb (code c) 133
  || Nat.eqb (code c) 160.

(** The class [\d] of [re]: the decimal digits. *)
Definition isdecimal (c : ascii) : bool := between 48 57 c.

(** [str.isdigit] on one character: the decimal digits and the superscript
    digits [U+00B2], [U+00B3], [U+00B9], which [int] rejects. *)
Definition isdigit (c : ascii) : bool :=
  isdecimal c || Nat.eqb (code c) 178 || Nat.eqb (code c) 179
  || Nat.eqb (code c) 185.

(** [str.lower] on one character. *)
Definition lower_char (c : ascii) : ascii :=
  if between 65 90 c
     || (between 192 222 c && negb (Nat.eqb (code c) 215))
  then ascii_of_nat (code c + 32) else c.

Fixpoint lower (s : string) : string :=
  match s with
  | EmptyString => EmptyString
  | String c s' => String (lower_char c) (lower s')
  end.

Fixpoint all_chars (p : ascii -> bool) (s : string) : bool :=
  match s with
  | EmptyString => true
  | String c s' => p c && all_chars p s'
  end.

(** [''.join(filter(p, s))] *)
Fixpoint filter_chars (p : ascii -> bool) (s : string) : string :=
  match s with
  | EmptyString => EmptyString
  | String c s' =>
      if p c then String c (filter_chars p s') else filter_chars p s'
  end.

(** The longest prefix of characters in a class, and what follows it. *)
Fixpoint span (p : ascii -> bool) (s : string) : string * string :=
  match s with
  | EmptyString => (EmptyString, EmptyString)
  | String c s' =>
      if p c then let '(a, b) := span p s' in (String c a, b)
      else (EmptyString, s)
  end.

Definition lstrip (s : string) : string := snd (span isspace s).

Fixpoint rstrip (s : string) : string :=
  match s with
  | EmptyString => EmptyString
  | String c s' =>
      match rstrip s' with
      | EmptyString => if isspace c then EmptyString else String c EmptyString
      | r => String c r
      end
  end.

(** [s.strip()] *)
Definition strip (s : string) : string := rstrip (lstrip s).

(** [s.split('\n')]: never empty, one more piece than there are newlines. *)
Fixpoint split_lines (s : string) : list string :=
  match s with
  | EmptyString => [EmptyString]
  | String c s' =>
      if Ascii.eqb c newline then EmptyString :: split_lines s'
      else match split_lines s' with
           | [] => [String c EmptyString]
           | l :: ls => String c l :: ls
           end
  end.

(** [s.split(':', 1)]: [None] stands for the one-element list (no colon),
    [Some (a, b)] for the two-element list. *)
Fixpoint split_colon (s : string) : option (string * string) :=
  match s with
  | EmptyString => None
  | String c s' =>
      if Ascii.eqb c ":" then Some (EmptyString, s')
      else match split_colon s' with
           | Some (a, b) => Some (String c a, b)
           | None => None
           end
  end.

(** [s.startswith(p)], and the rest of [s] after [p]. *)
Fixpoint strip_prefix (p s : string) : option string :=
  match p, s with
  | EmptyString, _ => Some s
  | String a p', String b s' =>
      if Ascii.eqb a b then strip_prefix p' s' else None
  | String _ _, EmptyString => None
  end.

(** A literal of a pattern compiled with [re.IGNORECASE] against the start
    of [s]; [p] is given in lower case. *)
Fixpoint strip_prefix_ci (p s : string) : option string :=
  match p, s with
  | EmptyString, _ => Some s
  | String a p', String b s' =>
      if Ascii.eqb a (lower_char b) then strip_prefix_ci p' s' else None
  | String _ _, EmptyString => None
  end.

(** [needle in s] *)
Fixpoint contains (needle s : string) : bool :=
  match strip_prefix needle s with
  | Some _ => true
  | None =>
      match s with
      | EmptyString => false
      | String _ s' => contains needle s'
      end
  end.

Definition digit_value (c : ascii) : Z := Z.of_nat (code c) - 48.

Fixpoint int_acc (acc : Z) (s : string) : Z :=
  match s with
  | EmptyString => acc
  | String c s' => int_acc (10 * acc + digit_value c) s'
  end.

(** [int(s)] for a non-empty string of decimal digits. Python's limit on
    the number of digits of a converted string is not modelled. *)
Definition int (s : string) : Z := int_acc 0 s.

Definition digit_char (d : Z) : ascii := ascii_of_nat (Z.to_nat (48 + d)).

Fixpoint str_pos_acc (fuel : nat) (n : Z) (acc : string) : string :=
  match fuel with
  | O => acc
  | S fuel' =>
      let acc' := String (digit_char (n mod 10)) acc in
      if n <? 10 then acc' else str_pos_acc fuel' (n / 10) acc'
  end.

(** [str(n)] for an integer, as f-strings print it. *)
Definition str (n : Z) : string :=
  if n <? 0
  then String "-" (str_pos_acc (S (Z.to_nat (Z.log2 (- n)))) (- n) EmptyString)
  else str_pos_acc (S (Z.to_nat (Z.log2 n))) n EmptyString.

(** [l[:k]] *)
Definition slice_to {A} (k : Z) (l : list A) : list A :=
  if 0 <=? k then take (Z.to_nat k) l
  else take (Z.to_nat (Z.of_nat (length l) + k)) l.

(** [list.sort(key=...)] and SQL's [ORDER BY] on an integer key: a stable
    insertion sort. *)
Fixpoint insert_by {A} (key : A -> Z) (x : A) (l : list A) : list A :=
  match l with
  | [] => [x]
  | y :: l' => if key x <=? key y then x :: l else y :: insert_by key x l'
  end.

Definition sort_by {A} (key : A -> Z) (l : list A) : list A :=
  foldr (insert_by key) [] l.

(** The heading pattern of the interactive parser,
    [re.match(r'^Chapter\s+(\d+)\s*:\s*(.+)$', line, re.IGNORECASE)],
    on a line without newline: the two groups. The greedy [\s*] before the
    title gives back its last character when nothing else is left for
    [(.+)]. *)
Definition last_char (s : string) : string :=
  match String.length s with
  | O => EmptyString
  | S n => String.substring n 1 s
  end.

Definition match_heading (line : string) : option (string * string) :=
  match strip_prefix_ci "chapter" line with
  | None => None
  | Some r1 =>
      let '(ws, r2) := span isspace r1 in
      let '(ds, r3) := span isdecimal r2 in
      match ws, ds, lstrip r3 with
      | String _ _, String _ _, String ":" r5 =>
          match lstrip r5, r5 with
          | String c t, _ => Some (ds, String c t)
          | EmptyString, String _ _ => Some (ds, last_char r5)
          | EmptyString, EmptyString => None
          end
      | _, _, _ => None
      end
  end.

(** Whether [r'\s*Description:'] (ignoring case) matches at the start. *)
Definition at_description (s : string) : bool :=
  match strip_prefix_ci "description:" (lstrip s) with
  | Some _ => true
  | None => false
  end.

(** [re.sub(r'\s*Description:.*$', '', s, flags=re.IGNORECASE)] on a string
    without newline: cut at the leftmost match. *)
Fixpoint sub_description (s : string) : string :=
  if at_description s then EmptyString
  else match s with
       | EmptyString => EmptyString
       | String c s' => String c (sub_description s')
       end.

(** A Python [float] that is not negative: a finite binary64 value, kept as
    the rational it denotes in lowest terms, or infinity. *)
Inductive pyfloat := Finite (q : Q) | Inf.

(** [n / d] rounded to the nearest integer, a half to the even one, for
    [0 <= n] and [0 < d]. *)
Definition round_half_even (n d : Z) : Z :=
  let t := n / d in
  let r := n mod d in
  if d <? 2 * r then t + 1
  else if (d =? 2 * r) && Z.odd t then t + 1 else t.

(** [n / d] divided by [2 ^ e], as a fraction. *)
Definition scale2 (n d e : Z) : Z * Z :=
  if 0 <=? e then (n, d * 2 ^ e) else (n * 2 ^ (- e), d).

(** The binary64 value nearest to a rational that is not negative, a tie
    going to the even significand: what [float(text)] and the conversion of
    an [int] give. [e] is the exponent of the rational and [u] that of the
    last place of its significand of 53 bits (subnormal below [2 ^ -1022]);
    a result of [2 ^ 1024] or more is infinity. *)
Definition round_double (q : Q) : pyfloat :=
  let n := Qnum q in
  let d := Zpos (Qden q) in
  if n <=? 0 then Finite (inject_Z 0)
  else
    let e0 := Z.log2 n - Z.log2 d in
    let '(n0, d0) := scale2 n d e0 in
    let e := if n0 <? d0 then e0 - 1 else e0 in
    let u := Z.max e (-1022) - 52 in
    let '(n1, d1) := scale2 n d u in
    let m := round_half_even n1 d1 in
    if 0 <=? u
    then if 2 ^ 1024 <=? m * 2 ^ u then Inf
         else Finite (inject_Z (m * 2 ^ u))
    else Finite (Qred (Qmake m (Z.to_pos (2 ^ (- u))))).

End Py.

(** ** The outline parsers *)

Module OutlineParser.

(** One element of the list the interactive parser returns: the dict with
    the keys [number] and [title]. *)
Record entry := Entry { number : Z; title : string }.

(** The two [continue] tests on the title and the clean-up that follows,
    for one line that matched: what is appended for it. *)
Definition is_placeholder (chapter_title : string) : bool :=
  Py.contains "[chapter title here]" (Py.lower chapter_title)
  || String.eqb chapter_title "".

(** The loop of [parse_outline_chapters] over the remaining lines, with its
    two accumulators [chapters] and [seen_numbers] and its [break]. The
    calls to the logger do not change the result and are left out. *)
Fixpoint scan (lines : list string) (expected_count : Z)
    (chapters : list entry) (seen_numbers : gset Z) : list entry :=
  match lines with
  | [] => chapters
  | line :: rest =>
      let line := Py.strip line in
      match Py.match_heading line with
      | Some (g1, g2) =>
          let chapter_num := Py.int g1 in
          let chapter_title := Py.strip g2 in
          if decide (chapter_num ∈ seen_numbers)
          then scan rest expected_count chapters seen_numbers
          else if is_placeholder chapter_title
          then scan rest expected_count chapters seen_numbers
          else
            let chapter_title := Py.sub_description chapter_title in
            let seen_numbers := {[chapter_num]} ∪ seen_numbers in
            let chapters := (chapters ++ [Entry chapter_num chapter_title])%list in
            if expected_count <=? Z.of_nat (length chapters)
            then chapters
            else scan rest expected_count chapters seen_numbers
      | None => scan rest expected_count chapters seen_numbers
      end
  end.

(** [for idx, chapter in enumerate(chapters, start=1): chapter[number] = idx] *)
Fixpoint renumber_from (idx : Z) (chapters : list entry) : list entry :=
  match chapters with
  | [] => []
  | chapter :: rest =>
      Entry idx (title chapter) :: renumber_from (idx + 1) rest
  end.

(** [[{number: i, title: f'Chapter {i}'} for i in range(1, expected_count + 1)]] *)
Definition default_chapters (expected_count : Z) : list entry :=
  (fun i : nat => let i := Z.of_nat i in Entry i ("Chapter " +:+ Py.str i))
    <$> seq 1 (Z.to_nat expected_count).

(** [parse_outline_chapters(outline_text, expected_count)] of
    backend/api_interactive.py. *)
Definition parse_outline_chapters (outline_text : string)
    (expected_count : Z) : list entry :=
  let lines := Py.split_lines outline_text in
  let chapters := scan lines expected_count [] ∅ in
  let chapters := Py.sort_by number chapters in
  let chapters := Py.slice_to expected_count chapters in
  let chapters := renumber_from 1 chapters in
  match chapters with
  | [] => default_chapters expected_count
  | _ :: _ => chapters
  end.

(** The body of the loop of [ChapterWorkflow.parse_outline_chapters] for one
    line: the tuple it appends, if any. [int] raises [ValueError] on a
    superscript digit that [str.isdigit] lets through; the loop then
    continues with the next line. *)
Definition workflow_line (line : string) : option (Z * string) :=
  let line := Py.strip line in
  if Py.contains "chapter" (Py.lower line) then
    match Py.split_colon line with
    | Some (part0, part1) =>
        let num_str := Py.filter_chars Py.isdigit part0 in
        match num_str with
        | EmptyString => None
        | String _ _ =>
            if Py.all_chars Py.isdecimal num_str
            then Some (Py.int num_str, Py.strip part1)
            else None
        end
    | None => None
    end
  else None.

(** [ChapterWorkflow.parse_outline_chapters(outline)] of
    workflows/chapter_workflow.py. *)
Definition workflow_parse_outline_chapters (outline : string)
    : list (Z * string) :=
  let lines := Py.split_lines outline in
  let chapters := omap workflow_line lines in
  match chapters with
  | [] => (fun i : nat => let i := Z.of_nat i in (i, "Chapter " +:+ Py.str i))
            <$> seq 1 10
  | _ :: _ => chapters
  end.

End OutlineParser.

(** ** Entities (src/models/schemas.py) *)

(** A UUID is kept as its canonical text, which is what [str()] prints and
    what is sent to the record store. *)
Definition uuid := string.

(** [Optional[str]] *)
Definition truthy (o : option string) : bool :=
  match o with
  | Some (String _ _) => true
  | _ => false
  end.

(** The class [Book] of src/models/schemas.py: [get_book] builds it from a
    row of the table, and pydantic drops every column the class does not
    declare. *)
Module Book.
Record t := Make {
  id : uuid;
  title : string;
  created_at : string
}.
End Book.

Module Outline.
Record t := Make {
  id : uuid;
  book_id : uuid;
  outline : option string;
  notes_before : option string;
  notes_after : option string;
  status : string
}.

Definition with_outline (v : option string) (o : t) : t :=
  Make (id o) (book_id o) v (notes_before o) (notes_after o) (status o).
Definition with_notes_after (v : option string) (o : t) : t :=
  Make (id o) (book_id o) (outline o) (notes_before o) v (status o).
End Outline.

(** The class [Chapter] of src/models/schemas.py. It declares [title] and
    [notes]; [chapter_title] and [chapter_notes], which the workflow modules
    use, are no attributes of it. *)
Module Chapter.
Record t := Make {
  id : uuid;
  book_id : uuid;
  chapter_number : Z;
  title : option string;
  content : option string;
  summary : option string;
  notes : option string;
  status : string
}.

Definition with_content (v : option string) (c : t) : t :=
  Make (id c) (book_id c) (chapter_number c) (title c) v (summary c)
    (notes c) (status c).
Definition with_summary (v : option string) (c : t) : t :=
  Make (id c) (book_id c) (chapter_number c) (title c) (content c) v
    (notes c) (status c).
Definition with_notes (v : option string) (c : t) : t :=
  Make (id c) (book_id c) (chapter_number c) (title c) (content c)
    (summary c) v (status c).
Definition with_status (v : string) (c : t) : t :=
  Make (id c) (book_id c) (chapter_number c) (title c) (content c)
    (summary c) (notes c) v.
End Chapter.

(** [StatusEnum], [BookOutputStatus] and [ChapterStatus] are [str] enums
    compared with the stored strings by value. *)
Module StatusEnum.
Definition YES := "yes".
Definition NO := "no".
Definition NO_NOTES_NEEDED := "no_notes_needed".
Definition PENDING := "pending".
Definition APPROVED := "approved".
Definition NEEDS_REVISION := "needs_revision".
End StatusEnum.

Module BookOutputStatus.
Definition CHAPTER_GENERATION := "chapter_generation".
Definition FINAL_COMPILATION := "final_compilation".
Definition ERROR := "error".
End BookOutputStatus.

Module ChapterStatus.
Definition PENDING := "pending".
Definition GENERATING := "generating".
Definition REVIEW := "review".
Definition APPROVED := "approved".
Definition REGENERATING := "regenerating".
End ChapterStatus.

(** ** Input validation (src/utils/validators.py) *)

Module validators.

(** [StatusEnum(status)] raises [ValueError] unless [status] is the value of
    a member; the function turns that into a boolean. *)
Definition validate_status (status : string) : bool :=
  existsb (String.eqb status)
    [StatusEnum.YES; StatusEnum.NO; StatusEnum.NO_NOTES_NEEDED;
     StatusEnum.PENDING; StatusEnum.APPROVED; StatusEnum.NEEDS_REVISION].

Definition should_proceed_with_outline (status_outline_notes : string)
    : bool :=
  existsb (String.eqb status_outline_notes) ["no_notes_needed"; "no"].

Definition should_wait_for_notes (status : string) : bool :=
  String.eqb status "yes".

Definition should_proceed_with_chapter (chapter_notes_status : string)
    : bool :=
  existsb (String.eqb chapter_notes_status) ["no_notes_needed"; "no"].

End validators.

(** ** Exceptions, the world and the monad of effects *)

Inductive exn :=
  | Exception (msg : string)        (* raise Exception(msg) in the sources *)
  | ValueError (msg : string)
  | AttributeError (msg : string)
  | IndexError (msg : string)
  | KeyError (msg : string)
  | TypeError (msg : string)
  | OverflowError (msg : string)
  | ClientError (msg : string)      (* raised by the Gemini or Supabase client *)
  | HTTPException (status_code : Z) (detail : string).

(** [str(e)] *)
Definition exn_str (e : exn) : string :=
  match e with
  | Exception msg | ValueError msg | AttributeError msg | IndexError msg
  | KeyError msg | TypeError msg | OverflowError msg | ClientError msg => msg
  | HTTPException status_code detail => Py.str status_code +:+ ": " +:+ detail
  end.

Definition is_HTTPException (e : exn) : bool :=
  match e with
  | HTTPException _ _ => true
  | _ => false
  end.

Inductive result (A : Type) :=
  | Ok (a : A)
  | Raise (e : exn).
Arguments Ok {A} a.
Arguments Raise {A} e.

Inductive log_level := INFO | SUCCESS | WARNING | ERROR.

(** The delay the Generation Client waits: the [float] read from an error
    message, or the [int] of its exponential backoff. *)
Inductive delay := FloatDelay (x : Py.pyfloat) | IntDelay (n : Z).

(** The entry of [workflow_states] for one book: a dict whose keys may be
    absent. The value of [num_chapters_requested] is the [Optional[int]] of
    the request that created the book, so it can be [None]. *)
Module WorkflowState.
Record t := Make {
  step : option string;
  current_chapter : option Z;
  total_chapters : option Z;
  num_chapters_requested : option (option Z);
  ratings : option (list (string * Z));
  chapter_feedback : option (gmap Z string)
}.

Definition with_current_chapter (v : Z) (s : t) : t :=
  Make (step s) (Some v) (total_chapters s) (num_chapters_requested s)
    (ratings s) (chapter_feedback s).
Definition with_ratings (v : list (string * Z)) (s : t) : t :=
  Make (step s) (current_chapter s) (total_chapters s)
    (num_chapters_requested s) (Some v) (chapter_feedback s).
Definition with_chapter_feedback (v : gmap Z string) (s : t) : t :=
  Make (step s) (current_chapter s) (total_chapters s)
    (num_chapters_requested s) (ratings s) (Some v).
Definition with_step (v : string) (s : t) : t :=
  Make (Some v) (current_chapter s) (total_chapters s)
    (num_chapters_requested s) (ratings s) (chapter_feedback s).
End WorkflowState.

(** Everything the program reads or changes: the tables of the record store,
    the process-local [workflow_states], what was logged and slept, and the
    behaviour of the two remote services and of the platform's clock, given
    call by call. The fields [store_fault], [model_reply], [sleep_fault],
    [uuid_parse] and [uuid4] are never written. *)
Record World := MkWorld {
  books : list Book.t;
  outlines : list Outline.t;
  chapters : list Chapter.t;
  workflow_states : gmap string WorkflowState.t;
  logged : list (log_level * string);
  slept : list Q;
  store_calls : nat;
  model_calls : nat;
  (** the exception, if any, the store raises on its n-th request *)
  store_fault : nat -> option exn;
  (** what [generate_content(prompt).text] gives on the n-th call *)
  model_reply : nat -> string -> result string;
  (** the exception, if any, the platform makes [time.sleep] raise for a
      delay, after n sleeps *)
  sleep_fault : nat -> delay -> option exn;
  (** [UUID(text)]: [None] when the constructor raises [ValueError] *)
  uuid_parse : string -> option uuid;
  (** the identifier the store gives its n-th new row *)
  uuid4 : nat -> uuid
}.

Definition set_chapters (v : list Chapter.t) (w : World) : World :=
  MkWorld (books w) (outlines w) v (workflow_states w) (logged w) (slept w)
    (store_calls w) (model_calls w) (store_fault w) (model_reply w)
    (sleep_fault w) (uuid_parse w) (uuid4 w).
Definition set_books (v : list Book.t) (w : World) : World :=
  MkWorld v (outlines w) (chapters w) (workflow_states w) (logged w)
    (slept w) (store_calls w) (model_calls w) (store_fault w) (model_reply w)
    (sleep_fault w) (uuid_parse w) (uuid4 w).
Definition set_outlines (v : list Outline.t) (w : World) : World :=
  MkWorld (books w) v (chapters w) (workflow_states w) (logged w) (slept w)
    (store_calls w) (model_calls w) (store_fault w) (model_reply w)
    (sleep_fault w) (uuid_parse w) (uuid4 w).
Definition set_workflow_states (v : gmap string WorkflowState.t) (w : World) : World :=
  MkWorld (books w) (outlines w) (chapters w) v (logged w) (slept w)
    (store_calls w) (model_calls w) (store_fault w) (model_reply w)
    (sleep_fault w) (uuid_parse w) (uuid4 w).
Definition set_logged (v : list (log_level * string)) (w : World) : World :=
  MkWorld (books w) (outlines w) (chapters w) (workflow_states w) v (slept w)
    (store_calls w) (model_calls w) (store_fault w) (model_reply w)
    (sleep_fault w) (uuid_parse w) (uuid4 w).
Definition set_slept (v : list Q) (w : World) : World :=
  MkWorld (books w) (outlines w) (chapters w) (workflow_states w) (logged w)
    v (store_calls w) (model_calls w) (store_fault w) (model_reply w)
    (sleep_fault w) (uuid_parse w) (uuid4 w).
Definition set_store_calls (v : nat) (w : World) : World :=
  MkWorld (books w) (outlines w) (chapters w) (workflow_states w) (logged w)
    (slept w) v (model_calls w) (store_fault w) (model_reply w)
    (sleep_fault w) (uuid_parse w) (uuid4 w).
Definition set_model_calls (v : nat) (w : World) : World :=
  MkWorld (books w) (outlines w) (chapters w) (workflow_states w) (logged w)
    (slept w) (store_calls w) v (store_fault w) (model_reply w)
    (sleep_fault w) (uuid_parse w) (uuid4 w).

(** A computation: it ends with a value or a raised exception, and the world
    it leaves behind either way. *)
Definition M (A : Type) : Type := World -> result A * World.

Definition ret {A} (a : A) : M A := fun w => (Ok a, w).

Definition raise {A} (e : exn) : M A := fun w => (Raise e, w).

Definition bind {A B} (m : M A) (k : A -> M B) : M B :=
  fun w =>
    match m w with
    | (Ok a, w') => k a w'
    | (Raise e, w') => (Raise e, w')
    end.

(** [try: m  except Exception as e: handler(e)] *)
Definition try_except {A} (m : M A) (handler : exn -> M A) : M A :=
  fun w =>
    match m w with
    | (Ok a, w') => (Ok a, w')
    | (Raise e, w') => handler e w'
    end.

Notation "x <- m ;; k" := (bind m (fun x => k))
  (at level 100, m at next level, right associativity).
Notation "m ;; k" := (bind m (fun _ => k))
  (at level 100, right associativity).

Definition get_world : M World := fun w => (Ok w, w).

Definition modify (f : World -> World) : M unit := fun w => (Ok tt, f w).

(** The logger of src/utils/logger.py: one record per call. *)
Module logger.
Definition emit (l : log_level) (msg : string) : M unit :=
  modify (fun w => set_logged (logged w ++ [(l, msg)])%list w).
Definition info := emit INFO.
Definition success := emit SUCCESS.
Definition warning := emit WARNING.
Definition error := emit ERROR.
End logger.

(** A value or an exception that was computed without the world. *)
Definition lift {A} (r : result A) : M A := fun w => (r, w).

(** [obj.name] for a name the class of [obj] does not define: the lookup
    raises [AttributeError] (through [__getattr__] for a pydantic model). *)
Definition no_attribute {A} (cls name : string) : M A :=
  raise (AttributeError ("'" +:+ cls +:+ "' object has no attribute '"
                         +:+ name +:+ "'")).

(** Whether the delay, as a count of nanoseconds, is beyond what CPython
    keeps in 64 bits: for an [int] the product by [10 ^ 9] is exact, for a
    [float] it is rounded to a double first. (At [2 ^ 63] itself a [float]
    is accepted or refused according to the version of CPython, which is
    left to the platform.) *)
Definition sleep_overflows (d : delay) : bool :=
  match d with
  | IntDelay n => 2 ^ 63 - 1 <? n * 10 ^ 9
  | FloatDelay Py.Inf => true
  | FloatDelay (Py.Finite q) =>
      match Py.round_double (Qmult q (inject_Z (10 ^ 9))) with
      | Py.Inf => true
      | Py.Finite ns => 2 ^ 63 * Zpos (Qden ns) <? Qnum ns
      end
  end.

Definition seconds (d : delay) : Q :=
  match d with
  | IntDelay n => inject_Z n
  | FloatDelay (Py.Finite q) => q
  | FloatDelay Py.Inf => inject_Z 0
  end.

(** [time.sleep(delay)]: CPython raises [OverflowError] for a delay that
    overflows its count of nanoseconds; otherwise the platform sleeps, or
    raises what [sleep_fault] says. *)
Definition sleep (d : delay) : M unit :=
  fun w =>
    if sleep_overflows d
    then (Raise (OverflowError
                   "timestamp too large to convert to C _PyTime_t"), w)
    else match sleep_fault w (length (slept w)) d with
         | Some e => (Raise e, w)
         | None => (Ok tt, set_slept (slept w ++ [seconds d])%list w)
         end.

(** [f'{x}'] for an [Optional[str]] *)
Definition fmt (o : option string) : string :=
  match o with
  | Some s => s
  | None => "None"
  end.

Definition unlines (ls : list string) : string :=
  String.concat (String Py.newline EmptyString) ls.

(** ** The record store (src/services/database_service.py) *)

Module DatabaseService.

(** One request to the Supabase client, [....execute()]: it raises what
    the store raises on that request, or runs the query. *)
Definition execute {A} (query : World -> A * World) : M A :=
  fun w =>
    let w1 := set_store_calls (S (store_calls w)) w in
    match store_fault w (store_calls w) with
    | Some e => (Raise e, w1)
    | None => let '(a, w2) := query w1 in (Ok a, w2)
    end.

Definition select {A} (rows : World -> A) : M A :=
  execute (fun w => (rows w, w)).

Definition get_book (book_id : uuid) : M (option Book.t) :=
  try_except
    (data <- select (fun w => filter (fun b => Book.id b = book_id) (books w)) ;;
     match data with
     | b :: _ => ret (Some b)
     | [] => ret None
     end)
    (fun e =>
       logger.error ("Error fetching book " +:+ book_id +:+ ": " +:+ exn_str e) ;;
       raise e).

(** The most recent outline of the book: the last one inserted. *)
Definition get_outline_by_book (book_id : uuid) : M (option Outline.t) :=
  try_except
    (data <- select (fun w =>
               take 1 (reverse (filter (fun o => Outline.book_id o = book_id)
                                  (outlines w)))) ;;
     match data with
     | o :: _ => ret (Some o)
     | [] => ret None
     end)
    (fun e =>
       logger.error ("Error fetching outline for book " +:+ book_id +:+ ": "
                     +:+ exn_str e) ;;
       raise e).

(** The row an insert into [chapters] creates. The request carries no [id],
    [status] or [notes]: the table fills them in, here with a new
    identifier, [pending] and null. The repository declares no constraint
    on the table, and the insert is an append. *)
Definition inserted_row (w : World) (chapter : Chapter.t) : Chapter.t :=
  Chapter.Make (uuid4 w (store_calls w)) (Chapter.book_id chapter)
    (Chapter.chapter_number chapter) (Chapter.title chapter)
    (Chapter.content chapter) (Chapter.summary chapter) None "pending".

Definition create_chapter (chapter : Chapter.t) : M Chapter.t :=
  try_except
    (row <- execute (fun w =>
              let row := inserted_row w chapter in
              (row, set_chapters (chapters w ++ [row])%list w)) ;;
     logger.info ("Created chapter " +:+ Py.str (Chapter.chapter_number chapter)
                  +:+ " for book " +:+ Chapter.book_id chapter) ;;
     ret row)
    (fun e =>
       logger.error ("Error creating chapter: " +:+ exn_str e) ;;
       raise e).

(** The rows of one book, [ORDER BY chapter_number]. *)
Definition rows_of_book (book_id : uuid) (w : World) : list Chapter.t :=
  Py.sort_by Chapter.chapter_number
    (filter (fun c => Chapter.book_id c = book_id) (chapters w)).

Definition get_chapters_by_book (book_id : uuid) : M (list Chapter.t) :=
  try_except
    (select (rows_of_book book_id))
    (fun e =>
       logger.error ("Error fetching chapters for book " +:+ book_id +:+ ": "
                     +:+ exn_str e) ;;
       raise e).

(** The [updates] dict of [update_chapter]: the columns to set. *)
Record updates := Updates {
  set_content : option string;
  set_summary : option string;
  set_notes : option string;
  set_status : option string
}.

Definition apply_updates (u : updates) (c : Chapter.t) : Chapter.t :=
  let c := match set_content u with
           | Some v => Chapter.with_content (Some v) c | None => c end in
  let c := match set_summary u with
           | Some v => Chapter.with_summary (Some v) c | None => c end in
  let c := match set_notes u with
           | Some v => Chapter.with_notes (Some v) c | None => c end in
  match set_status u with
  | Some v => Chapter.with_status v c | None => c end.

Definition update_rows (chapter_id : uuid) (u : updates)
    (rows : list Chapter.t) : list Chapter.t :=
  (fun c => if decide (Chapter.id c = chapter_id) then apply_updates u c else c)
    <$> rows.

Definition update_chapter (chapter_id : uuid) (u : updates) : M Chapter.t :=
  try_except
    (data <- execute (fun w =>
               let rows := update_rows chapter_id u (chapters w) in
               (filter (fun c => Chapter.id c = chapter_id) rows,
                set_chapters rows w)) ;;
     logger.info ("Updated chapter " +:+ chapter_id) ;;
     match data with
     | c :: _ => ret c
     | [] => raise (IndexError "list index out of range")
     end)
    (fun e =>
       logger.error ("Error updating chapter " +:+ chapter_id +:+ ": "
                     +:+ exn_str e) ;;
       raise e).

(** The [summary] column of the rows of the book with
    [chapter_number < before_chapter], [ORDER BY chapter_number]. *)
Definition summaries_before (book_id : uuid) (before_chapter : Z)
    (w : World) : list (option string) :=
  Chapter.summary <$>
    Py.sort_by Chapter.chapter_number
      (filter (fun c => Chapter.book_id c = book_id
                        /\ Chapter.chapter_number c < before_chapter)
         (chapters w)).

Definition get_previous_chapter_summaries (book_id : uuid)
    (before_chapter : Z) : M (list string) :=
  try_except
    (data <- select (summaries_before book_id before_chapter) ;;
     ret (omap (fun s => if truthy s then s else None) data))
    (fun e =>
       logger.error ("Error fetching previous summaries: " +:+ exn_str e) ;;
       raise e).

(** [update_chapter_status], [update_book_status] and [create_log], which
    the workflows and the Stage Gate call on the service: the class defines
    none of them, so the lookup of the method raises before an argument is
    evaluated. *)
Definition update_chapter_status : M unit :=
  no_attribute "DatabaseService" "update_chapter_status".

Definition update_book_status : M unit :=
  no_attribute "DatabaseService" "update_book_status".

Definition create_log : M unit :=
  no_attribute "DatabaseService" "create_log".

(** The [updates] dict of [update_outline]: the columns its callers set. *)
Record outline_updates := OutlineUpdates {
  set_outline : option string;
  set_notes_after : option string
}.

Definition apply_outline_updates (u : outline_updates) (o : Outline.t)
    : Outline.t :=
  let o := match set_outline u with
           | Some v => Outline.with_outline (Some v) o | None => o end in
  match set_notes_after u with
  | Some v => Outline.with_notes_after (Some v) o | None => o end.

Definition update_outline_rows (outline_id : uuid) (u : outline_updates)
    (rows : list Outline.t) : list Outline.t :=
  (fun o => if decide (Outline.id o = outline_id)
            then apply_outline_updates u o else o) <$> rows.

Definition update_outline (outline_id : uuid) (u : outline_updates)
    : M Outline.t :=
  try_except
    (data <- execute (fun w =>
               let rows := update_outline_rows outline_id u (outlines w) in
               (filter (fun o => Outline.id o = outline_id) rows,
                set_outlines rows w)) ;;
     logger.info ("Updated outline " +:+ outline_id) ;;
     match data with
     | o :: _ => ret o
     | [] => raise (IndexError "list index out of range")
     end)
    (fun e =>
       logger.error ("Error updating outline " +:+ outline_id +:+ ": "
                     +:+ exn_str e) ;;
       raise e).

Definition get_chapter (chapter_id : uuid) : M (option Chapter.t) :=
  try_except
    (data <- select (fun w =>
               filter (fun c => Chapter.id c = chapter_id) (chapters w)) ;;
     match data with
     | c :: _ => ret (Some c)
     | [] => ret None
     end)
    (fun e =>
       logger.error ("Error fetching chapter " +:+ chapter_id +:+ ": "
                     +:+ exn_str e) ;;
       raise e).

End DatabaseService.

(** ** The Generation Client (src/services/llm_service.py) *)

Module LLMService.

Definition is_delay_char (c : ascii) : bool :=
  Py.isdecimal c || Ascii.eqb c ".".

(** Whether [r'retry in ([\d.]+)s'] matches at the start: the group. *)
Definition retry_at (s : string) : option string :=
  match Py.strip_prefix "retry in " s with
  | Some r =>
      match Py.span is_delay_char r with
      | (String c g, String "s" _) => Some (String c g)
      | _ => None
      end
  | None => None
  end.

(** [re.search(r'retry in ([\d.]+)s', error_msg)]: the group of the
    leftmost match. *)
Fixpoint retry_search (error_msg : string) : option string :=
  match retry_at error_msg with
  | Some g => Some g
  | None =>
      match error_msg with
      | EmptyString => None
      | String _ rest => retry_search rest
      end
  end.

Fixpoint split_dot (s : string) : option (string * string) :=
  match s with
  | EmptyString => None
  | String c s' =>
      if Ascii.eqb c "." then Some (EmptyString, s')
      else match split_dot s' with
           | Some (a, b) => Some (String c a, b)
           | None => None
           end
  end.

Definition pow10 (n : nat) : positive := Nat.iter n (Pos.mul 10) 1%positive.

(** [float(g)] for a string of digits and dots: [None] when Python raises
    [ValueError] (no digit, or more than one dot); otherwise the double
    nearest to the decimal the text denotes. *)
Definition float (g : string) : option Py.pyfloat :=
  match split_dot g with
  | None =>
      match g with
      | EmptyString => None
      | String _ _ => Some (Py.round_double (Qmake (Py.int g) 1))
      end
  | Some (a, b) =>
      if Py.all_chars Py.isdecimal b
      then match (a +:+ b)%string with
           | EmptyString => None
           | String _ _ =>
               Some (Py.round_double
                       (Qmake (Py.int (a +:+ b)) (pow10 (String.length b))))
           end
      else None
  end.

(** [f'{x:.1f}'] for a finite double that is not negative, given as the
    rational it denotes: one decimal, rounded half to even on that value. *)
Definition format_1f (q : Q) : string :=
  let t := Py.round_half_even (10 * Qnum q) (Zpos (Qden q)) in
  Py.str (t / 10) +:+ "." +:+ Py.str (t mod 10).

(** [f'{retry_delay:.1f}']: an [int] is converted to a [float] first, which
    raises [OverflowError] when it is too large. *)
Definition format_delay (d : delay) : result string :=
  match d with
  | FloatDelay (Py.Finite q) => Ok (format_1f q)
  | FloatDelay Py.Inf => Ok "inf"
  | IntDelay n =>
      match Py.round_double (inject_Z n) with
      | Py.Finite q => Ok (format_1f q)
      | Py.Inf => Raise (OverflowError "int too large to convert to float")
      end
  end.

(** [self.model.generate_content(prompt).text] *)
Definition generate_content (prompt : string) : M string :=
  fun w =>
    (model_reply w (model_calls w) prompt,
     set_model_calls (S (model_calls w)) w).

Definition is_rate_limit (error_msg : string) : bool :=
  Py.contains "429" error_msg
  || Py.contains "quota exceeded" (Py.lower error_msg).

Definition rate_limit_message : string :=
  "API rate limit exceeded. Please wait a few minutes and try again. You're on the free tier (20 requests/minute).".

(** The [for attempt in range(max_retries)] loop of [_call_with_retry]
    over the attempts that remain, and the [raise] after it. *)
Fixpoint retry_loop (attempts : list nat) (prompt : string)
    (max_retries : Z) : M string :=
  match attempts with
  | [] => raise (Exception "Failed after maximum retries")
  | attempt :: rest =>
      try_except (generate_content prompt)
        (fun e =>
           let error_msg := exn_str e in
           if is_rate_limit error_msg then
             retry_delay <-
               match retry_search error_msg with
               | Some g =>
                   match float g with
                   | Some x => ret (FloatDelay x)
                   | None =>
                       raise (ValueError
                                ("could not convert string to float: '"
                                 +:+ g +:+ "'"))
                   end
               | None => ret (IntDelay (2 ^ Z.of_nat attempt * 5))
               end ;;
             if Z.of_nat attempt <? max_retries - 1 then
               printed <- lift (format_delay retry_delay) ;;
               logger.warning
                 ("Rate limit hit. Retrying in " +:+ printed
                  +:+ " seconds... (Attempt " +:+ Py.str (Z.of_nat attempt + 1)
                  +:+ "/" +:+ Py.str max_retries +:+ ")") ;;
               sleep retry_delay ;;
               retry_loop rest prompt max_retries
             else
               logger.error ("Rate limit exceeded after "
                             +:+ Py.str max_retries +:+ " attempts") ;;
               raise (Exception rate_limit_message)
           else
             logger.error ("API error: " +:+ error_msg) ;;
             raise e)
  end.

Definition _call_with_retry (prompt : string) (max_retries : Z) : M string :=
  retry_loop (seq 0 (Z.to_nat max_retries)) prompt max_retries.

Definition chapter_prompt (title : string) (outline : option string)
    (chapter_number : Z) (chapter_title : option string)
    (previous_summaries : list string) (chapter_notes : option string)
    : string :=
  let nl := String Py.newline EmptyString in
  let context :=
    match previous_summaries with
    | [] => ""
    | _ :: _ =>
        nl +:+ nl +:+ "Context from previous chapters:" +:+ nl
        +:+ unlines (imap (fun i summary =>
                             "Chapter " +:+ Py.str (Z.of_nat i + 1)
                             +:+ " Summary: " +:+ summary)
                       previous_summaries)
    end in
  let notes_section :=
    if truthy chapter_notes
    then nl +:+ nl +:+ "Editor's Specific Requirements for this Chapter:"
         +:+ nl +:+ fmt chapter_notes
    else "" in
  unlines [
    "You are a professional book author. Write Chapter "
      +:+ Py.str chapter_number
      +:+ " of a book based on the following information:";
    "";
    "Book Title: " +:+ title;
    "";
    "Full Book Outline:";
    fmt outline;
    "";
    "Current Chapter: Chapter " +:+ Py.str chapter_number +:+ " - "
      +:+ fmt chapter_title;
    context;
    notes_section;
    "";
    "Write a comprehensive, well-structured chapter that:";
    "1. Follows the outline's guidance for this chapter";
    "2. Maintains continuity with previous chapters (if any)";
    "3. Is engaging and well-written";
    "4. Includes proper transitions and flow";
    "5. Is substantial in length (aim for 2000-3000 words)";
    "6. Addresses all points from the editor's requirements";
    "";
    "Begin the chapter with " +:+ Py.dquote +:+ "# Chapter "
      +:+ Py.str chapter_number +:+ ": " +:+ fmt chapter_title +:+ Py.dquote
      +:+ " and then write the full content.";
    "" ].

Definition generate_chapter (title : string) (outline : option string)
    (chapter_number : Z) (chapter_title : option string)
    (previous_summaries : list string) (chapter_notes : option string)
    : M string :=
  let prompt := chapter_prompt title outline chapter_number chapter_title
                  previous_summaries chapter_notes in
  try_except
    (logger.info ("Generating Chapter " +:+ Py.str chapter_number +:+ ": "
                  +:+ fmt chapter_title) ;;
     content <- _call_with_retry prompt 3 ;;
     logger.success ("Chapter " +:+ Py.str chapter_number +:+ " generated ("
                     +:+ Py.str (Z.of_nat (String.length content))
                     +:+ " chars)") ;;
     ret content)
    (fun e =>
       logger.error ("Error generating chapter " +:+ Py.str chapter_number
                     +:+ ": " +:+ exn_str e) ;;
       raise e).

Definition summary_prompt (chapter_content : option string)
    (chapter_number : Z) (chapter_title : option string) : string :=
  unlines [
    "Summarize the following chapter in 150-200 words. Focus on:";
    "- Main topics covered";
    "- Key points and arguments";
    "- Important information that would be relevant for understanding subsequent chapters";
    "";
    "Chapter " +:+ Py.str chapter_number +:+ ": " +:+ fmt chapter_title;
    "";
    fmt chapter_content;
    "";
    "Provide a clear, concise summary:" ].

Definition generate_chapter_summary (chapter_content : option string)
    (chapter_number : Z) (chapter_title : option string) : M string :=
  let prompt := summary_prompt chapter_content chapter_number chapter_title in
  try_except
    (logger.info ("Generating summary for Chapter " +:+ Py.str chapter_number) ;;
     summary <- _call_with_retry prompt 3 ;;
     logger.success ("Summary generated for Chapter "
                     +:+ Py.str chapter_number) ;;
     ret summary)
    (fun e =>
       logger.error ("Error generating summary for chapter "
                     +:+ Py.str chapter_number +:+ ": " +:+ exn_str e) ;;
       raise e).

(** [f'{n}'] for an [Optional[int]] *)
Definition fmt_int (o : option Z) : string :=
  match o with
  | Some n => Py.str n
  | None => "None"
  end.

Definition outline_prompt (title notes : string) (num_chapters : option Z)
    : string :=
  let n := fmt_int num_chapters in
  unlines [
    "You are a professional book outline creator. Create a detailed outline for a book with the following specifications:";
    "";
    "Title: " +:+ title;
    "";
    "Editor's Requirements and Notes:";
    notes;
    "";
    "CRITICAL REQUIREMENT: You MUST generate EXACTLY " +:+ n
      +:+ " chapters. Count carefully!";
    "";
    "Generate a comprehensive book outline with this EXACT format:";
    "";
    "## BOOK OVERVIEW";
    "[Write 2-3 paragraphs overview here]";
    "";
    "## CHAPTERS";
    "";
    "Chapter 1: [Chapter Title Here]";
    "Description: [2-3 sentence description]";
    "Key Points: [bullet points]";
    "";
    "Chapter 2: [Chapter Title Here]";
    "Description: [2-3 sentence description]";
    "Key Points: [bullet points]";
    "";
    "[Continue for all " +:+ n
      +:+ " chapters - DO NOT generate more or fewer]";
    "";
    "STRICT RULES YOU MUST FOLLOW:";
    "1. Generate EXACTLY " +:+ n +:+ " chapters - no more, no fewer";
    "2. Each chapter heading line MUST start with " +:+ Py.dquote
      +:+ "Chapter [number]: [actual title]" +:+ Py.dquote;
    "3. Replace " +:+ Py.dquote +:+ "[Chapter Title Here]" +:+ Py.dquote
      +:+ " with an actual descriptive title";
    "4. Do NOT use the word " +:+ Py.dquote +:+ "Chapter" +:+ Py.dquote
      +:+ " in descriptions or key points";
    "5. Number chapters sequentially from 1 to " +:+ n;
    "6. Each chapter must have a unique, descriptive title";
    "7. Do NOT include placeholder text like " +:+ Py.dquote
      +:+ "[Chapter Title Here]" +:+ Py.dquote +:+ " in your final output";
    "" ].

Definition generate_outline (title notes : string)
    (num_chapters : option Z) : M string :=
  let prompt := outline_prompt title notes num_chapters in
  try_except
    (logger.info ("Generating outline for: " +:+ title) ;;
     outline <- _call_with_retry prompt 3 ;;
     logger.success ("Outline generated successfully ("
                     +:+ Py.str (Z.of_nat (String.length outline))
                     +:+ " chars)") ;;
     ret outline)
    (fun e =>
       logger.error ("Error generating outline: " +:+ exn_str e) ;;
       raise e).

End LLMService.

(** [next((c for c in chapters if c.chapter_number == n), None)] *)
Definition find_chapter (n : Z) (chapters : list Chapter.t)
    : option Chapter.t :=
  head (filter (fun c => Chapter.chapter_number c = n) chapters).

(** [str(l)] for a list of integers *)
Definition repr_list (l : list Z) : string :=
  "[" +:+ String.concat ", " (Py.str <$> l) +:+ "]".

(** ** Attributes the classes do not declare *)

(** What the Stage Gate and the workflows read from a [Book] and a [Chapter]
    beyond the fields of the two classes: each read raises. *)
Module BookAttribute.
Definition outline (book : Book.t) : M (option string) :=
  no_attribute "Book" "outline".
Definition notes_on_outline_before (book : Book.t) : M (option string) :=
  no_attribute "Book" "notes_on_outline_before".
Definition notes_on_outline_after (book : Book.t) : M (option string) :=
  no_attribute "Book" "notes_on_outline_after".
Definition status_outline_notes (book : Book.t) : M (option string) :=
  no_attribute "Book" "status_outline_notes".
Definition chapter_notes_status (book : Book.t) : M (option string) :=
  no_attribute "Book" "chapter_notes_status".
Definition final_review_notes_status (book : Book.t) : M (option string) :=
  no_attribute "Book" "final_review_notes_status".
End BookAttribute.

Module ChapterAttribute.
Definition chapter_title (chapter : Chapter.t) : M (option string) :=
  no_attribute "Chapter" "chapter_title".
Definition chapter_notes (chapter : Chapter.t) : M (option string) :=
  no_attribute "Chapter" "chapter_notes".
End ChapterAttribute.

(** ** The Stage Gate (src/core/state_machine.py) *)

Module StateMachine.

Definition can_generate_outline (book : Book.t) : M (bool * string) :=
  notes_on_outline_before <- BookAttribute.notes_on_outline_before book ;;
  if negb (truthy notes_on_outline_before)
  then ret (false, "notes_on_outline_before is required")
  else
    outline <- BookAttribute.outline book ;;
    if truthy outline
    then ret (false, "Outline already exists")
    else ret (true, "OK").

Definition can_regenerate_outline (book : Book.t) : M (bool * string) :=
  outline <- BookAttribute.outline book ;;
  if negb (truthy outline)
  then ret (false, "No existing outline to regenerate")
  else
    notes_on_outline_after <- BookAttribute.notes_on_outline_after book ;;
    if negb (truthy notes_on_outline_after)
    then ret (false, "notes_on_outline_after is required for regeneration")
    else ret (true, "OK").

Definition should_proceed_after_outline (book : Book.t) : M (bool * string) :=
  status_outline_notes <- BookAttribute.status_outline_notes book ;;
  if negb (truthy status_outline_notes)
  then ret (false, "status_outline_notes is not set")
  else
    status <- BookAttribute.status_outline_notes book ;;
    let status := fmt status in
    if String.eqb status StatusEnum.YES then
      notes_on_outline_after <- BookAttribute.notes_on_outline_after book ;;
      if negb (truthy notes_on_outline_after)
      then ret (false, "Waiting for notes_on_outline_after")
      else ret (false, "Notes provided, regeneration needed")
    else if String.eqb status StatusEnum.NO_NOTES_NEEDED
    then ret (true, "Proceeding to chapter generation")
    else if String.eqb status StatusEnum.NO
    then ret (false, "Workflow paused by editor (status=no)")
    else ret (false, "Invalid status").

Definition can_generate_chapter (book : Book.t) (chapter_number : Z)
    : M (bool * string) :=
  outline <- BookAttribute.outline book ;;
  if negb (truthy outline)
  then ret (false, "Outline must exist before generating chapters")
  else if 1 <? chapter_number then
    chapters <- DatabaseService.get_chapters_by_book (Book.id book) ;;
    let prev_chapter := find_chapter (chapter_number - 1) chapters in
    match prev_chapter with
    | Some c =>
        if negb (truthy (Chapter.content c))
        then ret (false, "Previous chapter (" +:+ Py.str (chapter_number - 1)
                         +:+ ") must be completed first")
        else ret (true, "OK")
    | None =>
        ret (false, "Previous chapter (" +:+ Py.str (chapter_number - 1)
                    +:+ ") must be completed first")
    end
  else ret (true, "OK").

Definition should_wait_for_chapter_notes (book : Book.t)
    (chapter_number : Z) : M (bool * string) :=
  chapter_notes_status <- BookAttribute.chapter_notes_status book ;;
  if negb (truthy chapter_notes_status)
  then ret (true, "chapter_notes_status not set")
  else
    status <- BookAttribute.chapter_notes_status book ;;
    let status := fmt status in
    if String.eqb status StatusEnum.YES then
      chapters <- DatabaseService.get_chapters_by_book (Book.id book) ;;
      match find_chapter chapter_number chapters with
      | Some chapter =>
          chapter_notes <- ChapterAttribute.chapter_notes chapter ;;
          if negb (truthy chapter_notes)
          then ret (true, "Waiting for chapter notes")
          else ret (false, "Chapter notes provided")
      | None => ret (false, "Chapter notes provided")
      end
    else if String.eqb status StatusEnum.NO_NOTES_NEEDED
    then ret (false, "No notes needed, proceeding")
    else if String.eqb status StatusEnum.NO
    then ret (true, "Workflow paused (status=no)")
    else ret (true, "Invalid status").

Definition can_compile_final_draft (book : Book.t) : M (bool * string) :=
  chapters <- DatabaseService.get_chapters_by_book (Book.id book) ;;
  match chapters with
  | [] => ret (false, "No chapters exist")
  | _ :: _ =>
      let incomplete :=
        Chapter.chapter_number <$>
          filter (fun c => truthy (Chapter.content c) = false) chapters in
      match incomplete with
      | _ :: _ => ret (false, "Chapters incomplete: " +:+ repr_list incomplete)
      | [] =>
          final_review_notes_status <-
            BookAttribute.final_review_notes_status book ;;
          if negb (truthy final_review_notes_status)
          then ret (false, "final_review_notes_status not set")
          else
            status <- BookAttribute.final_review_notes_status book ;;
            let status := fmt status in
            if String.eqb status StatusEnum.YES
            then ret (false, "Waiting for final review notes")
            else if String.eqb status StatusEnum.NO_NOTES_NEEDED
                    || String.eqb status StatusEnum.NO
            then ret (true, "Ready for compilation")
            else ret (false, "Invalid status")
      end
  end.

Definition update_book_stage (book_id : uuid) (stage : string) : M unit :=
  DatabaseService.update_book_status ;;
  logger.info ("Book " +:+ book_id +:+ " moved to stage: " +:+ stage).

End StateMachine.

(** ** The Context Chain (src/core/context_manager.py) *)

Module ContextManager.

Definition get_context_for_chapter (book_id : uuid) (chapter_number : Z)
    : M (list string) :=
  try_except
    (summaries <-
       DatabaseService.get_previous_chapter_summaries book_id chapter_number ;;
     logger.info ("Retrieved " +:+ Py.str (Z.of_nat (length summaries))
                  +:+ " summaries for context (chapter "
                  +:+ Py.str chapter_number +:+ ")") ;;
     ret summaries)
    (fun e =>
       logger.error ("Error getting context: " +:+ exn_str e) ;;
       ret []).

Definition generate_and_store_summary (chapter : Chapter.t) : M string :=
  try_except
    (if negb (truthy (Chapter.content chapter)) then
       logger.warning ("No content for chapter "
                       +:+ Py.str (Chapter.chapter_number chapter)
                       +:+ ", skipping summary") ;;
       ret ""
     else
       chapter_title <- ChapterAttribute.chapter_title chapter ;;
       summary <-
         LLMService.generate_chapter_summary
           (Chapter.content chapter)
           (Chapter.chapter_number chapter)
           (if truthy chapter_title then chapter_title
            else Some ("Chapter " +:+ Py.str (Chapter.chapter_number chapter))) ;;
       DatabaseService.update_chapter (Chapter.id chapter)
         (DatabaseService.Updates None (Some summary) None None) ;;
       logger.success ("Generated and stored summary for chapter "
                       +:+ Py.str (Chapter.chapter_number chapter)) ;;
       ret summary)
    (fun e =>
       logger.error ("Error generating summary: " +:+ exn_str e) ;;
       raise e).

(** The loop of [rebuild_context_chain] over the chapters that remain,
    with its counter. *)
Fixpoint rebuild_loop (chapters : list Chapter.t) (count : Z) : M Z :=
  match chapters with
  | [] => ret count
  | chapter :: rest =>
      if truthy (Chapter.content chapter)
         && negb (truthy (Chapter.summary chapter))
      then generate_and_store_summary chapter ;;
           rebuild_loop rest (count + 1)
      else rebuild_loop rest count
  end.

Definition rebuild_context_chain (book_id : uuid) : M Z :=
  try_except
    (chapters <- DatabaseService.get_chapters_by_book book_id ;;
     count <- rebuild_loop chapters 0 ;;
     logger.info ("Rebuilt context chain: " +:+ Py.str count
                  +:+ " summaries generated") ;;
     ret count)
    (fun e =>
       logger.error ("Error rebuilding context chain: " +:+ exn_str e) ;;
       raise e).

End ContextManager.

(** ** The Chapter Workflow (workflows/chapter_workflow.py) *)

Module ChapterWorkflow.

(** [for chapter_num, chapter_title in chapter_list: create_chapter(...)].
    The constructor is given the title under the keyword [chapter_title],
    which is no field of [Chapter]: pydantic drops it and the title of the
    record is null. *)
Fixpoint create_all (book_id : uuid) (chapter_list : list (Z * string))
    : M unit :=
  match chapter_list with
  | [] => ret tt
  | (chapter_num, chapter_title) :: rest =>
      DatabaseService.create_chapter
        (Chapter.Make "" book_id chapter_num None None None None
           ChapterStatus.PENDING) ;;
      create_all book_id rest
  end.

Definition initialize_chapters (book_id : uuid) : M (bool * string) :=
  try_except
    (book <- DatabaseService.get_book book_id ;;
     match book with
     | None => ret (false, "Book or outline not found")
     | Some book =>
         outline <- BookAttribute.outline book ;;
         if negb (truthy outline)
         then ret (false, "Book or outline not found")
         else
           existing_chapters <- DatabaseService.get_chapters_by_book book_id ;;
           match existing_chapters with
           | _ :: _ =>
               logger.info ("Chapters already initialized for book "
                            +:+ book_id) ;;
               ret (true, Py.str (Z.of_nat (length existing_chapters))
                          +:+ " chapters already exist")
           | [] =>
               outline <- BookAttribute.outline book ;;
               let chapter_list :=
                 OutlineParser.workflow_parse_outline_chapters
                   (fmt outline) in
               create_all book_id chapter_list ;;
               logger.success
                 ("Initialized " +:+ Py.str (Z.of_nat (length chapter_list))
                  +:+ " chapters for book " +:+ book_id) ;;
               ret (true, "Initialized "
                          +:+ Py.str (Z.of_nat (length chapter_list))
                          +:+ " chapters")
           end
     end)
    (fun e =>
       logger.error ("Error initializing chapters: " +:+ exn_str e) ;;
       ret (false, "Error: " +:+ exn_str e)).

Definition generate_chapter (book_id : uuid) (chapter_number : Z)
    : M (bool * string) :=
  try_except
    (book <- DatabaseService.get_book book_id ;;
     match book with
     | None => ret (false, "Book not found")
     | Some book =>
         gate <- StateMachine.can_generate_chapter book chapter_number ;;
         let '(can_proceed, reason) := gate in
         if negb can_proceed then
           logger.warning ("Cannot generate chapter "
                           +:+ Py.str chapter_number +:+ ": " +:+ reason) ;;
           ret (false, reason)
         else
           chapters <- DatabaseService.get_chapters_by_book book_id ;;
           match find_chapter chapter_number chapters with
           | None =>
               ret (false, "Chapter " +:+ Py.str chapter_number
                           +:+ " not found")
           | Some chapter =>
               DatabaseService.update_chapter_status ;;
               StateMachine.update_book_stage book_id
                 BookOutputStatus.CHAPTER_GENERATION ;;
               DatabaseService.create_log ;;
               previous_summaries <-
                 ContextManager.get_context_for_chapter book_id
                   chapter_number ;;
               chapter_title <- ChapterAttribute.chapter_title chapter ;;
               logger.info ("Generating Chapter " +:+ Py.str chapter_number
                            +:+ ": " +:+ fmt chapter_title) ;;
               outline <- BookAttribute.outline book ;;
               chapter_title <- ChapterAttribute.chapter_title chapter ;;
               chapter_notes <- ChapterAttribute.chapter_notes chapter ;;
               content <-
                 LLMService.generate_chapter (Book.title book) outline
                   chapter_number chapter_title previous_summaries
                   chapter_notes ;;
               DatabaseService.update_chapter (Chapter.id chapter)
                 (DatabaseService.Updates (Some content) None None
                    (Some ChapterStatus.REVIEW)) ;;
               ContextManager.generate_and_store_summary
                 (Chapter.with_content (Some content) chapter) ;;
               DatabaseService.create_log ;;
               logger.success ("Chapter " +:+ Py.str chapter_number
                               +:+ " generated successfully") ;;
               ret (true, "Chapter " +:+ Py.str chapter_number
                          +:+ " generated")
           end
     end)
    (fun e =>
       logger.error ("Error generating chapter " +:+ Py.str chapter_number
                     +:+ ": " +:+ exn_str e) ;;
       DatabaseService.update_book_status ;;
       ret (false, "Error: " +:+ exn_str e)).

End ChapterWorkflow.

(** ** The interactive endpoints (backend/api_interactive.py) *)

Module Api.

Record ApprovalRequest := {
  approved : bool;
  feedback : option string;
  rating : option Z
}.

Record ChapterResponse := {
  chapter_number : Z;
  title : string;
  content : string;
  status : string
}.

(** The dict an approval returns: [message], [status] and one of
    [next_step] and [feedback]. *)
Record ApprovalResponse := {
  message : string;
  approval_status : string;
  next_step : option string;
  returned_feedback : option string
}.

(** [UUID(book_id)] *)
Definition UUID (book_id : string) : M uuid :=
  w <- get_world ;;
  match uuid_parse w book_id with
  | Some u => ret u
  | None => raise (ValueError "badly formed hexadecimal UUID string")
  end.

(** [workflow_states.get(book_id, {})] *)
Definition state_of (book_id : string) : M (option WorkflowState.t) :=
  w <- get_world ;;
  ret (workflow_states w !! book_id).

Definition get_or {A B} (o : option A) (key : A -> option B) (default : B)
    : B :=
  match o with
  | Some s => match key s with Some v => v | None => default end
  | None => default
  end.

(** [workflow_states[book_id][key] = ...] for a book that has an entry *)
Definition update_state (book_id : string)
    (f : WorkflowState.t -> WorkflowState.t) : M unit :=
  modify (fun w =>
    match workflow_states w !! book_id with
    | Some s => set_workflow_states (<[book_id := f s]> (workflow_states w)) w
    | None => w
    end).

Definition rate_limit_detail : string :=
  "API rate limit exceeded. The system is automatically retrying. Please wait a moment and try again, or wait a few minutes if this persists. (Free tier: 20 requests/minute)".

Definition mentions_rate_limit (error_msg : string) : bool :=
  Py.contains "rate limit" (Py.lower error_msg)
  || Py.contains "quota exceeded" (Py.lower error_msg).

(** [parse_outline_chapters(outline_text, expected_count)] as the endpoints
    call it, with the [Optional[int]] they read from the state. With [None]
    the comparison that ends the loop raises [TypeError] at the first entry
    kept, and the sum in the range of the defaults raises it when no entry
    was kept. *)
Definition parse_outline_chapters (outline_text : string)
    (expected_count : option Z) : M (list OutlineParser.entry) :=
  match expected_count with
  | Some n => ret (OutlineParser.parse_outline_chapters outline_text n)
  | None =>
      match OutlineParser.scan (Py.split_lines outline_text) 1 [] ∅ with
      | _ :: _ =>
          raise (TypeError
                   "'>=' not supported between instances of 'int' and 'NoneType'")
      | [] =>
          raise (TypeError
                   "unsupported operand type(s) for +: 'NoneType' and 'int'")
      end
  end.

(** [POST /books/{book_id}/generate-chapter/{chapter_num}]. The one
    [logger.info] call that prints the whole state dict is left out. *)
Definition generate_chapter (book_id : string) (chapter_num : Z)
    : M ChapterResponse :=
  try_except
    (book_uuid <- UUID book_id ;;
     book <- DatabaseService.get_book book_uuid ;;
     outline_record <- DatabaseService.get_outline_by_book book_uuid ;;
     state <- state_of book_id ;;
     let workflow_step := get_or state WorkflowState.step "" in
     logger.info ("Generate chapter " +:+ Py.str chapter_num
                  +:+ " - Current workflow step: " +:+ workflow_step) ;;
     if negb (String.eqb workflow_step "chapter_generation"
              || String.eqb workflow_step "chapter_review")
     then raise (HTTPException 400
                   ("Outline must be approved first. Current step: "
                    +:+ workflow_step))
     else
       prev_summaries <-
         DatabaseService.get_previous_chapter_summaries book_uuid chapter_num ;;
       let num_chapters :=
         get_or state WorkflowState.num_chapters_requested (Some 10) in
       outline_text <-
         match outline_record with
         | None => raise (AttributeError
                            "'NoneType' object has no attribute 'outline'")
         | Some o =>
             match Outline.outline o with
             | None => raise (AttributeError
                                "'NoneType' object has no attribute 'split'")
             | Some text => ret text
             end
         end ;;
       chapters <- parse_outline_chapters outline_text num_chapters ;;
       let chapter_title :=
         match filter (fun c => OutlineParser.number c = chapter_num) chapters with
         | c :: _ => OutlineParser.title c
         | [] => "Chapter " +:+ Py.str chapter_num
         end in
       logger.info ("Generating chapter " +:+ Py.str chapter_num +:+ ": "
                    +:+ chapter_title) ;;
       book_title <-
         match book with
         | Some b => ret (Book.title b)
         | None => raise (AttributeError
                            "'NoneType' object has no attribute 'title'")
         end ;;
       content <-
         LLMService.generate_chapter book_title (Some outline_text)
           chapter_num (Some chapter_title) prev_summaries None ;;
       DatabaseService.create_chapter
         (Chapter.Make "" book_uuid chapter_num (Some chapter_title)
            (Some content) None None "pending") ;;
       update_state book_id (WorkflowState.with_current_chapter chapter_num) ;;
       ret {| chapter_number := chapter_num; title := chapter_title;
              content := content; status := "pending_approval" |})
    (fun e =>
       let error_msg := exn_str e in
       logger.error ("Error generating chapter: " +:+ error_msg) ;;
       if mentions_rate_limit error_msg
       then raise (HTTPException 429 rate_limit_detail)
       else raise (HTTPException 500 error_msg)).

Definition approval_rate_limit_detail : string :=
  "API rate limit exceeded. Please wait a moment and try again. (Free tier: 20 requests/minute)".

(** [POST /books/{book_id}/approve-chapter/{chapter_num}] *)
Definition approve_chapter (book_id : string) (chapter_num : Z)
    (approval : ApprovalRequest) : M ApprovalResponse :=
  try_except
    (book_uuid <- UUID book_id ;;
     state <- state_of book_id ;;
     match rating approval, state with
     | Some r, Some s =>
         match WorkflowState.ratings s with
         | Some rs =>
             update_state book_id
               (WorkflowState.with_ratings
                  (rs ++ [("chapter_" +:+ Py.str chapter_num, r)])%list)
         | None => raise (KeyError "'ratings'")
         end
     | _, _ => ret tt
     end ;;
     chapters <- DatabaseService.get_chapters_by_book book_uuid ;;
     match find_chapter chapter_num chapters with
     | None => raise (HTTPException 404 "Chapter not found")
     | Some chapter =>
         if approved approval then
           summary <-
             try_except
               (summary <-
                  LLMService.generate_chapter_summary
                    (Chapter.content chapter) chapter_num
                    (Chapter.title chapter) ;;
                logger.success ("Summary generated for chapter "
                                +:+ Py.str chapter_num) ;;
                ret (Some summary))
               (fun summary_error =>
                  logger.warning ("Could not generate summary for chapter "
                                  +:+ Py.str chapter_num +:+ ": "
                                  +:+ exn_str summary_error) ;;
                  logger.info
                    "Continuing without summary - chapter can still be approved" ;;
                  ret None) ;;
           (if truthy summary then
              try_except
                (DatabaseService.update_chapter (Chapter.id chapter)
                   (DatabaseService.Updates None summary None None) ;;
                 ret tt)
                (fun update_error =>
                   logger.warning ("Could not save summary: "
                                   +:+ exn_str update_error))
            else ret tt) ;;
           state <- state_of book_id ;;
           let total_chapters :=
             get_or state WorkflowState.total_chapters 10 in
           if chapter_num <? total_chapters
           then ret {| message := "Chapter " +:+ Py.str chapter_num
                                  +:+ " approved!";
                       approval_status := "approved";
                       next_step := Some ("generate_chapter_"
                                          +:+ Py.str (chapter_num + 1));
                       returned_feedback := None |}
           else ret {| message := "All chapters completed!";
                       approval_status := "all_approved";
                       next_step := Some "final_review";
                       returned_feedback := None |}
         else if negb (truthy (feedback approval))
         then raise (HTTPException 400 "Feedback required for changes")
         else
           update_state book_id
             (fun s =>
                WorkflowState.with_chapter_feedback
                  (<[chapter_num := fmt (feedback approval)]>
                     (default ∅ (WorkflowState.chapter_feedback s))) s) ;;
           ret {| message := "Feedback received. Regenerating chapter...";
                  approval_status := "needs_revision";
                  next_step := None;
                  returned_feedback := feedback approval |}
     end)
    (fun e =>
       if is_HTTPException e then raise e
       else
         let error_msg := exn_str e in
         logger.error ("Error approving chapter: " +:+ error_msg) ;;
         if mentions_rate_limit error_msg
         then raise (HTTPException 429 approval_rate_limit_detail)
         else if Py.contains "not found" (Py.lower error_msg)
         then raise (HTTPException 404 "Chapter not found in database")
         else raise (HTTPException 500
                       ("Failed to process chapter approval: " +:+ error_msg))).

Record OutlineResponse := {
  outline_book_id : string;
  outline_text : string;
  outline_chapters : list OutlineParser.entry;
  outline_status : string
}.

(** The state dict [{}] *)
Definition empty_state : WorkflowState.t :=
  WorkflowState.Make None None None None None None.

(** The three writes to [workflow_states[book_id]] at the end of
    [generate_outline]: the [update], and the two keys set when absent. *)
Definition outline_review_state (total : Z) (num_chapters : option Z)
    (s : WorkflowState.t) : WorkflowState.t :=
  WorkflowState.Make (Some "outline_review") (Some 0) (Some total)
    (match WorkflowState.num_chapters_requested s with
     | Some v => Some v
     | None => Some num_chapters
     end)
    (match WorkflowState.ratings s with
     | Some v => Some v
     | None => Some []
     end)
    (WorkflowState.chapter_feedback s).

(** [POST /books/{book_id}/generate-outline] *)
Definition generate_outline (book_id : string) : M OutlineResponse :=
  try_except
    (book_uuid <- UUID book_id ;;
     outline_record <- DatabaseService.get_outline_by_book book_uuid ;;
     book <- DatabaseService.get_book book_uuid ;;
     match outline_record with
     | None => raise (HTTPException 404 "Outline record not found")
     | Some outline_record =>
         state <- state_of book_id ;;
         let num_chapters :=
           get_or state WorkflowState.num_chapters_requested (Some 10) in
         book_title <-
           match book with
           | Some b => ret (Book.title b)
           | None => raise (AttributeError
                              "'NoneType' object has no attribute 'title'")
           end ;;
         logger.info ("Generating outline for: " +:+ book_title +:+ " ("
                      +:+ LLMService.fmt_int num_chapters +:+ " chapters)") ;;
         outline_text <-
           LLMService.generate_outline book_title
             (if truthy (Outline.notes_before outline_record)
              then fmt (Outline.notes_before outline_record) else "")
             num_chapters ;;
         chapters <- parse_outline_chapters outline_text num_chapters ;;
         DatabaseService.update_outline (Outline.id outline_record)
           (DatabaseService.OutlineUpdates (Some outline_text) None) ;;
         modify (fun w =>
           set_workflow_states
             (<[book_id :=
                  outline_review_state (Z.of_nat (length chapters))
                    num_chapters
                    (default empty_state (workflow_states w !! book_id))]>
                (workflow_states w)) w) ;;
         ret {| outline_book_id := book_id; outline_text := outline_text;
                outline_chapters := chapters;
                outline_status := "pending_approval" |}
     end)
    (fun e =>
       let error_msg := exn_str e in
       logger.error ("Error generating outline: " +:+ error_msg) ;;
       if mentions_rate_limit error_msg
       then raise (HTTPException 429 rate_limit_detail)
       else raise (HTTPException 500 error_msg)).

(** The state an approval installs for a book that has none. *)
Definition approved_default_state : WorkflowState.t :=
  WorkflowState.Make None (Some 0) (Some 10) (Some (Some 10)) (Some []) None.

(** [POST /books/{book_id}/approve-outline]. The [logger.info] call that
    prints the whole state dict is left out. *)
Definition approve_outline (book_id : string) (approval : ApprovalRequest)
    : M ApprovalResponse :=
  try_except
    (book_uuid <- UUID book_id ;;
     outline_record <- DatabaseService.get_outline_by_book book_uuid ;;
     state <- state_of book_id ;;
     match rating approval, state with
     | Some r, Some s =>
         match WorkflowState.ratings s with
         | Some rs =>
             update_state book_id
               (WorkflowState.with_ratings (rs ++ [("outline", r)])%list)
         | None => raise (KeyError "'ratings'")
         end
     | _, _ => ret tt
     end ;;
     if approved approval then
       modify (fun w =>
         match workflow_states w !! book_id with
         | Some _ => w
         | None =>
             set_workflow_states
               (<[book_id := approved_default_state]> (workflow_states w)) w
         end) ;;
       update_state book_id (WorkflowState.with_step "chapter_generation") ;;
       ret {| message := "Outline approved! Ready to generate chapters.";
              approval_status := "approved";
              next_step := Some "generate_chapter_1";
              returned_feedback := None |}
     else if negb (truthy (feedback approval))
     then raise (HTTPException 400 "Feedback required for changes")
     else
       outline_id <-
         match outline_record with
         | Some o => ret (Outline.id o)
         | None => raise (AttributeError
                            "'NoneType' object has no attribute 'id'")
         end ;;
       DatabaseService.update_outline outline_id
         (DatabaseService.OutlineUpdates None (feedback approval)) ;;
       ret {| message := "Feedback received. Regenerating outline...";
              approval_status := "needs_revision";
              next_step := Some "regenerate_outline";
              returned_feedback := None |})
    (fun e =>
       logger.error ("Error approving outline: " +:+ exn_str e) ;;
       raise (HTTPException 500 (exn_str e))).

Record StatusResponse := {
  status_book_id : string;
  status_title : string;
  workflow_step : string;
  status_outline : string;
  chapters_total : Z;
  chapters_approved : Z;
  current_chapter : Z;
  status_ratings : list (string * Z)
}.

(** [GET /books/{book_id}/status] *)
Definition get_status (book_id : string) : M StatusResponse :=
  try_except
    (book_uuid <- UUID book_id ;;
     book <- DatabaseService.get_book book_uuid ;;
     outline <- DatabaseService.get_outline_by_book book_uuid ;;
     chapters <- DatabaseService.get_chapters_by_book book_uuid ;;
     workflow_state <- state_of book_id ;;
     let chapters_approved :=
       Z.of_nat (length (filter (fun c => truthy (Chapter.summary c) = true)
                           chapters)) in
     book_title <-
       match book with
       | Some b => ret (Book.title b)
       | None => raise (AttributeError
                          "'NoneType' object has no attribute 'title'")
       end ;;
     let step := get_or workflow_state WorkflowState.step "created" in
     let has_step :=
       match workflow_state with
       | Some s => match WorkflowState.step s with
                   | Some _ => true | None => false end
       | None => false
       end in
     ret {| status_book_id := book_id;
            status_title := book_title;
            workflow_step := step;
            status_outline :=
              if has_step
                 && existsb (String.eqb step)
                      ["chapter_generation"; "chapter_review"; "final";
                       "completed"]
              then "approved" else "pending";
            chapters_total := get_or workflow_state WorkflowState.total_chapters 0;
            chapters_approved := chapters_approved;
            current_chapter :=
              get_or workflow_state WorkflowState.current_chapter 0;
            status_ratings := get_or workflow_state WorkflowState.ratings [] |})
    (fun e => raise (HTTPException 500 (exn_str e))).

End Api.

(** ** Vocabulary of the statements *)

Module ParserSpec.
Import OutlineParser.

(** What one line contributes when nothing was seen before: the entry of a
    heading line whose title is no placeholder. *)
Definition heading_entry (line : string) : option entry :=
  match Py.match_heading (Py.strip line) with
  | Some (g1, g2) =>
      if is_placeholder (Py.strip g2) then None
      else Some (Entry (Py.int g1) (Py.sub_description (Py.strip g2)))
  | None => None
  end.

(** The matched entries of an outline, in document order. *)
Definition heading_entries (outline_text : string) : list entry :=
  omap heading_entry (Py.split_lines outline_text).

(** Removing the entries whose parsed number was already seen. *)
Fixpoint first_by_number (seen : gset Z) (l : list entry) : list entry :=
  match l with
  | [] => []
  | e :: l' =>
      if decide (number e ∈ seen) then first_by_number seen l'
      else e :: first_by_number ({[number e]} ∪ seen) l'
  end.

(** The entries the scan keeps: it stops at [expected_count] of them, and
    never before the first. *)
Definition kept (outline_text : string) (expected_count : Z) : list entry :=
  take (Z.to_nat (Z.max 1 expected_count))
    (first_by_number ∅ (heading_entries outline_text)).

(** How many different chapter numbers the heading lines carry. *)
Definition distinct_numbers (outline_text : string) : nat :=
  size (list_to_set (number <$> heading_entries outline_text) : gset Z).

(** A line that begins with [Chapter <digits> :], ignoring case, with
    white space after the word and optionally around the colon. *)
Definition begins_with_heading (line : string) : Prop :=
  exists word ws ds ws' rest : string,
    line = (word ++ ws ++ ds ++ ws' ++ String ":" rest)%string
    /\ Py.lower word = "chapter"
    /\ ws <> "" /\ Py.all_chars Py.isspace ws = true
    /\ ds <> "" /\ Py.all_chars Py.isdecimal ds = true
    /\ Py.all_chars Py.isspace ws' = true.

End ParserSpec.


(** ** Vocabulary for the effects *)

(** A computation leaves an observation of the world as it found it. *)
Definition keeps {A B} (f : World -> B) (m : M A) : Prop :=
  forall w, f (snd (m w)) = f w.

(** What the program keeps: the records of the store and the workflow
    states. *)
Definition stored (w : World)
    : list Book.t * list Outline.t * list Chapter.t
      * gmap string WorkflowState.t :=
  (books w, outlines w, chapters w, workflow_states w).


(** The book and the number of each chapter record, in table order. *)
Definition chapter_keys (w : World) : list (uuid * Z) :=
  (fun c => (Chapter.book_id c, Chapter.chapter_number c)) <$> chapters w.

(** The services as they are when nothing fails. *)
Definition no_fault : nat -> option exn := fun _ => None.

(** A platform whose clock accepts every delay that CPython hands it. *)
Definition no_sleep_fault : nat -> delay -> option exn := fun _ _ => None.

Definition echo_model : nat -> string -> result string :=
  fun n _ => Ok ("text " +:+ Py.str (Z.of_nat n)).


(** The chapters of the book before chapter [n] that have a summary. *)
Definition prior_chapters (book_id : uuid) (n : Z) (w : World)
    : list Chapter.t :=
  filter (fun c => truthy (Chapter.summary c) = true
                   /\ (Chapter.book_id c = book_id
                       /\ Chapter.chapter_number c < n))
    (chapters w).

Definition ascending (cs : list Chapter.t) : Prop :=
  StronglySorted
    (fun a b => Chapter.chapter_number a <= Chapter.chapter_number b) cs.

(** The world after one request to the store. *)
Definition requested (w : World) : World :=
  set_store_calls (S (store_calls w)) w.

(** The world after one more record of the logger. *)
Definition logging (l : log_level) (msg : string) (w : World) : World :=
  set_logged (logged w ++ [(l, msg)])%list w.


(** What [get_chapters_by_book] logs when the store raises [e]. *)
Definition fetch_error (book_id : uuid) (e : exn) : string :=
  "Error fetching chapters for book " +:+ book_id +:+ ": " +:+ exn_str e.

(** A store that refuses every request. *)
Definition store_down : nat -> option exn :=
  fun _ => Some (ClientError "connection reset").


(** What the model answers to the i-th call from now on. *)
Definition reply_at (w : World) (prompt : string) (i : nat) : result string :=
  model_reply w (model_calls w + i)%nat prompt.

Definition rate_limit_failure (r : result string) : Prop :=
  exists e, r = Raise e /\ LLMService.is_rate_limit (exn_str e) = true.

(** A text the pattern [[\d.]+] of the client matches in full. *)
Definition delay_text (g : string) : Prop :=
  g <> "" /\ Py.all_chars LLMService.is_delay_char g = true.

(** The message carries [retry in <g>s], and carries no delay before that
    one: [g] is the group of the leftmost match of the pattern. *)
Definition embeds_delay (error_msg g : string) : Prop :=
  delay_text g
  /\ exists pre post,
       error_msg = (pre ++ "retry in " ++ g ++ "s" ++ post)%string
       /\ forall pre' g' post',
            delay_text g' ->
            error_msg = (pre' ++ "retry in " ++ g' ++ "s" ++ post')%string ->
            (String.length pre <= String.length pre')%nat.

(** The message carries no delay: the pattern matches nowhere. *)
Definition embeds_no_delay (error_msg : string) : Prop :=
  forall pre g post,
    delay_text g ->
    error_msg <> (pre ++ "retry in " ++ g ++ "s" ++ post)%string.

(** A decimal numeral, digits with or without a fraction, and the number it
    denotes. *)
Definition numeral (whole : string) (fraction : option string) : string :=
  match fraction with
  | Some f => (whole ++ "." ++ f)%string
  | None => whole
  end.

Definition is_numeral (whole : string) (fraction : option string) : Prop :=
  Py.all_chars Py.isdecimal whole = true
  /\ Py.all_chars Py.isdecimal (default "" fraction) = true
  /\ (whole ++ default "" fraction)%string <> "".

Definition numeral_value (whole : string) (fraction : option string) : Q :=
  match fraction with
  | Some f => Qmake (Py.int (whole ++ f)) (LLMService.pow10 (String.length f))
  | None => inject_Z (Py.int whole)
  end.

(** What [time.sleep] raises for a delay in a world, if anything. *)
Definition sleep_error (w : World) (d : delay) : option exn :=
  if sleep_overflows d
  then Some (OverflowError "timestamp too large to convert to C _PyTime_t")
  else sleep_fault w (length (slept w)) d.

(** The delay as the warning of the client prints it. *)
Definition printed_delay (d : delay) : string :=
  match LLMService.format_delay d with
  | Ok text => text
  | Raise _ => ""
  end.

(** The world after a rate-limited attempt that is not the last: the call
    is counted, the warning is logged and the delay is slept. *)
Definition after_backoff (attempt : nat) (max_retries : Z) (d : delay)
    (w : World) : World :=
  set_slept
    (slept (set_model_calls (S (model_calls w)) w) ++ [seconds d])%list
    (logging WARNING
       ("Rate limit hit. Retrying in " +:+ printed_delay d
        +:+ " seconds... (Attempt " +:+ Py.str (Z.of_nat attempt + 1)
        +:+ "/" +:+ Py.str max_retries +:+ ")")
       (set_model_calls (S (model_calls w)) w)).

(** The delay the client computes after a rate-limited attempt; [None] when
    the conversion of the embedded text raises. *)
Definition computed_delay (attempt : nat) (error_msg : string)
    : option delay :=
  match LLMService.retry_search error_msg with
  | Some g => FloatDelay <$> LLMService.float g
  | None => Some (IntDelay (2 ^ Z.of_nat attempt * 5))
  end.

(** The delay the claim schedules after the [k]-th attempt failed with a
    rate limit: the number embedded in the message as [retry in <n>s], as
    the [float] nearest to it, and [5 * 2 ^ (k - 1)] when the message
    embeds no delay. *)
Definition scheduled_delay (k : nat) (error_msg : string) (d : delay)
    : Prop :=
  (exists whole fraction,
     is_numeral whole fraction
     /\ embeds_delay error_msg (numeral whole fraction)
     /\ d = FloatDelay (Py.round_double (numeral_value whole fraction)))
  \/ (embeds_no_delay error_msg
      /\ d = IntDelay (5 * 2 ^ (Z.of_nat k - 1))).

(** The waits of the client go through for the [n] attempts that remain,
    the first of which is attempt [first]: for every rate-limited reply
    among them the delay can be computed (an embedded delay is a decimal
    number) and, unless the attempt is the last, the delay does not
    overflow the nanoseconds of [time.sleep] and the platform accepts
    it. *)
Definition waits_go_through (first : nat) (w : World) (prompt : string)
    (n : nat) : Prop :=
  forall j e,
    (j < n)%nat ->
    reply_at w prompt j = Raise e ->
    LLMService.is_rate_limit (exn_str e) = true ->
    exists d,
      computed_delay (first + j) (exn_str e) = Some d
      /\ ((S j < n)%nat ->
          sleep_overflows d = false
          /\ sleep_fault w (length (slept w) + j) d = None).

(** The world after an approval recorded its rating, when it carries one
    and the book has an entry with a ratings list. *)
Definition with_rating (book_id : string) (chapter_num : Z)
    (approval : Api.ApprovalRequest) (w : World) : World :=
  match Api.rating approval, workflow_states w !! book_id with
  | Some r, Some s =>
      match WorkflowState.ratings s with
      | Some rs =>
          set_workflow_states
            (<[book_id :=
                 WorkflowState.with_ratings
                   (rs ++ [("chapter_" +:+ Py.str chapter_num, r)])%list s]>
               (workflow_states w)) w
      | None => w
      end
  | _, _ => w
  end.

(** The rating of the approval, if any, can be recorded. *)
Definition rating_recordable (book_id : string)
    (approval : Api.ApprovalRequest) (w : World) : Prop :=
  forall r s,
    Api.rating approval = Some r ->
    workflow_states w !! book_id = Some s ->
    is_Some (WorkflowState.ratings s).

(** The response of an approval that went through. *)
Definition reports_approved (chapter_num : Z) (response : Api.ApprovalResponse)
    : Prop :=
  (Api.approval_status response = "approved"
   /\ Api.next_step response
      = Some ("generate_chapter_" +:+ Py.str (chapter_num + 1)))
  \/ (Api.approval_status response = "all_approved"
      /\ Api.next_step response = Some "final_review").

(** A store that answers every request, and a model that answers every
    call. *)
Definition store_answers (w : World) : Prop :=
  forall k, store_fault w k = None.

Definition model_answers (w : World) : Prop :=
  forall k prompt, exists s, model_reply w k prompt = Ok s.

(** The chapters [rebuild_context_chain] summarises: those with content and
    without summary. *)
Definition lacks_summary (c : Chapter.t) : bool :=
  truthy (Chapter.content c) && negb (truthy (Chapter.summary c)).

(** A step that generated nothing and recorded nothing: no call to the
    model, the chapter records and the workflow states as before. *)
Definition quiet (w w' : World) : Prop :=
  model_calls w' = model_calls w
  /\ chapters w' = chapters w
  /\ workflow_states w' = workflow_states w.

(** The workflow step of a book, as the endpoints read it. *)
Definition step_of (book_id : string) (w : World) : string :=
  Api.get_or (workflow_states w !! book_id) WorkflowState.step "".

(** The message of the guard of the generate-chapter endpoint, as the
    handler of the endpoint prints the exception. *)
Definition not_approved_message (step : string) : string :=
  exn_str (HTTPException 400
             ("Outline must be approved first. Current step: " +:+ step)).

(** The number of chapters asked for when the book was created, as the
    endpoints read it: 10 when the state does not say, [None] when the book
    was created with a null. *)
Definition requested_chapters (book_id : string) (w : World) : option Z :=
  Api.get_or (workflow_states w !! book_id)
    WorkflowState.num_chapters_requested (Some 10).

(** The title the generate-chapter endpoint finds for chapter [n] in an
    outline. *)
Definition title_in_outline (text : string) (count n : Z) : string :=
  match filter (fun c => OutlineParser.number c = n)
          (OutlineParser.parse_outline_chapters text count) with
  | c :: _ => OutlineParser.title c
  | [] => "Chapter " +:+ Py.str n
  end.

(** The book and the outline record the endpoints find for a book. *)
Definition book_of (u : uuid) (w : World) : option Book.t :=
  head (filter (fun b => Book.id b = u) (books w)).

Definition outline_of (u : uuid) (w : World) : option Outline.t :=
  head (reverse (filter (fun o => Outline.book_id o = u) (outlines w))).

(** The world after the rating of an outline approval was recorded. *)
Definition with_outline_rating (book_id : string)
    (approval : Api.ApprovalRequest) (w : World) : World :=
  match Api.rating approval, workflow_states w !! book_id with
  | Some r, Some s =>
      match WorkflowState.ratings s with
      | Some rs =>
          set_workflow_states
            (<[book_id :=
                 WorkflowState.with_ratings (rs ++ [("outline", r)])%list s]>
               (workflow_states w)) w
      | None => w
      end
  | _, _ => w
  end.

(** The state of a book after its outline was approved. *)
Definition approved_state (s : option WorkflowState.t) : WorkflowState.t :=
  WorkflowState.with_step "chapter_generation"
    (default Api.approved_default_state s).

(** A title as the outline prompt asks for one: not empty, on one line,
    without white space around it, no placeholder, and with no description
    after it. *)
Definition plain_title (t : string) : Prop :=
  t <> ""
  /\ Py.strip t = t
  /\ Py.contains (String Py.newline EmptyString) t = false
  /\ OutlineParser.is_placeholder t = false
  /\ Py.contains "description:" (Py.lower t) = false.

(** A line on which the interactive parser finds no heading. *)
Definition prose (line : string) : Prop :=
  Py.contains (String Py.newline EmptyString) line = false
  /\ ~ ParserSpec.begins_with_heading (Py.strip line).

(** The chapters numbered from [idx] on, with the given titles. *)
Fixpoint number_from (idx : Z) (titles : list string)
    : list OutlineParser.entry :=
  match titles with
  | [] => []
  | t :: rest => OutlineParser.Entry idx t :: number_from (idx + 1) rest
  end.

(** The heading line of a chapter in the format of the outline prompt. *)
Definition heading_line (e : OutlineParser.entry) : string :=
  "Chapter " +:+ Py.str (OutlineParser.number e) +:+ ": "
  +:+ OutlineParser.title e.

(** An outline in the format of the outline prompt: some lines, then for
    each chapter its heading line and the lines that describe it. *)
Fixpoint section_lines (idx : Z) (sections : list (string * list string))
    : list string :=
  match sections with
  | [] => []
  | (t, body) :: rest =>
      (heading_line (OutlineParser.Entry idx t) :: body
       ++ section_lines (idx + 1) rest)%list
  end.

Definition written_outline (preamble : list string)
    (sections : list (string * list string)) : string :=
  unlines (preamble ++ section_lines 1 sections).

(** ** Concrete inputs *)

Module Examples.

Definition nl : string := String Py.newline EmptyString.

(** Three headings out of order. *)
Definition outline_3_1_2 : string :=
  "Chapter 3: C" +:+ nl +:+ "Chapter 1: A" +:+ nl +:+ "Chapter 2: B".

(** A line of prose that mentions a chapter. *)
Definition prose_line : string :=
  "Key Points 3: recap of the previous chapter".

(** A book with an approved outline of two chapters and no chapter record
    yet; the model answers every call and the store never fails. *)
Definition book1 : Book.t := Book.Make "b1" "T" "2025-01-01T00:00:00".

Definition outline1 : Outline.t :=
  Outline.Make "o1" "b1"
    (Some ("Chapter 1: Intro" +:+ nl +:+ "Chapter 2: Next")) None None
    "pending".

Definition state1 : WorkflowState.t :=
  WorkflowState.Make (Some "chapter_generation") (Some 0) (Some 2)
    (Some (Some 2)) (Some []) None.

Definition world_with (cs : list Chapter.t) (fault : nat -> option exn)
    (reply : nat -> string -> result string) : World :=
  MkWorld [book1] [outline1] cs {[ "b1" := state1 ]} [] [] 0 0
    fault reply no_sleep_fault (fun text => Some text)
    (fun n => "c" +:+ Py.str (Z.of_nat n)).

Definition world0 : World := world_with [] no_fault echo_model.

(** Chapters 1 to 3 of the book: the first two with a summary. *)
Definition chapter1 : Chapter.t :=
  Chapter.Make "c1" "b1" 1 (Some "Intro") (Some "one") (Some "S1") None
    "approved".
Definition chapter2 : Chapter.t :=
  Chapter.Make "c2" "b1" 2 (Some "Next") (Some "two") (Some "S2") None
    "approved".
Definition chapter3 : Chapter.t :=
  Chapter.Make "c3" "b1" 3 (Some "Last") (Some "three") None None "review".
Definition pending2 : Chapter.t :=
  Chapter.Make "c2" "b1" 2 (Some "Next") None None None "pending".

Definition world123 : World :=
  world_with [chapter3; chapter1; chapter2] no_fault echo_model.

(** A model that is rate-limited twice, the first time with a delay in the
    message, and then answers. *)
Definition limited_model : nat -> string -> result string :=
  fun n _ =>
    match n with
    | 0%nat => Raise (ClientError "429 Resource exhausted. Please retry in 2.5s.")
    | 1%nat => Raise (ClientError "Quota exceeded for this minute")
    | _ => Ok "text"
    end.

Definition world_limited : World := world_with [] no_fault limited_model.

(** A model that is always rate-limited. *)
Definition busy_model : nat -> string -> result string :=
  fun _ _ => Raise (ClientError "429 quota exceeded").

Definition world_busy : World := world_with [] no_fault busy_model.

(** A rate-limit message whose embedded delay is too long to sleep. *)
Definition patient_model : nat -> string -> result string :=
  fun _ _ => Raise (ClientError "429 retry in 99999999999s").

Definition world_patient : World := world_with [] no_fault patient_model.

(** A rate-limit message whose embedded delay is no number. *)
Definition garbled_model : nat -> string -> result string :=
  fun _ _ => Raise (ClientError "429 Too Many Requests, retry in 1.2.3s").

Definition world_garbled : World := world_with [] no_fault garbled_model.

(** Chapter 1 waits for approval while the model refuses every call. *)
Definition refusing_model : nat -> string -> result string :=
  fun _ _ => Raise (ClientError "500 internal error").

Definition review1 : Chapter.t :=
  Chapter.Make "c1" "b1" 1 (Some "Intro") (Some "one") None None "review".

Definition world_review : World :=
  world_with [review1] no_fault refusing_model.

Definition approval_yes : Api.ApprovalRequest :=
  {| Api.approved := true; Api.feedback := None; Api.rating := Some 8 |}.

(** Chapter 1 waits for approval and the model answers. *)
Definition world_reviewing : World :=
  world_with [review1] no_fault echo_model.

(** The book at another workflow step. *)
Definition world_at_step (step : string) : World :=
  MkWorld [book1] [outline1] []
    {[ "b1" := WorkflowState.Make (Some step) (Some 0) (Some 2)
                 (Some (Some 2)) (Some []) None ]} [] [] 0 0
    no_fault echo_model no_sleep_fault (fun text => Some text)
    (fun n => "c" +:+ Py.str (Z.of_nat n)).

Definition approval_changes : Api.ApprovalRequest :=
  {| Api.approved := false; Api.feedback := Some "shorter";
     Api.rating := None |}.

End Examples.

(** ** Properties of the Python fragment *)

Section PyFacts.

Lemma span_spec p s a b :
  Py.span p s = (a, b) -> s = (a ++ b)%string /\ Py.all_chars p a = true.
Proof.
  revert a b. induction s as [|c s IH]; simpl; intros a b H.
  - injection H as <- <-. done.
  - destruct (p c) eqn:Hc.
    + destruct (Py.span p s) as [a' b'] eqn:Hs.
      injection H as <- <-. destruct (IH _ _ eq_refl) as [-> Ha].
      simpl. rewrite Hc, Ha. done.
    + injection H as <- <-. done.
Qed.

Lemma strip_prefix_ci_spec p s r :
  Py.strip_prefix_ci p s = Some r ->
  exists word, s = (word ++ r)%string /\ Py.lower word = p.
Proof.
  revert s. induction p as [|a p IH]; intros s H.
  - destruct s; injection H as <-; by exists "".
  - destruct s as [|b s]; [done|]. simpl in H.
    destruct (Ascii.eqb a (Py.lower_char b)) eqn:Hab; [|done].
    apply Ascii.eqb_eq in Hab. destruct (IH _ H) as (word & -> & <-).
    exists (String b word). simpl. by rewrite Hab.
Qed.

Lemma lstrip_spec s :
  exists ws, s = (ws ++ Py.lstrip s)%string /\ Py.all_chars Py.isspace ws = true.
Proof.
  unfold Py.lstrip. destruct (Py.span Py.isspace s) as [a b] eqn:H.
  apply span_spec in H as [-> Ha]. by exists a.
Qed.

Lemma match_heading_begins line g1 g2 :
  Py.match_heading line = Some (g1, g2) ->
  ParserSpec.begins_with_heading line.
Proof.
  unfold Py.match_heading. intros H.
  destruct (Py.strip_prefix_ci "chapter" line) as [r1|] eqn:H1; [|done].
  apply strip_prefix_ci_spec in H1 as (word & -> & Hword).
  destruct (Py.span Py.isspace r1) as [ws r2] eqn:H2.
  destruct (Py.span Py.isdecimal r2) as [ds r3] eqn:H3.
  apply span_spec in H2 as [-> Hws]. apply span_spec in H3 as [-> Hds].
  destruct ws as [|w0 ws]; [done|]. destruct ds as [|d0 ds]; [done|].
  destruct (lstrip_spec r3) as (ws' & Hr3 & Hws').
  destruct (Py.lstrip r3) as [|c r5] eqn:H5; [done|].
  destruct (Ascii.eqb_spec c ":") as [->|Hc].
  - exists word, (String w0 ws), (String d0 ds), ws', r5.
    rewrite Hr3 at 1. done.
  - exfalso. clear -H Hc.
    destruct c as [[] [] [] [] [] [] [] []]; try done.
Qed.

End PyFacts.

(** ** The stable sort *)

Section SortBy.
Context {A : Type} (key : A -> Z).

Lemma insert_by_Permutation x l : Py.insert_by key x l ≡ₚ x :: l.
Proof.
  induction l as [|y l IH]; simpl; [done|].
  destruct (key x <=? key y); [done|]. rewrite IH. apply Permutation_swap.
Qed.

Lemma sort_by_Permutation l : Py.sort_by key l ≡ₚ l.
Proof.
  induction l as [|x l IH]; simpl; [done|].
  rewrite insert_by_Permutation. by rewrite IH.
Qed.

Lemma sort_by_length l : length (Py.sort_by key l) = length l.
Proof. by rewrite sort_by_Permutation. Qed.

Lemma insert_by_sorted x l :
  StronglySorted (fun a b => key a <= key b) l ->
  StronglySorted (fun a b => key a <= key b) (Py.insert_by key x l).
Proof.
  induction 1 as [|y l Hl IH Hy]; simpl.
  - repeat constructor.
  - destruct (Z.leb_spec (key x) (key y)).
    + constructor; [by constructor|]. constructor; [done|].
      eapply Forall_impl; [exact Hy|]. simpl. intros; lia.
    + constructor; [done|]. rewrite insert_by_Permutation.
      constructor; [lia|done].
Qed.

Lemma sort_by_sorted l :
  StronglySorted (fun a b => key a <= key b) (Py.sort_by key l).
Proof.
  induction l as [|x l IH]; simpl; [constructor|]. by apply insert_by_sorted.
Qed.


End SortBy.

(** ** The scan of the interactive parser *)

Section Scan.
Import OutlineParser ParserSpec.

Lemma scan_kept lines expected_count chapters seen :
  scan lines expected_count chapters seen =
  (chapters ++ take (Z.to_nat (Z.max 1 (expected_count - Z.of_nat (length chapters))))
                (first_by_number seen (omap heading_entry lines)))%list.
Proof.
  revert chapters seen.
  induction lines as [|line lines IH]; intros chapters seen; simpl.
  - by rewrite take_nil, app_nil_r.
  - unfold heading_entry at 1.
    destruct (Py.match_heading (Py.strip line)) as [[g1 g2]|]; [|apply IH].
    destruct (is_placeholder (Py.strip g2)) eqn:Hp.
    { destruct (decide (Py.int g1 ∈ seen)); apply IH. }
    simpl. destruct (decide (Py.int g1 ∈ seen)); [apply IH|].
    rewrite length_app. simpl.
    destruct (Z.leb_spec expected_count (Z.of_nat (length chapters + 1))).
    + replace (Z.to_nat (Z.max 1 (expected_count - Z.of_nat (length chapters))))
        with 1%nat by lia. done.
    + rewrite IH, length_app, <- app_assoc. simpl. f_equal.
      replace (Z.to_nat (Z.max 1 (expected_count - Z.of_nat (length chapters))))
        with (S (Z.to_nat (Z.max 1 (expected_count
                                    - Z.of_nat (length chapters + 1%nat)))))
        by lia.
      done.
Qed.

Lemma first_by_number_sublist seen l : first_by_number seen l `sublist_of` l.
Proof.
  revert seen. induction l as [|e l IH]; intros seen; simpl; [done|].
  destruct (decide (number e ∈ seen)).
  - by apply sublist_cons.
  - by apply sublist_skip.
Qed.



Lemma first_by_number_length seen l :
  length (first_by_number seen l)
  = size ((list_to_set (number <$> l) : gset Z) ∖ seen).
Proof.
  revert seen. induction l as [|x l IH]; intros seen; simpl.
  - by rewrite difference_disjoint_L, size_empty by set_solver.
  - destruct (decide (number x ∈ seen)).
    + rewrite IH. f_equal. set_solver.
    + simpl. rewrite IH.
      set (others := (list_to_set (number <$> l) : gset Z)).
      replace (({[number x]} ∪ others) ∖ seen)
        with ({[number x]} ∪ others ∖ ({[number x]} ∪ seen)).
      * assert (Hd : ({[number x]} : gset Z) ## others ∖ ({[number x]} ∪ seen))
          by set_solver.
        pose proof (size_union _ _ Hd) as Hs.
        rewrite size_singleton in Hs. by rewrite Hs.
      * apply set_eq. intros z. destruct (decide (z = number x)); set_solver.
Qed.


Lemma renumber_from_titles idx l : title <$> renumber_from idx l = title <$> l.
Proof.
  revert idx. induction l as [|e l IH]; intros idx; simpl; [done|].
  by rewrite IH.
Qed.

Lemma renumber_from_length idx l : length (renumber_from idx l) = length l.
Proof.
  revert idx. induction l as [|e l IH]; intros idx; simpl; [done|].
  by rewrite IH.
Qed.



Lemma default_chapters_length n : length (default_chapters n) = Z.to_nat n.
Proof. unfold default_chapters. by rewrite length_fmap, length_seq. Qed.

Lemma slice_to_length {B} k (l : list B) :
  (length l <= Z.to_nat (Z.max 1 k))%nat ->
  (length (Py.slice_to k l) <= Z.to_nat k)%nat
  /\ (k <= Z.of_nat (length l) -> length (Py.slice_to k l) = Z.to_nat k).
Proof.
  unfold Py.slice_to. destruct (Z.leb_spec 0 k); rewrite length_take; lia.
Qed.

Lemma parse_outline_chapters_kept outline_text expected_count :
  parse_outline_chapters outline_text expected_count =
  match renumber_from 1
          (Py.slice_to expected_count
             (Py.sort_by number (kept outline_text expected_count))) with
  | [] => default_chapters expected_count
  | e :: l => e :: l
  end.
Proof.
  unfold parse_outline_chapters, kept, heading_entries.
  rewrite scan_kept. change (Z.of_nat (length (@nil entry))) with 0.
  rewrite Z.sub_0_r, app_nil_l. by destruct (renumber_from _ _).
Qed.

End Scan.

Section ParserTheorems.
Import OutlineParser ParserSpec.

Lemma kept_length outline_text expected_count :
  length (kept outline_text expected_count)
  = Nat.min (Z.to_nat (Z.max 1 expected_count)) (distinct_numbers outline_text).
Proof.
  unfold kept, distinct_numbers.
  rewrite length_take, first_by_number_length. f_equal. f_equal. set_solver.
Qed.



(** The scan stops at the second heading it keeps: the third heading is
    never read, and the title of chapter 3 becomes the second entry. *)
Example parse_outline_3_1_2 :
  parse_outline_chapters Examples.outline_3_1_2 2
  = [Entry 1 "A"; Entry 2 "C"].
Proof. reflexivity. Qed.



End ParserTheorems.

Section HeadingLines.
Import OutlineParser ParserSpec.

Lemma heading_entry_begins line e :
  heading_entry line = Some e -> begins_with_heading (Py.strip line).
Proof.
  unfold heading_entry.
  destruct (Py.match_heading (Py.strip line)) as [[g1 g2]|] eqn:H; [|done].
  intros _. by eapply match_heading_begins.
Qed.

Lemma no_heading_no_entries outline_text :
  (forall line, line ∈ Py.split_lines outline_text ->
                ~ begins_with_heading (Py.strip line)) ->
  heading_entries outline_text = [].
Proof.
  intros Hno. unfold heading_entries.
  destruct (omap heading_entry (Py.split_lines outline_text)) as [|e l] eqn:H;
    [done|].
  assert (He : e ∈ omap heading_entry (Py.split_lines outline_text))
    by (rewrite H; left).
  apply list_elem_of_omap in He as (line & Hin & Hline).
  destruct (Hno line Hin). by eapply heading_entry_begins.
Qed.

Lemma span_app p a c rest :
  Py.all_chars p a = true -> p c = false ->
  Py.span p (a ++ String c rest) = (a, String c rest).
Proof.
  intros Ha Hc. induction a as [|x a IH]; simpl in *.
  - by rewrite Hc.
  - apply andb_prop in Ha as [Hx Ha]. by rewrite Hx, (IH Ha).
Qed.

Lemma rstrip_app a b :
  b <> "" -> Py.rstrip b = b -> Py.rstrip (a ++ b) = (a ++ b)%string.
Proof.
  intros Hb Hr. induction a as [|x a IH]; [done|].
  change (Py.rstrip (String x (a ++ b)) = String x (a ++ b)).
  simpl. rewrite IH. destruct (a ++ b)%string eqn:Hab; [|done].
  destruct a, b; try done; discriminate Hab.
Qed.

(** A well-formed heading line: the word, one space, the digits, a colon,
    one space and a title that is stripped and is no placeholder. *)
Lemma well_formed_heading_entry digits c t :
  digits <> "" ->
  Py.all_chars Py.isdecimal digits = true ->
  Py.isspace c = false ->
  Py.rstrip (String c t) = String c t ->
  is_placeholder (String c t) = false ->
  heading_entry ("Chapter " ++ digits ++ ": " ++ String c t)
  = Some (Entry (Py.int digits) (Py.sub_description (String c t))).
Proof.
  intros Hne Hdigits Hc Hstripped Hplace.
  assert (Hlstrip : Py.lstrip (String c t) = String c t).
  { unfold Py.lstrip. simpl. by rewrite Hc. }
  assert (Hstrip : Py.strip ("Chapter " ++ digits ++ ": " ++ String c t)
                   = ("Chapter " ++ digits ++ ": " ++ String c t)%string).
  { unfold Py.strip.
    change (Py.lstrip ("Chapter " ++ digits ++ ": " ++ String c t))
      with ("Chapter " ++ digits ++ ": " ++ String c t)%string.
    apply rstrip_app; [by destruct digits|].
    apply rstrip_app; [done|]. by apply rstrip_app. }
  unfold heading_entry. rewrite Hstrip. unfold Py.match_heading.
  change (Py.strip_prefix_ci "chapter"
            ("Chapter " ++ digits ++ ": " ++ String c t))
    with (Some (" " ++ digits ++ ": " ++ String c t)%string).
  destruct digits as [|d digits]; [done|].
  simpl in Hdigits. apply andb_prop in Hdigits as [Hd Hdigits].
  assert (Hd' : Py.isspace d = false).
  { clear -Hd. destruct d as [[] [] [] [] [] [] [] []]; by vm_compute in Hd |- *. }
  change (Py.span Py.isspace (" " ++ String d digits ++ ": " ++ String c t))
    with (let '(a, b) := Py.span Py.isspace
                           (String d (digits ++ ": " ++ String c t)) in
          (String " " a, b)).
  simpl Py.span at 1. rewrite Hd'.
  change (String d digits ++ ": " ++ String c t)%string
    with (String d (digits ++ String ":" (String " " (String c t)))).
  simpl Py.span. rewrite Hd.
  change (": " ++ String c t)%string
    with (String ":" (String " " (String c t))).
  rewrite (span_app _ _ ":" _ Hdigits eq_refl).
  change (Py.lstrip (String ":" (String " " (String c t))))
    with (String ":" (String " " (String c t))).
  cbv beta iota zeta.
  assert (Hsp : Py.lstrip (String " " (String c t)) = String c t).
  { unfold Py.lstrip. cbn [Py.span].
    change (Py.isspace " ") with true. by rewrite Hc. }
  rewrite Hsp. cbv beta iota.
  assert (Hs : Py.strip (String c t) = String c t).
  { unfold Py.strip. by rewrite Hlstrip. }
  by rewrite Hs, Hplace.
Qed.

(** C3, as amended. In the interactive parser a line contributes an entry
    only if, stripped, it begins with [Chapter], white space, digits,
    optional white space and a colon, ignoring case: every entry the scan
    keeps comes from such a line, and an outline without such a line gives
    only the default chapters. The workflow's parser is looser: a line
    contributes an entry exactly when, stripped, it contains [chapter]
    anywhere, ignoring case, has a colon, and the characters before its
    first colon that [str.isdigit] accepts are at least one and all decimal
    digits; the entry is the number they spell and the stripped rest of the
    line. *)
Theorem entries_come_from_heading_lines :
  (forall line e,
     heading_entry line = Some e -> begins_with_heading (Py.strip line))
  /\ (forall outline_text expected_count e,
        e ∈ kept outline_text expected_count ->
        exists line, line ∈ Py.split_lines outline_text
                     /\ begins_with_heading (Py.strip line)
                     /\ heading_entry line = Some e)
  /\ (forall outline_text expected_count,
        (forall line, line ∈ Py.split_lines outline_text ->
                      ~ begins_with_heading (Py.strip line)) ->
        parse_outline_chapters outline_text expected_count
        = default_chapters expected_count)
  /\ (forall line n t,
        workflow_line line = Some (n, t)
        <-> Py.contains "chapter" (Py.lower (Py.strip line)) = true
            /\ exists part0 part1,
                 Py.split_colon (Py.strip line) = Some (part0, part1)
                 /\ Py.filter_chars Py.isdigit part0 <> ""
                 /\ Py.all_chars Py.isdecimal
                      (Py.filter_chars Py.isdigit part0) = true
                 /\ n = Py.int (Py.filter_chars Py.isdigit part0)
                 /\ t = Py.strip part1).
Proof.
  split; [apply heading_entry_begins|]. split; [|split].
  - intros outline_text expected_count e He.
    assert (Hin : e ∈ heading_entries outline_text).
    { eapply elem_of_sublist; [exact He|]. unfold kept.
      etrans; [apply sublist_take|apply first_by_number_sublist]. }
    apply list_elem_of_omap in Hin as (line & Hin & Hline).
    exists line. eauto using heading_entry_begins.
  - intros outline_text expected_count Hno.
    rewrite parse_outline_chapters_kept. unfold kept.
    rewrite (no_heading_no_entries _ Hno). simpl. rewrite take_nil.
    simpl. unfold Py.slice_to.
    by destruct (0 <=? expected_count); rewrite take_nil.
  - intros line n t. unfold workflow_line. split.
    + destruct (Py.contains "chapter" (Py.lower (Py.strip line))); [|done].
      destruct (Py.split_colon (Py.strip line)) as [[part0 part1]|]; [|done].
      destruct (Py.filter_chars Py.isdigit part0) as [|c ds] eqn:Hds; [done|].
      destruct (Py.all_chars Py.isdecimal (String c ds)) eqn:Hd; [|done].
      intros [= <- <-]. split; [done|]. exists part0, part1.
      rewrite Hds. by rewrite Hd.
    + intros (Hc & part0 & part1 & Hs & Hne & Hd & -> & ->).
      rewrite Hc, Hs, Hd.
      by destruct (Py.filter_chars Py.isdigit part0).
Qed.

Lemma prose_line_no_heading :
  ~ begins_with_heading (Py.strip Examples.prose_line).
Proof.
  intros (word & ws & ds & ws' & rest & Hline & Hword & _).
  destruct word as [|c word]; [vm_compute in Hword; discriminate|].
  vm_compute in Hline. injection Hline as <- _.
  vm_compute in Hword. discriminate.
Qed.

(** The workflow's parser at a line of prose that mentions a chapter and
    does not begin with [Chapter]: the line gives an entry. *)
Lemma workflow_parser_takes_prose :
  workflow_parse_outline_chapters Examples.prose_line
  = [(3, "recap of the previous chapter")]
  /\ ~ begins_with_heading (Py.strip Examples.prose_line).
Proof. split; [reflexivity|apply prose_line_no_heading]. Qed.

Lemma entries_come_from_heading_lines_witness :
  workflow_line Examples.prose_line = Some (3, "recap of the previous chapter")
  /\ parse_outline_chapters Examples.prose_line 2 = default_chapters 2.
Proof.
  destruct entries_come_from_heading_lines as (_ & _ & Hdefault & Hworkflow).
  split.
  - apply Hworkflow. split; [reflexivity|].
    exists "Key Points 3", " recap of the previous chapter".
    repeat split; discriminate.
  - apply Hdefault. intros line Hin.
    apply list_elem_of_singleton in Hin as ->.
    apply prose_line_no_heading.
Defined.

End HeadingLines.

(** ** Reasoning about computations *)

Section Monad.
Context {A B : Type}.

Lemma bind_ok (m : M A) (k : A -> M B) w a w' :
  m w = (Ok a, w') -> bind m k w = k a w'.
Proof. unfold bind. by intros ->. Qed.

Lemma bind_raise (m : M A) (k : A -> M B) w e w' :
  m w = (Raise e, w') -> bind m k w = (Raise e, w').
Proof. unfold bind. by intros ->. Qed.

Lemma try_except_ok (m : M A) (h : exn -> M A) w a w' :
  m w = (Ok a, w') -> try_except m h w = (Ok a, w').
Proof. unfold try_except. by intros ->. Qed.

Lemma try_except_raise (m : M A) (h : exn -> M A) w e w' :
  m w = (Raise e, w') -> try_except m h w = h e w'.
Proof. unfold try_except. by intros ->. Qed.

End Monad.

Section Keeps.
Context {B : Type} (f : World -> B).

Lemma keeps_ret {A} (a : A) : keeps f (ret a).
Proof. done. Qed.

Lemma keeps_raise {A} e : keeps f (@raise A e).
Proof. done. Qed.

Lemma keeps_get_world : keeps f get_world.
Proof. done. Qed.

Lemma keeps_bind {A C} (m : M A) (k : A -> M C) :
  keeps f m -> (forall a, keeps f (k a)) -> keeps f (bind m k).
Proof.
  intros Hm Hk w. unfold bind. specialize (Hm w).
  destruct (m w) as [[a|e] w1]; simpl in *; [|done].
  by rewrite Hk.
Qed.

Lemma keeps_try_except {A} (m : M A) (h : exn -> M A) :
  keeps f m -> (forall e, keeps f (h e)) -> keeps f (try_except m h).
Proof.
  intros Hm Hh w. unfold try_except. specialize (Hm w).
  destruct (m w) as [[a|e] w1]; simpl in *; [done|].
  by rewrite Hh.
Qed.

Lemma keeps_modify g : (forall w, f (g w) = f w) -> keeps f (modify g).
Proof. intros Hg w. apply Hg. Qed.

Lemma keeps_execute {A} (query : World -> A * World) :
  (forall v w, f (set_store_calls v w) = f w) ->
  (forall w, f (snd (query w)) = f w) ->
  keeps f (DatabaseService.execute query).
Proof.
  intros Hc Hq w. unfold DatabaseService.execute.
  destruct (store_fault w (store_calls w)); simpl; [apply Hc|].
  specialize (Hq (set_store_calls (S (store_calls w)) w)).
  destruct (query _) as [a w2]. simpl in *. by rewrite Hq.
Qed.

Lemma keeps_generate_content prompt :
  (forall v w, f (set_model_calls v w) = f w) ->
  keeps f (LLMService.generate_content prompt).
Proof. intros Hc w. apply Hc. Qed.

Lemma keeps_lift {A} (r : result A) : keeps f (lift r).
Proof. done. Qed.

Lemma keeps_sleep d :
  (forall v w, f (set_slept v w) = f w) -> keeps f (sleep d).
Proof.
  intros Hs w. unfold sleep. destruct (sleep_overflows d); [done|].
  destruct (sleep_fault w (length (slept w)) d); [done|]. apply Hs.
Qed.

End Keeps.

Ltac head_of t :=
  lazymatch t with
  | ?g _ => head_of g
  | _ => t
  end.

(** Proves [keeps f m] by following the structure of [m]; [leaf] closes the
    conditions on [f] at the writes, and the loops are given as
    hypotheses. *)
Ltac keeps_with leaf :=
  repeat first
    [ assumption
    | apply keeps_ret
    | apply keeps_raise
    | apply keeps_get_world
    | apply keeps_bind; [|intros ?]
    | apply keeps_try_except; [|intros ?]
    | apply keeps_modify; intros ?; solve [leaf]
    | apply keeps_execute; intros; solve [leaf]
    | apply keeps_generate_content; intros; solve [leaf]
    | apply keeps_lift
    | apply keeps_sleep; intros; solve [leaf]
    | lazymatch goal with
      | H : forall _, keeps ?f (?g _) |- keeps ?f (?g _) => apply H
      | H : forall _ _, keeps ?f (?g _ _) |- keeps ?f (?g _ _) => apply H
      | H : forall _ _ _, keeps ?f (?g _ _ _) |- keeps ?f (?g _ _ _) => apply H
      | |- keeps _ (let _ := _ in _) => progress cbv zeta
      | |- keeps _ (match ?x with _ => _ end) => destruct x
      | |- keeps _ ?m => let h := head_of m in progress unfold h
      end ].

Ltac by_computation :=
  first
    [ reflexivity
    | done
    | match goal with
      | |- context [match ?x with _ => _ end] => destruct x
      end; reflexivity ].

Section Frames.

Lemma retry_loop_keeps {B} (f : World -> B) attempts prompt max_retries :
  (forall v w, f (set_model_calls v w) = f w) ->
  (forall v w, f (set_logged v w) = f w) ->
  (forall v w, f (set_slept v w) = f w) ->
  keeps f (LLMService.retry_loop attempts prompt max_retries).
Proof.
  intros Hm Hl Hs.
  induction attempts as [|attempt rest IH]; simpl;
    keeps_with ltac:(first [apply Hm | apply Hl | apply Hs]).
Qed.

End Frames.

(** ** The record store *)

Section Store.

Lemma execute_ok {A} (query : World -> A * World) w :
  store_fault w (store_calls w) = None ->
  DatabaseService.execute query w
  = (Ok (fst (query (requested w))), snd (query (requested w))).
Proof.
  intros H. unfold DatabaseService.execute. rewrite H.
  fold (requested w). by destruct (query (requested w)).
Qed.

Lemma execute_fault {A} (query : World -> A * World) w e :
  store_fault w (store_calls w) = Some e ->
  DatabaseService.execute query w = (Raise e, requested w).
Proof. intros H. unfold DatabaseService.execute. by rewrite H. Qed.

Lemma get_chapters_by_book_ok book_id w :
  store_fault w (store_calls w) = None ->
  DatabaseService.get_chapters_by_book book_id w
  = (Ok (DatabaseService.rows_of_book book_id w), requested w).
Proof.
  intros H. unfold DatabaseService.get_chapters_by_book, DatabaseService.select.
  by rewrite (try_except_ok _ _ _ _ _ (execute_ok _ _ H)).
Qed.

Lemma get_chapters_by_book_fault book_id w e :
  store_fault w (store_calls w) = Some e ->
  DatabaseService.get_chapters_by_book book_id w
  = (Raise e,
     logging ERROR ("Error fetching chapters for book " +:+ book_id +:+ ": "
                    +:+ exn_str e) (requested w)).
Proof.
  intros H. unfold DatabaseService.get_chapters_by_book, DatabaseService.select.
  by rewrite (try_except_raise _ _ _ _ _ (execute_fault _ _ _ H)).
Qed.

Lemma get_previous_chapter_summaries_ok book_id n w :
  store_fault w (store_calls w) = None ->
  DatabaseService.get_previous_chapter_summaries book_id n w
  = (Ok (omap (fun s => if truthy s then s else None)
           (DatabaseService.summaries_before book_id n w)),
     requested w).
Proof.
  intros H.
  unfold DatabaseService.get_previous_chapter_summaries, DatabaseService.select.
  apply try_except_ok. by rewrite (bind_ok _ _ _ _ _ (execute_ok _ _ H)).
Qed.

Lemma ascending_filter P `{!forall c : Chapter.t, Decision (P c)} cs :
  ascending cs -> ascending (filter P cs).
Proof.
  unfold ascending. induction 1 as [|c cs Hcs IH Hc]; [constructor|].
  rewrite filter_cons. case_decide; [|done].
  constructor; [done|]. apply Forall_forall.
  intros x [_ Hx]%list_elem_of_filter.
  rewrite Forall_forall in Hc. by apply Hc.
Qed.

Lemma truthy_summaries (cs : list Chapter.t) :
  Some <$> omap (fun s => if truthy s then s else None) (Chapter.summary <$> cs)
  = Chapter.summary <$> filter (fun c => truthy (Chapter.summary c) = true) cs.
Proof.
  induction cs as [|c cs IH]; [done|].
  rewrite filter_cons.
  destruct (Chapter.summary c) as [[|a s]|] eqn:Hs; simpl; rewrite Hs; simpl;
    [|f_equal|]; apply IH.
Qed.

End Store.

(** ** The Context Chain *)

Section Context.

(** C7. When the read of the store succeeds, [context_for] (both
    [DatabaseService.get_previous_chapter_summaries] and
    [ContextManager.get_context_for_chapter]) returns exactly the summaries
    of the chapters of the book whose number is strictly below the target
    and whose summary is set (not null, and not the empty string, which
    Python's truth test drops as well), in ascending order of chapter
    number; nothing else appears. *)
Theorem context_is_prior_summaries book_id n w :
  store_fault w (store_calls w) = None ->
  exists summaries cs w',
    ContextManager.get_context_for_chapter book_id n w = (Ok summaries, w')
    /\ DatabaseService.get_previous_chapter_summaries book_id n w
       = (Ok summaries, requested w)
    /\ cs ≡ₚ prior_chapters book_id n w
    /\ ascending cs
    /\ Some <$> summaries = Chapter.summary <$> cs.
Proof.
  intros H.
  set (rows := Py.sort_by Chapter.chapter_number
                 (filter (fun c => Chapter.book_id c = book_id
                                   /\ Chapter.chapter_number c < n)
                    (chapters w))).
  exists (omap (fun s => if truthy s then s else None) (Chapter.summary <$> rows)),
    (filter (fun c => truthy (Chapter.summary c) = true) rows).
  eexists. split; [|split; [|split; [|split]]].
  - unfold ContextManager.get_context_for_chapter. apply try_except_ok.
    rewrite (bind_ok _ _ _ _ _ (get_previous_chapter_summaries_ok _ _ _ H)).
    reflexivity.
  - by rewrite get_previous_chapter_summaries_ok.
  - unfold rows, prior_chapters. rewrite sort_by_Permutation.
    by rewrite list_filter_filter.
  - apply ascending_filter, sort_by_sorted.
  - apply truthy_summaries.
Qed.

Lemma context_is_prior_summaries_witness :
  fst (ContextManager.get_context_for_chapter "b1" 4 Examples.world123)
  = Ok ["S1"; "S2"]
  /\ exists summaries cs w',
       ContextManager.get_context_for_chapter "b1" 4 Examples.world123
       = (Ok summaries, w')
       /\ DatabaseService.get_previous_chapter_summaries "b1" 4
            Examples.world123
          = (Ok summaries, requested Examples.world123)
       /\ cs ≡ₚ prior_chapters "b1" 4 Examples.world123
       /\ ascending cs
       /\ Some <$> summaries = Chapter.summary <$> cs.
Proof.
  split; [reflexivity|].
  apply (context_is_prior_summaries "b1" 4 Examples.world123). reflexivity.
Defined.

(** C10. For a chapter whose content is null or empty,
    [generate_and_store_summary] returns the empty string: it logs one
    warning and does nothing else, so the generation client is not called,
    the store gets no request and no record changes, and nothing is
    raised. *)
Theorem generate_and_store_summary_without_content chapter w :
  truthy (Chapter.content chapter) = false ->
  ContextManager.generate_and_store_summary chapter w
  = (Ok "",
     logging WARNING
       ("No content for chapter " +:+ Py.str (Chapter.chapter_number chapter)
        +:+ ", skipping summary") w)
  /\ model_calls (snd (ContextManager.generate_and_store_summary chapter w))
     = model_calls w
  /\ store_calls (snd (ContextManager.generate_and_store_summary chapter w))
     = store_calls w
  /\ chapters (snd (ContextManager.generate_and_store_summary chapter w))
     = chapters w.
Proof.
  intros H. unfold ContextManager.generate_and_store_summary. by rewrite H.
Qed.

Lemma generate_and_store_summary_without_content_witness :
  fst (ContextManager.generate_and_store_summary Examples.pending2
         Examples.world0) = Ok ""
  /\ model_calls (snd (ContextManager.generate_and_store_summary
                         Examples.pending2 Examples.world0)) = 0%nat.
Proof.
  destruct (generate_and_store_summary_without_content Examples.pending2
              Examples.world0 eq_refl) as (H1 & H2 & _).
  rewrite H1. split; [reflexivity|exact H2].
Defined.

End Context.

(** ** The Stage Gate *)

Section StageGate.

Ltac gate_read H :=
  first [ rewrite (bind_ok _ _ _ _ _ (get_chapters_by_book_ok _ _ H))
        | rewrite (bind_raise _ _ _ _ _ (get_chapters_by_book_fault _ _ _ H)) ].

Lemma stage_gates_keep {B} (f : World -> B) book n gate :
  (forall v w, f (set_store_calls v w) = f w) ->
  (forall v w, f (set_logged v w) = f w) ->
  gate ∈ [StateMachine.can_generate_outline book;
          StateMachine.can_regenerate_outline book;
          StateMachine.should_proceed_after_outline book;
          StateMachine.can_generate_chapter book n;
          StateMachine.should_wait_for_chapter_notes book n;
          StateMachine.can_compile_final_draft book] ->
  keeps f gate.
Proof.
  intros Hc Hl Hgate.
  repeat apply elem_of_cons in Hgate as [->|Hgate];
    [..|by apply elem_of_nil in Hgate];
    keeps_with ltac:(first [reflexivity | apply Hc | apply Hl]).
Qed.

(** C4, as amended. No Stage Gate predicate changes a record or a workflow
    state, calls the model or sleeps, whatever it returns or raises. The
    predicates are no pure functions of a snapshot: they are written over
    the record store, and [can_compile_final_draft], which begins with the
    read of the chapters of the book, raises what the store raises when the
    read fails (the store service has logged it), and returns a denial when
    the book has no chapter or has chapters without content. *)
Theorem stage_gate_reads_only book n :
  (forall gate,
     gate ∈ [StateMachine.can_generate_outline book;
             StateMachine.can_regenerate_outline book;
             StateMachine.should_proceed_after_outline book;
             StateMachine.can_generate_chapter book n;
             StateMachine.should_wait_for_chapter_notes book n;
             StateMachine.can_compile_final_draft book] ->
     keeps stored gate /\ keeps model_calls gate /\ keeps slept gate)
  /\ (forall w e,
        store_fault w (store_calls w) = Some e ->
        StateMachine.can_compile_final_draft book w
        = (Raise e,
           logging ERROR (fetch_error (Book.id book) e) (requested w)))
  /\ (forall w,
        store_fault w (store_calls w) = None ->
        DatabaseService.rows_of_book (Book.id book) w = [] ->
        StateMachine.can_compile_final_draft book w
        = (Ok (false, "No chapters exist"), requested w))
  /\ (forall w k ks,
        store_fault w (store_calls w) = None ->
        Chapter.chapter_number <$>
          filter (fun c => truthy (Chapter.content c) = false)
            (DatabaseService.rows_of_book (Book.id book) w)
        = k :: ks ->
        StateMachine.can_compile_final_draft book w
        = (Ok (false, "Chapters incomplete: " +:+ repr_list (k :: ks)),
           requested w)).
Proof.
  split; [|split; [|split]].
  - intros gate Hgate. repeat split; by eapply stage_gates_keep.
  - intros w e H. unfold StateMachine.can_compile_final_draft. by gate_read H.
  - intros w H Hrows. unfold StateMachine.can_compile_final_draft.
    gate_read H. by rewrite Hrows.
  - intros w k ks H Hinc. unfold StateMachine.can_compile_final_draft.
    gate_read H.
    destruct (DatabaseService.rows_of_book (Book.id book) w) as [|c cs];
      [done|].
    by rewrite Hinc.
Qed.

(** The gate for compilation when the store refuses the read: it raises,
    after a request to the store and an error in the log. *)
Lemma can_compile_final_draft_raises :
  let w := Examples.world_with [] store_down echo_model in
  StateMachine.can_compile_final_draft Examples.book1 w
  = (Raise (ClientError "connection reset"),
     logging ERROR "Error fetching chapters for book b1: connection reset"
       (requested w)).
Proof. reflexivity. Qed.

Lemma stage_gate_reads_only_witness :
  StateMachine.can_compile_final_draft Examples.book1
    (Examples.world_with [Examples.chapter1; Examples.pending2]
       no_fault echo_model)
  = (Ok (false, "Chapters incomplete: [2]"),
     requested (Examples.world_with [Examples.chapter1; Examples.pending2]
                  no_fault echo_model)).
Proof.
  destruct (stage_gate_reads_only Examples.book1 2) as (_ & _ & _ & H).
  by apply (H _ 2 []).
Defined.

End StageGate.

(** ** Sequential gating *)
Section Sequential.

Lemma get_book_ok book_id w :
  store_fault w (store_calls w) = None ->
  DatabaseService.get_book book_id w
  = (Ok (head (filter (fun b => Book.id b = book_id) (books w))), requested w).
Proof.
  intros H. unfold DatabaseService.get_book, DatabaseService.select.
  apply try_except_ok. rewrite (bind_ok _ _ _ _ _ (execute_ok _ _ H)). simpl.
  by destruct (filter _ _).
Qed.

Lemma get_book_fault book_id w e :
  store_fault w (store_calls w) = Some e ->
  DatabaseService.get_book book_id w
  = (Raise e,
     logging ERROR ("Error fetching book " +:+ book_id +:+ ": " +:+ exn_str e)
       (requested w)).
Proof.
  intros H. unfold DatabaseService.get_book, DatabaseService.select.
  by rewrite (try_except_raise _ _ _ _ _
                (bind_raise _ _ _ _ _ (execute_fault _ _ _ H))).
Qed.

Lemma head_filter_id book_id (bs : list Book.t) b :
  head (filter (fun b => Book.id b = book_id) bs) = Some b ->
  Book.id b = book_id.
Proof.
  intros H. apply head_Some_elem_of in H.
  by apply list_elem_of_filter in H as [? _].
Qed.

Lemma rows_of_book_chapters book_id w1 w :
  chapters w1 = chapters w ->
  DatabaseService.rows_of_book book_id w1 = DatabaseService.rows_of_book book_id w.
Proof. unfold DatabaseService.rows_of_book. by intros ->. Qed.




End Sequential.

(** ** The Generation Client *)
Section Retry.
Import LLMService.

Variables (prompt : string) (max_retries : Z).

Lemma retry_step_ok attempt rest w s :
  reply_at w prompt 0 = Ok s ->
  retry_loop (attempt :: rest) prompt max_retries w
  = (Ok s, set_model_calls (S (model_calls w)) w).
Proof.
  unfold reply_at. rewrite Nat.add_0_r. intros H. simpl.
  unfold try_except, generate_content. by rewrite H.
Qed.

Lemma retry_step_other attempt rest w e :
  reply_at w prompt 0 = Raise e ->
  is_rate_limit (exn_str e) = false ->
  retry_loop (attempt :: rest) prompt max_retries w
  = (Raise e,
     logging ERROR ("API error: " +:+ exn_str e)
       (set_model_calls (S (model_calls w)) w)).
Proof.
  unfold reply_at. rewrite Nat.add_0_r. intros H Hr. simpl.
  unfold try_except, generate_content. rewrite H. cbv beta iota zeta.
  by rewrite Hr.
Qed.

(** A delay that [time.sleep] takes can be printed: an [int] that fits the
    nanoseconds of the clock is far below the largest [float]. *)
Lemma format_delay_ok d :
  sleep_overflows d = false -> format_delay d = Ok (printed_delay d).
Proof.
  unfold printed_delay. destruct d as [[q|]|n]; [done|done|].
  unfold sleep_overflows, format_delay. intros Hfit. apply Z.ltb_ge in Hfit.
  unfold Py.round_double.
  change (Qnum (inject_Z n)) with n.
  change (Z.pos (Qden (inject_Z n))) with 1.
  destruct (n <=? 0) eqn:Hn; [done|]. apply Z.leb_gt in Hn.
  change (Z.log2 1) with 0.
  destruct (Py.scale2 n 1 (Z.log2 n - 0)) as [n0 d0].
  assert (Hlog : Z.log2 n < 34).
  { apply Z.log2_lt_pow2; lia. }
  set (e := if n0 <? d0 then Z.log2 n - 0 - 1 else Z.log2 n - 0).
  assert (He : e < 34) by (subst e; destruct (n0 <? d0); lia).
  destruct (Py.scale2 n 1 (Z.max e (-1022) - 52)) as [n1 d1].
  destruct (0 <=? Z.max e (-1022) - 52) eqn:Hu; [|done].
  apply Z.leb_le in Hu. lia.
Qed.

Lemma sleep_error_None w d :
  sleep_error w d = None
  <-> sleep_overflows d = false /\ sleep_fault w (length (slept w)) d = None.
Proof.
  unfold sleep_error. destruct (sleep_overflows d); [|tauto].
  split; [done|]. by intros [? _].
Qed.

Lemma sleep_run d w :
  sleep d w
  = match sleep_error w d with
    | Some e => (Raise e, w)
    | None => (Ok tt, set_slept (slept w ++ [seconds d])%list w)
    end.
Proof. unfold sleep, sleep_error. by destruct (sleep_overflows d). Qed.

Lemma retry_step_backoff attempt rest w e d :
  reply_at w prompt 0 = Raise e ->
  is_rate_limit (exn_str e) = true ->
  computed_delay attempt (exn_str e) = Some d ->
  Z.of_nat attempt < max_retries - 1 ->
  sleep_error w d = None ->
  retry_loop (attempt :: rest) prompt max_retries w
  = retry_loop rest prompt max_retries
      (after_backoff attempt max_retries d w).
Proof.
  unfold reply_at, computed_delay. rewrite Nat.add_0_r.
  intros H Hr Hd Hlt [Hfit Hclock]%sleep_error_None.
  apply Z.ltb_lt in Hlt. simpl.
  unfold try_except, generate_content. rewrite H. cbv beta iota zeta.
  rewrite Hr.
  assert (Hgo :
    forall w1,
      sleep_fault w1 = sleep_fault w -> slept w1 = slept w ->
      (printed <- lift (format_delay d) ;;
       logger.warning
         ("Rate limit hit. Retrying in " +:+ printed
          +:+ " seconds... (Attempt " +:+ Py.str (Z.of_nat attempt + 1)
          +:+ "/" +:+ Py.str max_retries +:+ ")") ;;
       sleep d ;;
       retry_loop rest prompt max_retries) w1
      = retry_loop rest prompt max_retries
          (set_slept (slept w1 ++ [seconds d])%list
             (logging WARNING
                ("Rate limit hit. Retrying in " +:+ printed_delay d
                 +:+ " seconds... (Attempt " +:+ Py.str (Z.of_nat attempt + 1)
                 +:+ "/" +:+ Py.str max_retries +:+ ")") w1))).
  { intros w1 Hsf Hsl. unfold bind at 1, lift.
    rewrite (format_delay_ok _ Hfit).
    unfold bind at 1, logger.warning, logger.emit, modify.
    unfold bind at 1, sleep. rewrite Hfit. simpl.
    rewrite Hsf, Hsl, Hclock. done. }
  destruct (retry_search (exn_str e)) as [g|].
  - destruct (float g) as [x|]; [|done]. injection Hd as <-.
    unfold bind at 1. unfold ret at 1. rewrite Hlt. by apply Hgo.
  - injection Hd as <-. unfold bind at 1. unfold ret at 1. rewrite Hlt.
    by apply Hgo.
Qed.

Lemma retry_step_exhausted attempt rest w e d :
  reply_at w prompt 0 = Raise e ->
  is_rate_limit (exn_str e) = true ->
  computed_delay attempt (exn_str e) = Some d ->
  max_retries - 1 <= Z.of_nat attempt ->
  retry_loop (attempt :: rest) prompt max_retries w
  = (Raise (Exception rate_limit_message),
     logging ERROR ("Rate limit exceeded after " +:+ Py.str max_retries
                    +:+ " attempts")
       (set_model_calls (S (model_calls w)) w)).
Proof.
  unfold reply_at, computed_delay. rewrite Nat.add_0_r.
  intros H Hr Hd Hlt. apply Z.ltb_ge in Hlt. simpl.
  unfold try_except, generate_content. rewrite H. cbv beta iota zeta.
  rewrite Hr.
  destruct (retry_search (exn_str e)) as [g|].
  - destruct (float g) as [x|]; [|done].
    unfold bind at 1. unfold ret at 1. by rewrite Hlt.
  - unfold bind at 1. unfold ret at 1. by rewrite Hlt.
Qed.

Lemma retry_step_bad_delay attempt rest w e g :
  reply_at w prompt 0 = Raise e ->
  is_rate_limit (exn_str e) = true ->
  retry_search (exn_str e) = Some g ->
  float g = None ->
  retry_loop (attempt :: rest) prompt max_retries w
  = (Raise (ValueError ("could not convert string to float: '" +:+ g +:+ "'")),
     set_model_calls (S (model_calls w)) w).
Proof.
  unfold reply_at. rewrite Nat.add_0_r. intros H Hr Hg Hf. simpl.
  unfold try_except, generate_content. rewrite H. cbv beta iota zeta.
  by rewrite Hr, Hg, Hf.
Qed.

Lemma reply_at_after_backoff attempt d w j :
  reply_at (after_backoff attempt max_retries d w) prompt j
  = reply_at w prompt (S j).
Proof. unfold reply_at. simpl. f_equal. lia. Qed.

Lemma wait_goes_through first w n e :
  waits_go_through first w prompt (S n) ->
  reply_at w prompt 0 = Raise e ->
  is_rate_limit (exn_str e) = true ->
  exists d,
    computed_delay first (exn_str e) = Some d
    /\ ((1 <= n)%nat -> sleep_error w d = None).
Proof.
  intros Hwf H Hr. destruct (Hwf 0%nat e) as (d & Hd & Hsleep);
    [lia|done|done|].
  rewrite !Nat.add_0_r in *. exists d. split; [done|].
  intros Hn. apply sleep_error_None. apply Hsleep. lia.
Qed.

Lemma waits_go_through_after first d w n :
  waits_go_through first w prompt (S n) ->
  waits_go_through (S first) (after_backoff first max_retries d w) prompt n.
Proof.
  intros Hwf j e Hj. rewrite reply_at_after_backoff. intros He Hr.
  destruct (Hwf (S j) e) as (d' & Hd & Hsleep); [lia|done|done|].
  exists d'. replace (S first + j)%nat with (first + S j)%nat by lia.
  split; [done|]. intros Hlast.
  unfold after_backoff. simpl. rewrite length_app. simpl.
  replace (length (slept w) + 1 + j)%nat
    with (length (slept w) + S j)%nat by lia.
  apply Hsleep. lia.
Qed.

Lemma waits_go_through_le first w n m :
  (m <= n)%nat ->
  waits_go_through first w prompt n -> waits_go_through first w prompt m.
Proof.
  intros Hle H j e Hj He Hr. destruct (H j e) as (d & Hd & Hsleep);
    [lia|done|done|].
  exists d. split; [done|]. intros Hlast. apply Hsleep. lia.
Qed.

Lemma rate_limited_after attempt d w n :
  (forall j, (j < S n)%nat -> rate_limit_failure (reply_at w prompt j)) ->
  forall j, (j < n)%nat ->
    rate_limit_failure
      (reply_at (after_backoff attempt max_retries d w) prompt j).
Proof.
  intros H j Hj. rewrite reply_at_after_backoff. apply H. lia.
Qed.

(** A failure that is not a rate limit, after [i] rate-limited attempts. *)
Lemma reraise_from i :
  forall a len w e,
    Z.of_nat (a + len) = max_retries ->
    (i < len)%nat ->
    waits_go_through a w prompt (S i) ->
    (forall j, (j < i)%nat -> rate_limit_failure (reply_at w prompt j)) ->
    reply_at w prompt i = Raise e ->
    is_rate_limit (exn_str e) = false ->
    exists w',
      retry_loop (seq a len) prompt max_retries w = (Raise e, w')
      /\ model_calls w' = (model_calls w + S i)%nat.
Proof.
  induction i as [|i IH]; intros a len w e Hmax Hlen Hwf Hrl Hi Hother;
    (destruct len as [|len]; [lia|]); simpl seq.
  - rewrite (retry_step_other _ _ _ _ Hi Hother). eexists. split; [done|].
    simpl. lia.
  - destruct (Hrl 0%nat) as (e0 & H0 & Hr0); [lia|].
    destruct (wait_goes_through a w (S i) e0 Hwf H0 Hr0) as (d & Hd & Hsleep).
    rewrite (retry_step_backoff _ _ _ _ _ H0 Hr0 Hd) by (lia || apply Hsleep; lia).
    destruct (IH (S a) len (after_backoff a max_retries d w) e)
      as (w' & Hrun & Hcalls).
    + lia.
    + lia.
    + by apply waits_go_through_after.
    + by apply rate_limited_after.
    + by rewrite reply_at_after_backoff.
    + done.
    + exists w'. split; [done|]. rewrite Hcalls. simpl. lia.
Qed.

(** Every remaining attempt is rate-limited. *)
Lemma exhausted_from len :
  forall a w,
    Z.of_nat (a + len) = max_retries ->
    (1 <= len)%nat ->
    waits_go_through a w prompt len ->
    (forall j, (j < len)%nat -> rate_limit_failure (reply_at w prompt j)) ->
    exists w',
      retry_loop (seq a len) prompt max_retries w
      = (Raise (Exception rate_limit_message), w')
      /\ model_calls w' = (model_calls w + len)%nat.
Proof.
  induction len as [|len IH]; intros a w Hmax Hlen Hwf Hrl; [lia|].
  simpl seq.
  destruct (Hrl 0%nat) as (e0 & H0 & Hr0); [lia|].
  destruct (wait_goes_through a w len e0 Hwf H0 Hr0) as (d & Hd & Hsleep).
  destruct len as [|len].
  - rewrite (retry_step_exhausted _ _ _ _ _ H0 Hr0 Hd) by lia.
    eexists. split; [done|]. simpl. lia.
  - rewrite (retry_step_backoff _ _ _ _ _ H0 Hr0 Hd)
      by (lia || apply Hsleep; lia).
    destruct (IH (S a) (after_backoff a max_retries d w))
      as (w' & Hrun & Hcalls).
    + lia.
    + lia.
    + by apply waits_go_through_after.
    + by apply rate_limited_after.
    + exists w'. split; [done|]. rewrite Hcalls. simpl. lia.
Qed.

(** Whatever is raised is one of the two. *)
Lemma raise_from len :
  forall a w e w',
    Z.of_nat (a + len) = max_retries ->
    (1 <= len)%nat ->
    waits_go_through a w prompt len ->
    retry_loop (seq a len) prompt max_retries w = (Raise e, w') ->
    (exists i,
       (i < len)%nat
       /\ reply_at w prompt i = Raise e
       /\ is_rate_limit (exn_str e) = false
       /\ model_calls w' = (model_calls w + S i)%nat)
    \/ (e = Exception rate_limit_message
        /\ forall j, (j < len)%nat ->
                     rate_limit_failure (reply_at w prompt j)).
Proof.
  induction len as [|len IH]; intros a w e w' Hmax Hlen Hwf Hrun; [lia|].
  simpl seq in Hrun.
  destruct (reply_at w prompt 0) as [s|e0] eqn:H0.
  { by rewrite (retry_step_ok _ _ _ _ H0) in Hrun. }
  destruct (is_rate_limit (exn_str e0)) eqn:Hr0.
  2:{ rewrite (retry_step_other _ _ _ _ H0 Hr0) in Hrun.
      injection Hrun as <- <-. left. exists 0%nat.
      repeat split; [lia|done|done|simpl; lia]. }
  destruct (wait_goes_through a w len e0 Hwf H0 Hr0) as (d & Hd & Hsleep).
  destruct len as [|len].
  - rewrite (retry_step_exhausted _ _ _ _ _ H0 Hr0 Hd) in Hrun by lia.
    injection Hrun as <- <-. right. split; [done|].
    intros j Hj. replace j with 0%nat by lia. rewrite H0. by exists e0.
  - rewrite (retry_step_backoff _ _ _ _ _ H0 Hr0 Hd) in Hrun
      by (lia || apply Hsleep; lia).
    apply IH in Hrun as [(i & Hi & Hrep & Hother & Hcalls)|[-> Hall]];
      [| |lia|lia|by apply waits_go_through_after].
    + left. exists (S i). rewrite reply_at_after_backoff in Hrep.
      repeat split; [lia|done|done|]. rewrite Hcalls. simpl. lia.
    + right. split; [done|]. intros [|j] Hj.
      * rewrite H0. by exists e0.
      * rewrite <- (reply_at_after_backoff a d). apply Hall. lia.
Qed.

End Retry.

Section DelayPattern.
Import LLMService.

Lemma append_String c a b : (String c a ++ b)%string = String c (a ++ b)%string.
Proof. reflexivity. Qed.

Lemma strip_prefix_iff p s r :
  Py.strip_prefix p s = Some r <-> s = (p ++ r)%string.
Proof.
  revert s. induction p as [|a p IH]; intros s.
  - change ("" ++ r)%string with r. destruct s; simpl; split; congruence.
  - rewrite append_String. destruct s as [|b s]; [done|]. simpl.
    destruct (Ascii.eqb_spec a b) as [->|Hab].
    + rewrite IH. split; congruence.
    + split; congruence.
Qed.

Lemma decimal_is_no_dot c : Py.isdecimal c = true -> Ascii.eqb c "." = false.
Proof. destruct c as [[] [] [] [] [] [] [] []]; by vm_compute. Qed.

Lemma retry_at_complete g post :
  delay_text g -> retry_at ("retry in " ++ g ++ "s" ++ post) = Some g.
Proof.
  intros [Hne Hg]. unfold retry_at.
  rewrite (proj2 (strip_prefix_iff "retry in " _ _) eq_refl).
  change (g ++ "s" ++ post)%string with (g ++ String "s" post)%string.
  rewrite (span_app _ _ "s" _ Hg eq_refl). by destruct g.
Qed.

Lemma retry_at_sound s g :
  retry_at s = Some g ->
  delay_text g /\ exists post, s = ("retry in " ++ g ++ "s" ++ post)%string.
Proof.
  unfold retry_at.
  destruct (Py.strip_prefix "retry in " s) as [r|] eqn:Hp; [|done].
  apply strip_prefix_iff in Hp as ->.
  destruct (Py.span is_delay_char r) as [a b] eqn:Hs.
  apply span_spec in Hs as [-> Ha].
  destruct a as [|c a]; [done|]. destruct b as [|x b]; [done|].
  destruct (Ascii.eqb_spec x "s") as [->|Hx].
  - intros [= <-]. split; [done|]. by exists b.
  - intros H. exfalso. clear -H Hx.
    destruct x as [[] [] [] [] [] [] [] []]; done.
Qed.

Lemma retry_search_unfold s :
  retry_search s
  = match retry_at s with
    | Some g => Some g
    | None => match s with
              | EmptyString => None
              | String _ rest => retry_search rest
              end
    end.
Proof. by destruct s. Qed.

(** [re.search] returns the group of the leftmost position at which the
    pattern matches. *)
Lemma retry_search_leftmost pre :
  forall s g,
    retry_at s = Some g ->
    (forall pre' s', (pre ++ s)%string = (pre' ++ s')%string ->
                     (String.length pre' < String.length pre)%nat ->
                     retry_at s' = None) ->
    retry_search (pre ++ s) = Some g.
Proof.
  induction pre as [|c pre IH]; intros s g Hat Hmin.
  - rewrite retry_search_unfold. change ("" ++ s)%string with s.
    by rewrite Hat.
  - rewrite retry_search_unfold, append_String.
    rewrite (Hmin "" (String c (pre ++ s))%string eq_refl) by (simpl; lia).
    apply IH; [done|]. intros pre' s' Heq Hlen.
    apply (Hmin (String c pre')); [by rewrite !append_String, Heq|simpl; lia].
Qed.

Lemma retry_search_position msg :
  forall g,
    retry_search msg = Some g ->
    exists pre s,
      msg = (pre ++ s)%string /\ retry_at s = Some g
      /\ forall pre' s', msg = (pre' ++ s')%string ->
                         (String.length pre' < String.length pre)%nat ->
                         retry_at s' = None.
Proof.
  induction msg as [|c msg IH]; intros g; rewrite retry_search_unfold.
  - done.
  - destruct (retry_at (String c msg)) as [g0|] eqn:Hat.
    + intros [= ->]. exists "", (String c msg). split; [done|].
      split; [done|]. simpl. lia.
    + intros (pre & s & -> & Hs & Hmin)%IH.
      exists (String c pre), s. split; [done|]. split; [done|].
      intros [|c' pre'] s' Heq Hlen.
      * change ("" ++ s')%string with s' in Heq. by subst s'.
      * rewrite !append_String in Heq. injection Heq as <- Heq.
        apply (Hmin pre' s' Heq). simpl in Hlen. lia.
Qed.

Lemma retry_search_finds pre :
  forall s g, retry_at s = Some g -> retry_search (pre ++ s) <> None.
Proof.
  induction pre as [|c pre IH]; intros s g Hat; rewrite retry_search_unfold.
  - change ("" ++ s)%string with s. by rewrite Hat.
  - rewrite append_String.
    destruct (retry_at (String c (pre ++ s))); [done|]. by eapply IH.
Qed.

(** The search of the client finds the delay that the message embeds. *)
Lemma retry_search_embeds error_msg g :
  retry_search error_msg = Some g <-> embeds_delay error_msg g.
Proof.
  split.
  - intros (pre & s & -> & Hat & Hmin)%retry_search_position.
    destruct (retry_at_sound _ _ Hat) as (Hg & post & ->).
    split; [done|]. exists pre, post. split; [done|].
    intros pre' g' post' Hg' Heq.
    destruct (le_lt_dec (String.length pre) (String.length pre')) as [|Hlt];
      [done|].
    specialize (Hmin _ _ Heq Hlt). by rewrite retry_at_complete in Hmin.
  - intros (Hg & pre & post & -> & Hmin).
    apply retry_search_leftmost; [by apply retry_at_complete|].
    intros pre' s' Heq Hlen.
    destruct (retry_at s') as [g'|] eqn:Hat; [|done].
    destruct (retry_at_sound _ _ Hat) as (Hg' & post' & ->).
    specialize (Hmin _ _ _ Hg' Heq). lia.
Qed.

Lemma retry_search_embeds_none error_msg :
  retry_search error_msg = None <-> embeds_no_delay error_msg.
Proof.
  split.
  - intros Hnone pre g post Hg ->.
    by apply (retry_search_finds pre _ g (retry_at_complete g post Hg)).
  - intros Hno. destruct (retry_search error_msg) as [g|] eqn:Hs; [|done].
    apply retry_search_embeds in Hs as (Hg & pre & post & Heq & _).
    by destruct (Hno pre g post Hg).
Qed.

Lemma split_dot_decimal s :
  Py.all_chars Py.isdecimal s = true -> split_dot s = None.
Proof.
  induction s as [|c s IH]; [done|]. simpl.
  intros [Hc Hs]%andb_prop. by rewrite (decimal_is_no_dot _ Hc), IH.
Qed.

Lemma split_dot_numeral whole f :
  Py.all_chars Py.isdecimal whole = true ->
  split_dot (whole ++ "." ++ f) = Some (whole, f).
Proof.
  induction whole as [|c s IH]; [done|]. rewrite append_String. simpl.
  intros [Hc Hs]%andb_prop. by rewrite (decimal_is_no_dot _ Hc), IH.
Qed.

(** [float] of a decimal numeral is the double nearest to the number it
    denotes. *)
Lemma float_numeral whole fraction :
  is_numeral whole fraction ->
  float (numeral whole fraction)
  = Some (Py.round_double (numeral_value whole fraction)).
Proof.
  intros (Hw & Hf & Hne). unfold float, numeral, numeral_value.
  destruct fraction as [f|]; simpl in Hf, Hne.
  - rewrite (split_dot_numeral _ _ Hw), Hf.
    by destruct (whole ++ f)%string.
  - rewrite (split_dot_decimal _ Hw).
    destruct whole; [by destruct Hne|done].
Qed.

Lemma scheduled_delay_computed (k : nat) error_msg d :
  (1 <= k)%nat ->
  scheduled_delay k error_msg d ->
  computed_delay (k - 1) error_msg = Some d.
Proof.
  intros Hk [(whole & fraction & Hnum & Hemb & ->)|[Hno ->]];
    unfold computed_delay.
  - apply retry_search_embeds in Hemb. rewrite Hemb.
    by rewrite (float_numeral _ _ Hnum).
  - apply retry_search_embeds_none in Hno. rewrite Hno. do 2 f_equal.
    replace (Z.of_nat (k - 1)) with (Z.of_nat k - 1) by lia. lia.
Qed.

End DelayPattern.

Section Schedule.
Import LLMService.

Variables (prompt : string) (max_retries : Z).

(** The attempts that fail with a rate limit and are followed by the wait
    that the schedule gives, from attempt [a] on. *)
Lemma schedule_from ds :
  forall a len w,
    Z.of_nat (a + len) = max_retries ->
    (length ds < len)%nat ->
    (forall j d,
       ds !! j = Some d ->
       exists e,
         reply_at w prompt j = Raise e
         /\ is_rate_limit (exn_str e) = true
         /\ scheduled_delay (S (a + j)) (exn_str e) d
         /\ sleep_overflows d = false
         /\ sleep_fault w (length (slept w) + j) d = None) ->
    exists w',
      retry_loop (seq a len) prompt max_retries w
      = retry_loop (seq (a + length ds) (len - length ds)) prompt
          max_retries w'
      /\ slept w' = (slept w ++ (seconds <$> ds))%list
      /\ model_calls w' = (model_calls w + length ds)%nat
      /\ forall j, reply_at w' prompt j = reply_at w prompt (length ds + j).
Proof.
  induction ds as [|d ds IH]; intros a len w Hmax Hlen Hds.
  - exists w. simpl. rewrite Nat.add_0_r, Nat.sub_0_r, app_nil_r.
    repeat split; lia.
  - simpl in Hlen. destruct len as [|len]; [lia|].
    destruct (Hds 0%nat d eq_refl) as (e & H0 & Hr & Hsched & Hfit & Hclock).
    rewrite !Nat.add_0_r in *.
    apply scheduled_delay_computed in Hsched; [|lia].
    replace (S a - 1)%nat with a in Hsched by lia.
    simpl seq.
    rewrite (retry_step_backoff _ _ _ _ _ _ _ H0 Hr Hsched)
      by (lia || by apply sleep_error_None).
    destruct (IH (S a) len (after_backoff a max_retries d w))
      as (w' & Hrun & Hslept & Hcalls & Hreply).
    + lia.
    + lia.
    + intros j d' Hj. destruct (Hds (S j) d' Hj)
        as (e' & H' & Hr' & Hsched' & Hfit' & Hclock').
      exists e'. rewrite reply_at_after_backoff.
      replace (S a + j)%nat with (a + S j)%nat by lia.
      repeat split; try done.
      unfold after_backoff. simpl. rewrite length_app. simpl.
      by replace (length (slept w) + 1 + j)%nat
        with (length (slept w) + S j)%nat by lia.
    + exists w'. rewrite Hrun.
      replace (S a + length ds)%nat with (a + length (d :: ds))%nat
        by (simpl; lia).
      split; [done|]. split; [|split].
      * rewrite Hslept. unfold after_backoff. simpl.
        by rewrite <- app_assoc.
      * rewrite Hcalls. simpl. lia.
      * intros j. rewrite Hreply, reply_at_after_backoff.
        f_equal; simpl; lia.
Qed.

End Schedule.

Section RetryTheorems.
Import LLMService.

(** C5, as amended. While the attempts fail with a rate limit and are not
    the last, the client waits after each failure and then makes the next
    attempt: after the k-th failure it hands [time.sleep] the [float]
    nearest to the number that the message embeds as [retry in <n>s] (the
    leftmost one, a decimal numeral), and 5 * 2^(k-1) when the message
    embeds none, provided [time.sleep] accepts the delay. After k such
    failures the client has slept exactly these delays, in order, has
    called the model k times and makes attempt k+1; an answer to that
    attempt is returned. *)
Theorem backoff_schedule prompt max_retries w ds :
  Z.of_nat (length ds) < max_retries ->
  (forall j d,
     ds !! j = Some d ->
     exists e,
       reply_at w prompt j = Raise e
       /\ is_rate_limit (exn_str e) = true
       /\ scheduled_delay (S j) (exn_str e) d
       /\ sleep_overflows d = false
       /\ sleep_fault w (length (slept w) + j) d = None) ->
  exists w',
    _call_with_retry prompt max_retries w
    = retry_loop
        (length ds :: seq (S (length ds)) (Z.to_nat max_retries - S (length ds)))
        prompt max_retries w'
    /\ slept w' = (slept w ++ (seconds <$> ds))%list
    /\ model_calls w' = (model_calls w + length ds)%nat
    /\ forall s,
         reply_at w prompt (length ds) = Ok s ->
         _call_with_retry prompt max_retries w
         = (Ok s, set_model_calls (S (model_calls w')) w').
Proof.
  intros Hlen Hds. unfold _call_with_retry.
  destruct (schedule_from prompt max_retries ds 0 (Z.to_nat max_retries) w)
    as (w' & Hrun & Hslept & Hcalls & Hreply); [lia|lia|done|].
  exists w'.
  assert (Hseq : seq (0 + length ds) (Z.to_nat max_retries - length ds)
                 = length ds
                   :: seq (S (length ds))
                        (Z.to_nat max_retries - S (length ds))).
  { replace (Z.to_nat max_retries - length ds)%nat
      with (S (Z.to_nat max_retries - S (length ds))) by lia.
    done. }
  rewrite Hseq in Hrun. split; [done|]. split; [done|]. split; [done|].
  intros s Hs. rewrite Hrun. apply retry_step_ok.
  by rewrite Hreply, Nat.add_0_r.
Qed.

Lemma limited_schedule j d :
  [FloatDelay (Py.Finite (Qmake 5 2)); IntDelay 10] !! j = Some d ->
  exists e,
    reply_at Examples.world_limited "p" j = Raise e
    /\ is_rate_limit (exn_str e) = true
    /\ scheduled_delay (S j) (exn_str e) d
    /\ sleep_overflows d = false
    /\ sleep_fault Examples.world_limited
         (length (slept Examples.world_limited) + j) d = None.
Proof.
  destruct j as [|[|j]]; [| |done]; intros [= <-]; eexists;
    (split; [reflexivity|]); (split; [reflexivity|]);
    (split; [|split; reflexivity]).
  - left. exists "2", (Some "5"). split; [by repeat split|].
    split; [by apply retry_search_embeds|reflexivity].
  - right. split; [by apply retry_search_embeds_none|reflexivity].
Qed.

Lemma backoff_schedule_witness :
  exists w',
    _call_with_retry "p" 3 Examples.world_limited
    = retry_loop [2%nat] "p" 3 w'
    /\ slept w' = [Qmake 5 2; inject_Z 10]
    /\ model_calls w' = 2%nat
    /\ forall s,
         reply_at Examples.world_limited "p" 2 = Ok s ->
         _call_with_retry "p" 3 Examples.world_limited
         = (Ok s, set_model_calls (S (model_calls w')) w').
Proof.
  apply (backoff_schedule "p" 3 Examples.world_limited
           [FloatDelay (Py.Finite (Qmake 5 2)); IntDelay 10]);
    [simpl; lia|apply limited_schedule].
Defined.

(** An embedded delay of 99999999999 seconds is more than [time.sleep]
    takes: the client raises [OverflowError] after the first attempt,
    without a wait and without a second attempt. And an embedded delay of
    0.1 seconds is slept as the [float] nearest to it, which is another
    number. *)
Lemma embedded_delay_not_slept :
  reply_at Examples.world_patient "p" 0
  = Raise (ClientError "429 retry in 99999999999s")
  /\ is_rate_limit "429 retry in 99999999999s" = true
  /\ embeds_delay "429 retry in 99999999999s" "99999999999"
  /\ fst (_call_with_retry "p" 3 Examples.world_patient)
     = Raise (OverflowError "timestamp too large to convert to C _PyTime_t")
  /\ slept (snd (_call_with_retry "p" 3 Examples.world_patient)) = []
  /\ model_calls (snd (_call_with_retry "p" 3 Examples.world_patient)) = 1%nat
  /\ embeds_delay "429 retry in 0.1s" "0.1"
  /\ slept (snd (_call_with_retry "p" 2
                   (Examples.world_with [] no_fault
                      (fun _ _ => Raise (ClientError "429 retry in 0.1s")))))
     = [Qmake 3602879701896397 36028797018963968]
  /\ ~ Qeq (Qmake 3602879701896397 36028797018963968) (Qmake 1 10).
Proof.
  split; [reflexivity|]. split; [reflexivity|].
  split; [by apply retry_search_embeds|].
  split; [by vm_compute|]. split; [by vm_compute|]. split; [by vm_compute|].
  split; [by apply retry_search_embeds|]. split; [by vm_compute|].
  unfold Qeq. simpl. lia.
Qed.

(** C6, as amended. With [max_retries] at least 1, every embedded delay a
    decimal number and every wait accepted by [time.sleep]: a failure
    whose message does not indicate a rate limit is raised again at once,
    with no further attempt; when all [max_retries] attempts fail with a
    rate limit the client raises the rate-limit error with its message for
    the user; and nothing else is ever raised. With [max_retries] at most
    0 the client makes no attempt and raises the generic [Failed after
    maximum retries]. *)
Theorem retry_raise_discipline w prompt max_retries :
  (1 <= max_retries ->
   waits_go_through 0 w prompt (Z.to_nat max_retries) ->
   (forall i e,
      (i < Z.to_nat max_retries)%nat ->
      (forall j, (j < i)%nat -> rate_limit_failure (reply_at w prompt j)) ->
      reply_at w prompt i = Raise e ->
      is_rate_limit (exn_str e) = false ->
      exists w',
        _call_with_retry prompt max_retries w = (Raise e, w')
        /\ model_calls w' = (model_calls w + S i)%nat)
   /\ ((forall j, (j < Z.to_nat max_retries)%nat ->
                  rate_limit_failure (reply_at w prompt j)) ->
       exists w',
         _call_with_retry prompt max_retries w
         = (Raise (Exception rate_limit_message), w')
         /\ model_calls w' = (model_calls w + Z.to_nat max_retries)%nat)
   /\ (forall e w',
         _call_with_retry prompt max_retries w = (Raise e, w') ->
         (exists i,
            (i < Z.to_nat max_retries)%nat
            /\ reply_at w prompt i = Raise e
            /\ is_rate_limit (exn_str e) = false
            /\ model_calls w' = (model_calls w + S i)%nat)
         \/ (e = Exception rate_limit_message
             /\ forall j, (j < Z.to_nat max_retries)%nat ->
                          rate_limit_failure (reply_at w prompt j))))
  /\ (max_retries <= 0 ->
      _call_with_retry prompt max_retries w
      = (Raise (Exception "Failed after maximum retries"), w)).
Proof.
  unfold _call_with_retry. split.
  - intros Hmax Hwf. split; [|split].
    + intros i e Hi Hrl He Hother.
      apply reraise_from; try done; [lia|].
      eapply waits_go_through_le; [|exact Hwf]. lia.
    + intros Hrl. apply exhausted_from; try done; lia.
    + intros e w' Hrun. eapply raise_from; [| |exact Hwf|exact Hrun]; lia.
  - intros Hmax. by replace (Z.to_nat max_retries) with 0%nat by lia.
Qed.

(** A rate-limit failure whose embedded delay is no number makes the
    client raise [ValueError], one whose delay is too long for
    [time.sleep] makes it raise [OverflowError]; and with no attempt
    allowed it raises the generic error. *)
Lemma client_raises_otherwise :
  reply_at Examples.world_garbled "p" 0
  = Raise (ClientError "429 Too Many Requests, retry in 1.2.3s")
  /\ is_rate_limit "429 Too Many Requests, retry in 1.2.3s" = true
  /\ fst (_call_with_retry "p" 3 Examples.world_garbled)
     = Raise (ValueError "could not convert string to float: '1.2.3'")
  /\ fst (_call_with_retry "p" 3 Examples.world_patient)
     = Raise (OverflowError "timestamp too large to convert to C _PyTime_t")
  /\ fst (_call_with_retry "p" 0 Examples.world_busy)
     = Raise (Exception "Failed after maximum retries").
Proof. repeat split; by vm_compute. Qed.

Lemma busy_waits_go_through prompt :
  waits_go_through 0 Examples.world_busy prompt 3.
Proof.
  intros j e Hj [= <-] _. eexists. split; [reflexivity|]. intros _.
  destruct j as [|[|[|j]]]; [by vm_compute..|lia].
Qed.

Lemma retry_raise_discipline_witness :
  exists w',
    _call_with_retry "p" 3 Examples.world_busy
    = (Raise (Exception rate_limit_message), w')
    /\ model_calls w' = 3%nat.
Proof.
  destruct (retry_raise_discipline Examples.world_busy "p" 3) as [H _].
  destruct (H ltac:(lia) (busy_waits_go_through "p")) as (_ & Hall & _).
  apply Hall. intros j _. by eexists.
Defined.

End RetryTheorems.

(** ** Approval of a chapter *)

Section Approval.

Lemma rating_step book_id chapter_num approval w :
  rating_recordable book_id approval w ->
  match Api.rating approval, workflow_states w !! book_id with
  | Some r, Some s =>
      match WorkflowState.ratings s with
      | Some rs =>
          Api.update_state book_id
            (WorkflowState.with_ratings
               (rs ++ [("chapter_" +:+ Py.str chapter_num, r)])%list)
      | None => raise (KeyError "'ratings'")
      end
  | _, _ => ret tt
  end w = (Ok tt, with_rating book_id chapter_num approval w).
Proof.
  intros Hrec. unfold with_rating.
  destruct (Api.rating approval) as [r|] eqn:Hr; [|done].
  destruct (workflow_states w !! book_id) as [s|] eqn:Hs; [|done].
  destruct (Hrec r s Hr Hs) as [rs Hrs]. rewrite Hrs.
  unfold Api.update_state, modify. by rewrite Hs.
Qed.

Lemma with_rating_store book_id chapter_num approval w :
  store_fault (with_rating book_id chapter_num approval w)
    (store_calls (with_rating book_id chapter_num approval w))
  = store_fault w (store_calls w)
  /\ chapters (with_rating book_id chapter_num approval w) = chapters w
  /\ uuid_parse (with_rating book_id chapter_num approval w) = uuid_parse w.
Proof.
  unfold with_rating.
  destruct (Api.rating approval); [|done].
  destruct (workflow_states w !! book_id) as [s|]; [|done].
  by destruct (WorkflowState.ratings s).
Qed.

Lemma UUID_ok book_id w u :
  uuid_parse w book_id = Some u -> Api.UUID book_id w = (Ok u, w).
Proof. intros H. unfold Api.UUID, bind, get_world. by rewrite H. Qed.

Lemma state_of_run book_id w :
  Api.state_of book_id w = (Ok (workflow_states w !! book_id), w).
Proof. done. Qed.

Lemma if_ret {A} (c : bool) (a b : A) w :
  (if c then ret a else ret b) w = (Ok (if c then a else b), w).
Proof. by destruct c. Qed.

Lemma approval_tail {A} book_id (c : option WorkflowState.t -> bool)
    (a b : A) w :
  (state <- Api.state_of book_id ;; if c state then ret a else ret b) w
  = (Ok (if c (workflow_states w !! book_id) then a else b), w).
Proof. rewrite (bind_ok _ _ _ _ _ (state_of_run _ _)). apply if_ret. Qed.

(** C8. When an approval reaches a chapter that exists, the chapter is
    reported approved and the response names the next step, whatever
    happens to the summary: if generating it fails, a warning (and a note
    that approval continues) is logged and nothing is raised; if saving it
    fails, a warning is logged and nothing is raised. *)
Theorem approval_survives_summary_failure
    book_id book_uuid chapter_num approval chapter w :
  Api.approved approval = true ->
  uuid_parse w book_id = Some book_uuid ->
  rating_recordable book_id approval w ->
  store_fault w (store_calls w) = None ->
  find_chapter chapter_num (DatabaseService.rows_of_book book_uuid w)
  = Some chapter ->
  exists response w',
    Api.approve_chapter book_id chapter_num approval w = (Ok response, w')
    /\ reports_approved chapter_num response
    /\ match LLMService.generate_chapter_summary (Chapter.content chapter)
               chapter_num (Chapter.title chapter)
               (requested (with_rating book_id chapter_num approval w)) with
       | (Raise e, w2) =>
           w' = logging INFO
                  "Continuing without summary - chapter can still be approved"
                  (logging WARNING
                     ("Could not generate summary for chapter "
                      +:+ Py.str chapter_num +:+ ": " +:+ exn_str e) w2)
       | (Ok summary, w2) =>
           let w3 := logging SUCCESS
                       ("Summary generated for chapter "
                        +:+ Py.str chapter_num) w2 in
           if truthy (Some summary) then
             match DatabaseService.update_chapter (Chapter.id chapter)
                     (DatabaseService.Updates None (Some summary) None None)
                     w3 with
             | (Raise e, w4) =>
                 w' = logging WARNING
                        ("Could not save summary: " +:+ exn_str e) w4
             | (Ok _, w4) => w' = w4
             end
           else w' = w3
       end.
Proof.
  intros Happroved Huuid Hrating Hfault Hfind.
  set (wr := with_rating book_id chapter_num approval w).
  destruct (with_rating_store book_id chapter_num approval w)
    as (Hwr1 & Hwr2 & _). fold wr in Hwr1, Hwr2.
  assert (Hread : DatabaseService.get_chapters_by_book book_uuid wr
                  = (Ok (DatabaseService.rows_of_book book_uuid w),
                     requested wr)).
  { rewrite get_chapters_by_book_ok by (by rewrite Hwr1).
    by rewrite (rows_of_book_chapters _ _ _ Hwr2). }
  assert (Hshape : forall n total : Z,
             reports_approved n
               (if n <? total
                then {| Api.message := "Chapter " +:+ Py.str n +:+ " approved!";
                        Api.approval_status := "approved";
                        Api.next_step :=
                          Some ("generate_chapter_" +:+ Py.str (n + 1));
                        Api.returned_feedback := None |}
                else {| Api.message := "All chapters completed!";
                        Api.approval_status := "all_approved";
                        Api.next_step := Some "final_review";
                        Api.returned_feedback := None |})).
  { intros n total. destruct (n <? total); [by left|by right]. }
  unfold Api.approve_chapter.
  destruct (LLMService.generate_chapter_summary (Chapter.content chapter)
              chapter_num (Chapter.title chapter) (requested wr))
    as [[summary|e] w2] eqn:Hsum.
  - cbv zeta. destruct (truthy (Some summary)) eqn:Htruthy.
    + destruct (DatabaseService.update_chapter (Chapter.id chapter)
                  (DatabaseService.Updates None (Some summary) None None)
                  (logging SUCCESS
                     ("Summary generated for chapter " +:+ Py.str chapter_num)
                     w2))
        as [[saved|e] w4] eqn:Hsave.
      * eexists _, w4. split; [|split; [|done]].
        -- apply try_except_ok.
           rewrite (bind_ok _ _ _ _ _ (UUID_ok _ _ _ Huuid)).
           rewrite (bind_ok _ _ _ _ _ (state_of_run _ _)).
           rewrite (bind_ok _ _ _ _ _ (rating_step _ chapter_num _ _ Hrating)).
           rewrite (bind_ok _ _ _ _ _ Hread). rewrite Hfind, Happroved.
           rewrite (bind_ok _ _ _ _ _
                      (try_except_ok _ _ _ _ _ (bind_ok _ _ _ _ _ Hsum))).
           rewrite Htruthy.
           rewrite (bind_ok _ _ _ _ _
                      (try_except_ok _ _ _ _ _ (bind_ok _ _ _ _ _ Hsave))).
           apply approval_tail.
        -- apply Hshape.
      * eexists _, _. split; [|split; [|reflexivity]].
        -- apply try_except_ok.
           rewrite (bind_ok _ _ _ _ _ (UUID_ok _ _ _ Huuid)).
           rewrite (bind_ok _ _ _ _ _ (state_of_run _ _)).
           rewrite (bind_ok _ _ _ _ _ (rating_step _ chapter_num _ _ Hrating)).
           rewrite (bind_ok _ _ _ _ _ Hread). rewrite Hfind, Happroved.
           rewrite (bind_ok _ _ _ _ _
                      (try_except_ok _ _ _ _ _ (bind_ok _ _ _ _ _ Hsum))).
           rewrite Htruthy.
           rewrite (bind_ok _ _ _ _ _
                      (try_except_raise _ _ _ _ _
                         (bind_raise _ _ _ _ _ Hsave))).
           apply approval_tail.
        -- apply Hshape.
    + eexists _, _. split; [|split; [|reflexivity]].
      * apply try_except_ok.
        rewrite (bind_ok _ _ _ _ _ (UUID_ok _ _ _ Huuid)).
        rewrite (bind_ok _ _ _ _ _ (state_of_run _ _)).
        rewrite (bind_ok _ _ _ _ _ (rating_step _ chapter_num _ _ Hrating)).
        rewrite (bind_ok _ _ _ _ _ Hread). rewrite Hfind, Happroved.
        rewrite (bind_ok _ _ _ _ _
                   (try_except_ok _ _ _ _ _ (bind_ok _ _ _ _ _ Hsum))).
        rewrite Htruthy.
        apply approval_tail.
      * apply Hshape.
  - eexists _, _. split; [|split; [|reflexivity]].
    + apply try_except_ok.
      rewrite (bind_ok _ _ _ _ _ (UUID_ok _ _ _ Huuid)).
      rewrite (bind_ok _ _ _ _ _ (state_of_run _ _)).
      rewrite (bind_ok _ _ _ _ _ (rating_step _ chapter_num _ _ Hrating)).
      rewrite (bind_ok _ _ _ _ _ Hread). rewrite Hfind, Happroved.
      rewrite (bind_ok _ _ _ _ _
                 (try_except_raise _ _ _ _ _ (bind_raise _ _ _ _ _ Hsum))).
      apply approval_tail.
    + apply Hshape.
Qed.

Lemma approval_survives_summary_failure_witness :
  (exists response w',
     Api.approve_chapter "b1" 1 Examples.approval_yes Examples.world_review
     = (Ok response, w')
     /\ reports_approved 1 response)
  /\ logged (snd (Api.approve_chapter "b1" 1 Examples.approval_yes
                    Examples.world_review))
     = [(INFO, "Generating summary for Chapter 1");
        (ERROR, "API error: 500 internal error");
        (ERROR, "Error generating summary for chapter 1: 500 internal error");
        (WARNING,
         "Could not generate summary for chapter 1: 500 internal error");
        (INFO, "Continuing without summary - chapter can still be approved")].
Proof.
  split; [|reflexivity].
  destruct (approval_survives_summary_failure "b1" "b1" 1
              Examples.approval_yes Examples.review1 Examples.world_review)
    as (response & w' & Hrun & Hshape & _);
    [reflexivity|reflexivity| |reflexivity|reflexivity|by exists response, w'].
  intros r s _ Hs. vm_compute in Hs. injection Hs as <-. by eexists.
Defined.

End Approval.

(** ** Chapter records *)

Section Records.

Lemma bind_inv {A B} (m : M A) (k : A -> M B) w b w' :
  bind m k w = (Ok b, w') ->
  exists a w1, m w = (Ok a, w1) /\ k a w1 = (Ok b, w').
Proof.
  unfold bind. destruct (m w) as [[a|e] w1]; [|done]. by exists a, w1.
Qed.

Lemma keeps_at {A B} (f : World -> B) (m : M A) w r w' :
  keeps f m -> m w = (r, w') -> f w' = f w.
Proof. intros Hk Hm. specialize (Hk w). by rewrite Hm in Hk. Qed.

Lemma chapter_keys_update_rows chapter_id u w :
  chapter_keys
    (set_chapters (DatabaseService.update_rows chapter_id u (chapters w)) w)
  = chapter_keys w.
Proof.
  unfold chapter_keys, DatabaseService.update_rows. simpl.
  rewrite <- list_fmap_compose. apply list_fmap_ext. intros _ c _. simpl.
  destruct (decide (Chapter.id c = chapter_id)); [|done].
  unfold DatabaseService.apply_updates.
  by destruct (DatabaseService.set_content u), (DatabaseService.set_summary u),
       (DatabaseService.set_notes u), (DatabaseService.set_status u).
Qed.

Ltac keys_leaf :=
  first [ by_computation
        | apply chapter_keys_update_rows
        | simpl; apply chapter_keys_update_rows ].

Lemma generate_chapter_keeps_chapters title outline n chapter_title
    previous_summaries chapter_notes :
  keeps chapters
    (LLMService.generate_chapter title outline n chapter_title
       previous_summaries chapter_notes).
Proof.
  pose proof (fun a p m =>
    retry_loop_keeps chapters a p m
      (fun _ _ => eq_refl) (fun _ _ => eq_refl) (fun _ _ => eq_refl)).
  keeps_with by_computation.
Qed.

Lemma create_chapter_inv chapter w row w' :
  DatabaseService.create_chapter chapter w = (Ok row, w') ->
  chapter_keys w'
  = (chapter_keys w
     ++ [(Chapter.book_id chapter, Chapter.chapter_number chapter)])%list.
Proof.
  unfold DatabaseService.create_chapter, try_except, bind,
    DatabaseService.execute.
  destruct (store_fault w (store_calls w)); [done|]. simpl.
  intros [= <- <-]. unfold chapter_keys. simpl. by rewrite fmap_app.
Qed.

Lemma retry_loop_keeps_keys attempts prompt max_retries :
  keeps chapter_keys (LLMService.retry_loop attempts prompt max_retries).
Proof. by apply retry_loop_keeps. Qed.

Ltac step_keeping H Hk :=
  let a := fresh "a" in
  let w1 := fresh "w" in
  let Hm := fresh "Hm" in
  apply bind_inv in H as (a & w1 & Hm & H);
  lazymatch type of Hm with
  | ?m _ = _ =>
      assert (Hk : keeps chapter_keys m)
        by (pose proof retry_loop_keeps_keys; keeps_with keys_leaf);
      apply (keeps_at _ _ _ _ _ Hk) in Hm; clear Hk; rename Hm into Hk
  end.

(** What the interactive endpoint adds to the chapter records. *)
Lemma endpoint_appends_record book_id book_uuid n w response w' :
  uuid_parse w book_id = Some book_uuid ->
  Api.generate_chapter book_id n w = (Ok response, w') ->
  chapter_keys w' = (chapter_keys w ++ [(book_uuid, n)])%list.
Proof.
  intros Huuid H. unfold Api.generate_chapter, try_except in H.
  match type of H with
  | (let (_, _) := ?inner w in _) = _ =>
      destruct (inner w) as [[r|e] w0] eqn:Hin
  end.
  2:{ unfold bind, logger.error, logger.emit, modify in H.
      by destruct (Api.mentions_rate_limit (exn_str e)). }
  injection H as -> ->.
  apply bind_inv in Hin as (u & wa & HU & Hin).
  rewrite (UUID_ok _ _ _ Huuid) in HU. injection HU as <- <-.
  step_keeping Hin Hk1. step_keeping Hin Hk2. step_keeping Hin Hk3.
  step_keeping Hin Hk4.
  destruct (negb _); [done|].
  step_keeping Hin Hk5. step_keeping Hin Hk6. step_keeping Hin Hk7.
  step_keeping Hin Hk8. step_keeping Hin Hk9. step_keeping Hin Hk10.
  apply bind_inv in Hin as (row & w11 & Hrow & Hin).
  apply create_chapter_inv in Hrow. simpl in Hrow.
  step_keeping Hin Hk12. injection Hin as _ <-.
  rewrite Hk12, Hrow, Hk10, Hk9, Hk8, Hk7, Hk6, Hk5, Hk4, Hk3, Hk2, Hk1. done.
Qed.

Lemma workflow_generate_keeps_keys book_id n :
  keeps chapter_keys (ChapterWorkflow.generate_chapter book_id n).
Proof. pose proof retry_loop_keeps_keys. keeps_with keys_leaf. Qed.

(** [initialize_chapters] for a book that the store does not return. *)
Lemma initialize_chapters_without_book book_id w :
  book_of book_id w = None ->
  chapter_keys (snd (ChapterWorkflow.initialize_chapters book_id w))
  = chapter_keys w.
Proof.
  intros Hb. unfold ChapterWorkflow.initialize_chapters.
  destruct (store_fault w (store_calls w)) as [e|] eqn:Hf.
  { by rewrite (try_except_raise _ _ _ _ _
                  (bind_raise _ _ _ _ _ (get_book_fault _ _ _ Hf))). }
  pose proof (get_book_ok book_id _ Hf) as Hget.
  fold (book_of book_id w) in Hget. rewrite Hb in Hget.
  erewrite try_except_ok; [|by rewrite (bind_ok _ _ _ _ _ Hget)]. done.
Qed.

End Records.

Section Numbering.

(** C9, as amended. No operation looks at the chapter numbers that exist.
    [create_chapter] is a plain insert: when it succeeds, exactly one
    record is appended, with the book and the number it was given. The
    interactive generate-chapter endpoint appends one record with the
    requested number on every request that succeeds, whatever records
    exist. The workflow's [generate_chapter] creates no record, and
    [initialize_chapters] creates none for a book that the store does not
    return. *)
Theorem chapter_records_created book_id n w :
  (forall chapter row w',
     DatabaseService.create_chapter chapter w = (Ok row, w') ->
     chapter_keys w'
     = (chapter_keys w
        ++ [(Chapter.book_id chapter, Chapter.chapter_number chapter)])%list)
  /\ (forall text response w',
        uuid_parse w text = Some book_id ->
        Api.generate_chapter text n w = (Ok response, w') ->
        chapter_keys w' = (chapter_keys w ++ [(book_id, n)])%list)
  /\ keeps chapter_keys (ChapterWorkflow.generate_chapter book_id n)
  /\ (book_of book_id w = None ->
      chapter_keys (snd (ChapterWorkflow.initialize_chapters book_id w))
      = chapter_keys w).
Proof.
  split; [intros chapter row w'; apply create_chapter_inv|].
  split; [intros text response w'; apply endpoint_appends_record|].
  split; [apply workflow_generate_keeps_keys|].
  apply initialize_chapters_without_book.
Qed.

(** The endpoint creates chapter 5 of a book without chapters, and creates
    chapter 1 twice when asked twice. *)
Lemma endpoint_breaks_numbering :
  chapter_keys (snd (Api.generate_chapter "b1" 5 Examples.world0))
  = [("b1", 5)]
  /\ chapter_keys
       (snd ((Api.generate_chapter "b1" 1 ;; Api.generate_chapter "b1" 1)
               Examples.world0))
     = [("b1", 1); ("b1", 1)].
Proof. split; reflexivity. Qed.

Lemma chapter_records_created_witness :
  chapter_keys (snd (Api.generate_chapter "b1" 1 Examples.world0))
  = [("b1", 1)]
  /\ chapter_keys (snd (ChapterWorkflow.initialize_chapters "b2"
                          Examples.world123))
     = chapter_keys Examples.world123.
Proof.
  destruct (chapter_records_created "b1" 1 Examples.world0)
    as (_ & Hendpoint & _).
  destruct (chapter_records_created "b2" 1 Examples.world123)
    as (_ & _ & _ & Hinit).
  split.
  - destruct (Api.generate_chapter "b1" 1 Examples.world0)
      as [[response|e] w'] eqn:Hrun; [|by vm_compute in Hrun].
    apply (Hendpoint "b1" response w'); [reflexivity|exact Hrun].
  - apply Hinit. reflexivity.
Defined.



End Numbering.

(** ** The validators and the attributes of a book *)

Section Validators.

(** X1. The two validators of a feedback status never hold together, one of
    them holds exactly on the three gate values, the chapter validator is
    the outline validator, and whatever they accept is a status
    [validate_status] accepts. *)
Theorem validators_partition_status status :
  validators.should_proceed_with_chapter status
  = validators.should_proceed_with_outline status
  /\ validators.should_proceed_with_outline status
     && validators.should_wait_for_notes status = false
  /\ (validators.should_proceed_with_outline status
      || validators.should_wait_for_notes status = true
      <-> status = StatusEnum.YES \/ status = StatusEnum.NO
          \/ status = StatusEnum.NO_NOTES_NEEDED)
  /\ implb (validators.should_proceed_with_outline status
            || validators.should_wait_for_notes status)
       (validators.validate_status status) = true.
Proof.
  unfold validators.should_proceed_with_chapter,
    validators.should_proceed_with_outline, validators.should_wait_for_notes,
    validators.validate_status. cbn [existsb].
  destruct (String.eqb_spec status "no_notes_needed") as [->|H1].
  { repeat split; try done. intros _. by right; right. }
  destruct (String.eqb_spec status "no") as [->|H2].
  { repeat split; try done. intros _. by right; left. }
  destruct (String.eqb_spec status "yes") as [->|H3].
  { repeat split; try done. intros _. by left. }
  repeat split; try done.
  intros [->| [->| ->]]; done.
Qed.

(** X2. The five gates that begin with an attribute of the book raise
    [AttributeError] on every book and in every state: [Book] declares
    [id], [title] and [created_at] only, so the first read of each gate
    fails, before any request to the store and with nothing logged. *)
Theorem gates_raise_on_every_book book n w :
  StateMachine.can_generate_outline book w
  = (Raise (AttributeError
              "'Book' object has no attribute 'notes_on_outline_before'"), w)
  /\ StateMachine.can_regenerate_outline book w
     = (Raise (AttributeError "'Book' object has no attribute 'outline'"), w)
  /\ StateMachine.should_proceed_after_outline book w
     = (Raise (AttributeError
                 "'Book' object has no attribute 'status_outline_notes'"), w)
  /\ StateMachine.can_generate_chapter book n w
     = (Raise (AttributeError "'Book' object has no attribute 'outline'"), w)
  /\ StateMachine.should_wait_for_chapter_notes book n w
     = (Raise (AttributeError
                 "'Book' object has no attribute 'chapter_notes_status'"), w).
Proof. repeat split. Qed.

End Validators.

(** ** The Stage Gate and the workflow on the classes as declared *)

Section Gates.

Lemma rows_of_book_elem book_id w c :
  c ∈ DatabaseService.rows_of_book book_id w
  <-> c ∈ chapters w /\ Chapter.book_id c = book_id.
Proof.
  unfold DatabaseService.rows_of_book. rewrite sort_by_Permutation.
  rewrite list_elem_of_filter. tauto.
Qed.

Lemma find_chapter_Some n cs c :
  find_chapter n cs = Some c -> c ∈ cs /\ Chapter.chapter_number c = n.
Proof.
  unfold find_chapter. intros H%head_Some_elem_of.
  apply list_elem_of_filter in H. tauto.
Qed.

Lemma find_chapter_None n cs c :
  find_chapter n cs = None -> c ∈ cs -> Chapter.chapter_number c <> n.
Proof.
  unfold find_chapter. intros H Hc Hn.
  assert (Hin : c ∈ filter (fun c => Chapter.chapter_number c = n) cs)
    by (by apply list_elem_of_filter).
  destruct (filter _ cs); [by apply elem_of_nil in Hin|done].
Qed.

(** X3. The chapter workflow on a book that the store returns: both
    operations fail at [book.outline]. [initialize_chapters] catches the
    error and returns [False] with its text; [generate_chapter] catches it
    too, but its handler calls [update_book_status], which the store
    service does not have, and so raises [AttributeError] itself. Either
    way one request went to the store, one error is logged, no model is
    called and no record changes. *)
Theorem workflow_fails_at_outline book_id book n w :
  store_fault w (store_calls w) = None ->
  book_of book_id w = Some book ->
  ChapterWorkflow.initialize_chapters book_id w
  = (Ok (false, "Error: 'Book' object has no attribute 'outline'"),
     logging ERROR
       "Error initializing chapters: 'Book' object has no attribute 'outline'"
       (requested w))
  /\ ChapterWorkflow.generate_chapter book_id n w
     = (Raise (AttributeError
                 "'DatabaseService' object has no attribute 'update_book_status'"),
        logging ERROR
          ("Error generating chapter " +:+ Py.str n
           +:+ ": 'Book' object has no attribute 'outline'")
          (requested w)).
Proof.
  intros Hf Hb. pose proof (get_book_ok book_id _ Hf) as Hget.
  fold (book_of book_id w) in Hget. rewrite Hb in Hget. split.
  - unfold ChapterWorkflow.initialize_chapters.
    erewrite try_except_raise;
      [|rewrite (bind_ok _ _ _ _ _ Hget); reflexivity].
    reflexivity.
  - unfold ChapterWorkflow.generate_chapter.
    erewrite try_except_raise;
      [|rewrite (bind_ok _ _ _ _ _ Hget); reflexivity].
    reflexivity.
Qed.

Lemma workflow_fails_at_outline_witness :
  ChapterWorkflow.initialize_chapters "b1" Examples.world0
  = (Ok (false, "Error: 'Book' object has no attribute 'outline'"),
     logging ERROR
       "Error initializing chapters: 'Book' object has no attribute 'outline'"
       (requested Examples.world0))
  /\ ChapterWorkflow.generate_chapter "b1" 1 Examples.world0
     = (Raise (AttributeError
                 "'DatabaseService' object has no attribute 'update_book_status'"),
        logging ERROR
          "Error generating chapter 1: 'Book' object has no attribute 'outline'"
          (requested Examples.world0)).
Proof.
  apply (workflow_fails_at_outline "b1" Examples.book1 1 Examples.world0);
    reflexivity.
Defined.

(** X5. The gate for compilation never opens. When the read succeeds and
    the book has chapter records that all have content, the gate goes on
    to [book.final_review_notes_status], which [Book] does not declare,
    and raises [AttributeError] after its one request to the store. *)
Theorem can_compile_final_draft_never_ready book w :
  (forall reason,
     fst (StateMachine.can_compile_final_draft book w) <> Ok (true, reason))
  /\ (store_fault w (store_calls w) = None ->
      DatabaseService.rows_of_book (Book.id book) w <> [] ->
      (forall c, c ∈ DatabaseService.rows_of_book (Book.id book) w ->
                 truthy (Chapter.content c) = true) ->
      StateMachine.can_compile_final_draft book w
      = (Raise (AttributeError
                  "'Book' object has no attribute 'final_review_notes_status'"),
         requested w)).
Proof.
  assert (Hfull :
    store_fault w (store_calls w) = None ->
    DatabaseService.rows_of_book (Book.id book) w <> [] ->
    (forall c, c ∈ DatabaseService.rows_of_book (Book.id book) w ->
               truthy (Chapter.content c) = true) ->
    StateMachine.can_compile_final_draft book w
    = (Raise (AttributeError
                "'Book' object has no attribute 'final_review_notes_status'"),
       requested w)).
  { intros Hf Hrows Hall. unfold StateMachine.can_compile_final_draft.
    rewrite (bind_ok _ _ _ _ _ (get_chapters_by_book_ok _ _ Hf)).
    destruct (DatabaseService.rows_of_book (Book.id book) w) as [|c0 cs];
      [done|].
    destruct (filter (fun c => truthy (Chapter.content c) = false) (c0 :: cs))
      as [|k ks] eqn:Hinc; [done|].
    assert (Hk : k ∈ filter (fun c => truthy (Chapter.content c) = false)
                      (c0 :: cs)) by (rewrite Hinc; left).
    apply list_elem_of_filter in Hk as [Hk Hin].
    by rewrite (Hall k Hin) in Hk. }
  split; [|exact Hfull].
  intros reason. unfold StateMachine.can_compile_final_draft.
  destruct (store_fault w (store_calls w)) as [e|] eqn:Hf.
  { by rewrite (bind_raise _ _ _ _ _ (get_chapters_by_book_fault _ _ _ Hf)). }
  rewrite (bind_ok _ _ _ _ _ (get_chapters_by_book_ok _ _ Hf)).
  destruct (DatabaseService.rows_of_book (Book.id book) w) as [|c0 cs];
    [done|].
  by destruct (Chapter.chapter_number <$>
                 filter (fun c => truthy (Chapter.content c) = false)
                   (c0 :: cs)).
Qed.

Lemma can_compile_final_draft_never_ready_witness :
  StateMachine.can_compile_final_draft Examples.book1 Examples.world123
  = (Raise (AttributeError
              "'Book' object has no attribute 'final_review_notes_status'"),
     requested Examples.world123).
Proof.
  destruct (can_compile_final_draft_never_ready Examples.book1
              Examples.world123) as [_ H].
  apply H; [reflexivity|by vm_compute|].
  intros c Hc. vm_compute in Hc.
  repeat apply elem_of_cons in Hc as [->|Hc]; try done.
  by apply elem_of_nil in Hc.
Defined.

End Gates.

(** ** Bounds on the retries of the Generation Client *)

Section RetryBounds.
Import LLMService.

Lemma retry_loop_bounded prompt max_retries len :
  forall a w,
    len = 0%nat \/ Z.of_nat (a + len) = max_retries ->
    (model_calls (snd (retry_loop (seq a len) prompt max_retries w))
     <= model_calls w + len)%nat
    /\ exists delays,
         slept (snd (retry_loop (seq a len) prompt max_retries w))
         = (slept w ++ delays)%list
         /\ (length delays <= len - 1)%nat.
Proof.
  induction len as [|len IH]; intros a w Hlen.
  { simpl. split; [lia|]. exists []. by rewrite app_nil_r. }
  destruct Hlen as [|Hlen]; [done|].
  simpl seq. cbn [retry_loop]. unfold try_except, generate_content.
  destruct (model_reply w (model_calls w) prompt) as [s|e].
  { simpl. split; [lia|]. exists []. rewrite app_nil_r.
    split; [done|simpl; lia]. }
  cbv beta zeta.
  set (w1 := set_model_calls (S (model_calls w)) w).
  assert (Hstop : forall (r : result string) w2,
             model_calls w2 = S (model_calls w) -> slept w2 = slept w ->
             (model_calls (snd (r, w2)) <= model_calls w + S len)%nat
             /\ exists delays,
                  slept (snd (r, w2)) = (slept w ++ delays)%list
                  /\ (length delays <= S len - 1)%nat).
  { intros r w2 Hc Hs. simpl. split; [lia|]. exists [].
    rewrite app_nil_r. split; [done|simpl; lia]. }
  destruct (is_rate_limit (exn_str e)); [|by apply Hstop].
  assert (Hrest : forall d : delay,
    let run :=
      (if Z.of_nat a <? max_retries - 1
       then printed <- lift (format_delay d) ;;
            logger.warning
              ("Rate limit hit. Retrying in " +:+ printed
               +:+ " seconds... (Attempt " +:+ Py.str (Z.of_nat a + 1)
               +:+ "/" +:+ Py.str max_retries +:+ ")") ;;
            sleep d ;;
            retry_loop (seq (S a) len) prompt max_retries
       else logger.error ("Rate limit exceeded after "
                          +:+ Py.str max_retries +:+ " attempts") ;;
            raise (Exception rate_limit_message)) w1 in
    (model_calls (snd run) <= model_calls w + S len)%nat
    /\ exists delays,
         slept (snd run) = (slept w ++ delays)%list
         /\ (length delays <= S len - 1)%nat).
  { intros d. cbv zeta. subst w1.
    destruct (Z.ltb_spec (Z.of_nat a) (max_retries - 1)); [|by apply Hstop].
    destruct (format_delay d) as [text|e'] eqn:Hfmt.
    2:{ erewrite bind_raise; [|reflexivity]. by apply Hstop. }
    erewrite bind_ok; [|reflexivity].
    erewrite bind_ok; [|reflexivity].
    match goal with
    | |- context [bind (sleep d) ?k ?w2] =>
        pose proof (sleep_run d w2) as Hsleep;
        destruct (sleep_error w2 d) as [e'|]
    end.
    { rewrite (bind_raise _ _ _ _ _ Hsleep). by apply Hstop. }
    rewrite (bind_ok _ _ _ _ _ Hsleep).
    match goal with
    | |- context [retry_loop _ _ _ ?w2] =>
        destruct (IH (S a) w2) as [Hc (delays & Hs & Hd)]; [right; lia|]
    end.
    simpl in Hc, Hs |- *. split; [lia|].
    exists (seconds d :: delays). rewrite Hs, <- app_assoc.
    split; [done|]. simpl. lia. }
  unfold bind at 1.
  destruct (retry_search (exn_str e)) as [g|]; [|apply Hrest].
  destruct (float g) as [x|]; [apply Hrest|by apply Hstop].
Qed.

(** X7. On every input the client calls the model at most [max_retries] times
    and sleeps at most [max_retries - 1] times (never after its last
    attempt); it sends nothing to the store and changes no record. *)
Theorem call_with_retry_bounded prompt max_retries w :
  let w' := snd (_call_with_retry prompt max_retries w) in
  (model_calls w' <= model_calls w + Z.to_nat max_retries)%nat
  /\ (exists delays,
        slept w' = (slept w ++ delays)%list
        /\ (length delays <= Z.to_nat max_retries - 1)%nat)
  /\ store_calls w' = store_calls w
  /\ chapters w' = chapters w
  /\ workflow_states w' = workflow_states w.
Proof.
  cbv zeta. unfold _call_with_retry.
  destruct (retry_loop_bounded prompt max_retries (Z.to_nat max_retries)
              0%nat w) as [Hc Hs].
  { destruct (Z.to_nat max_retries) eqn:Hm; [by left|right; lia]. }
  split; [done|]. split; [done|].
  repeat split;
    by apply (retry_loop_keeps _ (seq 0 (Z.to_nat max_retries)) prompt
                max_retries).
Qed.

(** X8. The client returns the first answer it gets: when the attempts
    before attempt k+1 are rate-limited, with delays that can be computed
    (an embedded delay is a decimal number) and that [time.sleep] accepts,
    and attempt k+1 answers, the answer is returned after k+1 calls and k
    sleeps. *)
Theorem call_with_retry_returns_first_answer prompt max_retries w k s :
  (k < Z.to_nat max_retries)%nat ->
  waits_go_through 0 w prompt (S k) ->
  (forall j, (j < k)%nat -> rate_limit_failure (reply_at w prompt j)) ->
  reply_at w prompt k = Ok s ->
  exists w',
    _call_with_retry prompt max_retries w = (Ok s, w')
    /\ model_calls w' = (model_calls w + S k)%nat
    /\ length (slept w') = (length (slept w) + k)%nat.
Proof.
  unfold _call_with_retry.
  assert (H : forall k a len w,
             Z.of_nat (a + len) = max_retries ->
             (k < len)%nat ->
             waits_go_through a w prompt (S k) ->
             (forall j, (j < k)%nat -> rate_limit_failure (reply_at w prompt j)) ->
             reply_at w prompt k = Ok s ->
             exists w',
               retry_loop (seq a len) prompt max_retries w = (Ok s, w')
               /\ model_calls w' = (model_calls w + S k)%nat
               /\ length (slept w') = (length (slept w) + k)%nat).
  { clear k w. induction k as [|k IH]; intros a len w Hmax Hlen Hwf Hrl Hk;
      (destruct len as [|len]; [lia|]); simpl seq.
    - rewrite (retry_step_ok _ _ _ _ _ _ Hk). eexists. split; [done|].
      simpl. split; lia.
    - destruct (Hrl 0%nat) as (e0 & H0 & Hr0); [lia|].
      destruct (wait_goes_through prompt a w (S k) e0 Hwf H0 Hr0)
        as (d & Hd & Hsleep).
      rewrite (retry_step_backoff _ _ _ _ _ _ _ H0 Hr0 Hd)
        by (lia || apply Hsleep; lia).
      destruct (IH (S a) len (after_backoff a max_retries d w))
        as (w' & Hrun & Hcalls & Hslept).
      + lia.
      + lia.
      + by apply waits_go_through_after.
      + by apply rate_limited_after.
      + by rewrite reply_at_after_backoff.
      + exists w'. split; [done|]. rewrite Hcalls, Hslept. simpl.
        rewrite length_app. simpl. split; lia. }
  intros Hk. apply H; [lia|done].
Qed.

Lemma limited_waits_go_through :
  waits_go_through 0 Examples.world_limited "p" 3.
Proof.
  intros j e Hj He _.
  destruct j as [|[|[|j]]]; [| | |lia]; [| |done]; injection He as <-;
    (eexists; split; [reflexivity|]); intros _; by vm_compute.
Qed.

Lemma call_with_retry_returns_first_answer_witness :
  exists w',
    _call_with_retry "p" 3 Examples.world_limited = (Ok "text", w')
    /\ model_calls w' = 3%nat
    /\ length (slept w') = 2%nat.
Proof.
  apply (call_with_retry_returns_first_answer "p" 3 Examples.world_limited 2
           "text");
    [simpl; lia|apply limited_waits_go_through| |reflexivity].
  intros j Hj. destruct j as [|[|j]]; [| |lia]; by eexists.
Defined.

End RetryBounds.

(** ** Writes to the record store, and what is read back *)

Section StoreRoundTrips.
Import DatabaseService.

Lemma update_rows_other chapter_id u rows :
  (forall c, c ∈ rows -> Chapter.id c <> chapter_id) ->
  update_rows chapter_id u rows = rows
  /\ filter (fun c => Chapter.id c = chapter_id) rows = [].
Proof.
  intros H. induction rows as [|c rows IH]; [done|].
  destruct IH as [IH1 IH2]; [intros c' Hc'; apply H; by right|].
  unfold update_rows in *. cbn [fmap list_fmap]. rewrite filter_cons.
  pose proof (H c ltac:(left)) as Hc.
  destruct (decide (Chapter.id c = chapter_id)); [done|].
  by rewrite IH1, IH2.
Qed.

Lemma apply_updates_id u c : Chapter.id (apply_updates u c) = Chapter.id c.
Proof.
  unfold apply_updates.
  by destruct (set_content u), (set_summary u), (set_notes u), (set_status u).
Qed.

Lemma update_rows_elem chapter_id u rows c :
  c ∈ update_rows chapter_id u rows ->
  Chapter.id c = chapter_id ->
  exists c0, c0 ∈ rows /\ Chapter.id c0 = chapter_id /\ c = apply_updates u c0.
Proof.
  unfold update_rows. intros (c0 & -> & Hin)%list_elem_of_fmap Hid.
  exists c0. destruct (decide (Chapter.id c0 = chapter_id)); done.
Qed.

Lemma update_rows_others chapter_id u rows :
  filter (fun r => Chapter.id r <> chapter_id) (update_rows chapter_id u rows)
  = filter (fun r => Chapter.id r <> chapter_id) rows.
Proof.
  induction rows as [|c rows IH]; [done|].
  unfold update_rows in *. cbn [fmap list_fmap]. rewrite !filter_cons, IH.
  destruct (decide (Chapter.id c = chapter_id)) as [Hc|Hc].
  - rewrite !decide_False; [done|by intros [] |].
    rewrite apply_updates_id. by intros [].
  - by rewrite !decide_True.
Qed.

Lemma update_chapter_inv chapter_id u w c w1 :
  update_chapter chapter_id u w = (Ok c, w1) ->
  store_fault w (store_calls w) = None
  /\ head (filter (fun r => Chapter.id r = chapter_id)
             (update_rows chapter_id u (chapters w))) = Some c
  /\ w1 = logging INFO ("Updated chapter " +:+ chapter_id)
            (set_chapters (update_rows chapter_id u (chapters w))
               (requested w)).
Proof.
  unfold update_chapter, try_except, bind, execute.
  destruct (store_fault w (store_calls w)); [done|]. cbv beta iota zeta.
  unfold logger.info, logger.emit, modify. simpl.
  destruct (filter _ (update_rows chapter_id u (chapters w))); [done|].
  by intros [= <- <-].
Qed.

(** X9. [update_chapter] for an identifier no row has: the store accepts the
    request and updates nothing, the service logs [Updated chapter] all the
    same, fails on the empty answer and raises [IndexError]. *)
Theorem update_chapter_unknown_id chapter_id u w :
  store_fault w (store_calls w) = None ->
  (forall c, c ∈ chapters w -> Chapter.id c <> chapter_id) ->
  exists w',
    update_chapter chapter_id u w
    = (Raise (IndexError "list index out of range"), w')
    /\ chapters w' = chapters w
    /\ logged w'
       = (logged w
          ++ [(INFO, "Updated chapter " +:+ chapter_id);
              (ERROR, "Error updating chapter " +:+ chapter_id
                      +:+ ": list index out of range")])%list.
Proof.
  intros Hf Hnone. destruct (update_rows_other chapter_id u _ Hnone) as [Hr Hd].
  unfold update_chapter, try_except, bind.
  rewrite (execute_ok _ _ Hf). cbv beta iota zeta. simpl fst. simpl snd.
  change (chapters (requested w)) with (chapters w). rewrite Hr, Hd.
  eexists. split; [reflexivity|]. simpl. split; [done|].
  by rewrite <- app_assoc.
Qed.

Lemma update_chapter_unknown_id_witness :
  exists w',
    update_chapter "c9" (Updates (Some "new text") None None None)
      Examples.world123
    = (Raise (IndexError "list index out of range"), w')
    /\ chapters w' = chapters Examples.world123.
Proof.
  destruct (update_chapter_unknown_id "c9"
              (Updates (Some "new text") None None None) Examples.world123)
    as (w' & Hrun & Hrows & _); [reflexivity| |by exists w'].
  intros c Hc. simpl in Hc.
  repeat apply elem_of_cons in Hc as [->|Hc]; try done.
  by apply elem_of_nil in Hc.
Defined.

(** X10. A successful [update_chapter] returns a row with the identifier asked
    for and with every column of the update set to its new value; the rows
    with another identifier, and the book and number of every row, are as
    before; and [get_chapter] on the same identifier then reads that row. *)
Theorem update_chapter_round_trip chapter_id u w c w1 :
  update_chapter chapter_id u w = (Ok c, w1) ->
  Chapter.id c = chapter_id
  /\ c ∈ chapters w1
  /\ (forall v, set_content u = Some v -> Chapter.content c = Some v)
  /\ (forall v, set_summary u = Some v -> Chapter.summary c = Some v)
  /\ (forall v, set_notes u = Some v -> Chapter.notes c = Some v)
  /\ (forall v, set_status u = Some v -> Chapter.status c = v)
  /\ filter (fun r => Chapter.id r <> chapter_id) (chapters w1)
     = filter (fun r => Chapter.id r <> chapter_id) (chapters w)
  /\ chapter_keys w1 = chapter_keys w
  /\ (store_fault w1 (store_calls w1) = None ->
      get_chapter chapter_id w1 = (Ok (Some c), requested w1)).
Proof.
  intros (Hf & Hhead & ->)%update_chapter_inv.
  pose proof (head_Some_elem_of _ _ Hhead) as Hin.
  apply list_elem_of_filter in Hin as [Hid Hin].
  destruct (update_rows_elem _ _ _ _ Hin Hid) as (c0 & _ & _ & Hc).
  split; [done|]. split; [done|].
  assert (Hcols :
    (forall v, set_content u = Some v -> Chapter.content c = Some v)
    /\ (forall v, set_summary u = Some v -> Chapter.summary c = Some v)
    /\ (forall v, set_notes u = Some v -> Chapter.notes c = Some v)
    /\ (forall v, set_status u = Some v -> Chapter.status c = v)).
  { rewrite Hc. unfold apply_updates.
    destruct (set_content u), (set_summary u), (set_notes u), (set_status u);
      repeat split; intros v Hv; by inversion Hv. }
  destruct Hcols as (H1 & H2 & H3 & H4).
  repeat (split; [done|]). split; [|split].
  - apply update_rows_others.
  - apply (chapter_keys_update_rows chapter_id u (requested w)).
  - intros Hf1. unfold get_chapter, select.
    apply try_except_ok. rewrite (bind_ok _ _ _ _ _ (execute_ok _ _ Hf1)).
    cbn [fst snd].
    match goal with
    | |- context [filter _ (chapters ?x)] =>
        change (chapters x) with (update_rows chapter_id u (chapters w))
    end.
    destruct (filter _ (update_rows chapter_id u (chapters w))); [done|].
    by injection Hhead as ->.
Qed.

Lemma update_chapter_round_trip_witness :
  exists c w1,
    update_chapter "c3" (Updates None (Some "S3") None None) Examples.world123
    = (Ok c, w1)
    /\ Chapter.summary c = Some "S3"
    /\ get_chapter "c3" w1 = (Ok (Some c), requested w1).
Proof.
  destruct (update_chapter "c3" (Updates None (Some "S3") None None)
              Examples.world123) as [[c|e] w1] eqn:Hrun;
    [|by vm_compute in Hrun].
  destruct (update_chapter_round_trip _ _ _ _ _ Hrun)
    as (_ & _ & _ & Hs & _ & _ & _ & _ & Hget).
  exists c, w1. split; [done|]. split; [by apply Hs|].
  apply Hget. vm_compute in Hrun. by injection Hrun as _ <-.
Defined.

(** X11. A successful [create_chapter] appends one row that carries the book,
    number, title, content and summary of the argument; the identifier,
    status and notes of the argument are not sent. Reading the chapters of
    the book afterwards gives the rows it had and the new one. *)
Theorem create_chapter_round_trip chapter w row w1 :
  create_chapter chapter w = (Ok row, w1) ->
  chapters w1 = (chapters w ++ [row])%list
  /\ (Chapter.book_id row, Chapter.chapter_number row, Chapter.title row,
      Chapter.content row, Chapter.summary row)
     = (Chapter.book_id chapter, Chapter.chapter_number chapter,
        Chapter.title chapter, Chapter.content chapter,
        Chapter.summary chapter)
  /\ (forall other_id other_notes other_status,
        create_chapter
          (Chapter.Make other_id (Chapter.book_id chapter)
             (Chapter.chapter_number chapter) (Chapter.title chapter)
             (Chapter.content chapter) (Chapter.summary chapter)
             other_notes other_status) w
        = (Ok row, w1))
  /\ (store_fault w1 (store_calls w1) = None ->
      exists rows,
        get_chapters_by_book (Chapter.book_id chapter) w1
        = (Ok rows, requested w1)
        /\ rows ≡ₚ row :: rows_of_book (Chapter.book_id chapter) w).
Proof.
  intros Hrun.
  assert (Hinv : store_fault w (store_calls w) = None
                 /\ row = inserted_row (requested w) chapter
                 /\ chapters w1 = (chapters w ++ [row])%list).
  { revert Hrun. unfold create_chapter, try_except, bind, execute.
    destruct (store_fault w (store_calls w)); [done|]. simpl.
    by intros [= <- <-]. }
  destruct Hinv as (Hf & Hrow & Hrows).
  split; [done|]. split; [by rewrite Hrow|]. split.
  - intros other_id other_notes other_status. rewrite <- Hrun.
    unfold create_chapter, try_except, bind, execute. by rewrite Hf.
  - intros Hf1. eexists. split; [by apply get_chapters_by_book_ok|].
    unfold rows_of_book. rewrite !sort_by_Permutation, Hrows.
    rewrite filter_app, filter_cons, decide_True by (by rewrite Hrow).
    rewrite filter_nil. by rewrite <- Permutation_cons_append.
Qed.

Lemma create_chapter_round_trip_witness :
  exists row w1,
    create_chapter
      (Chapter.Make "" "b1" 4 (Some "More") None None (Some "n") "approved")
      Examples.world123
    = (Ok row, w1)
    /\ chapters w1 = (chapters Examples.world123 ++ [row])%list.
Proof.
  destruct (create_chapter
              (Chapter.Make "" "b1" 4 (Some "More") None None (Some "n")
                 "approved") Examples.world123)
    as [[row|e] w1] eqn:Hrun; [|by vm_compute in Hrun].
  destruct (create_chapter_round_trip _ _ _ _ Hrun) as (Hrows & _).
  by exists row, w1.
Defined.

End StoreRoundTrips.

(** ** The Context Chain, from a stored summary to the next prompt *)

Section ContextChain.
Import DatabaseService.

Lemma get_previous_chapter_summaries_fault book_id n w e :
  store_fault w (store_calls w) = Some e ->
  get_previous_chapter_summaries book_id n w
  = (Raise e,
     logging ERROR ("Error fetching previous summaries: " +:+ exn_str e)
       (requested w)).
Proof.
  intros H. unfold get_previous_chapter_summaries, select.
  by rewrite (try_except_raise _ _ _ _ _
                (bind_raise _ _ _ _ _ (execute_fault _ _ _ H))).
Qed.

(** X12. [get_context_for_chapter] never raises: when the store refuses the read
    it logs the failure (the store service and the context manager each log
    it) and returns the empty context. It calls no model and changes no
    record. *)
Theorem get_context_never_raises book_id n w :
  exists summaries w',
    ContextManager.get_context_for_chapter book_id n w = (Ok summaries, w')
    /\ chapters w' = chapters w
    /\ model_calls w' = model_calls w
    /\ (forall e,
          store_fault w (store_calls w) = Some e ->
          summaries = []
          /\ logged w'
             = (logged w
                ++ [(ERROR, "Error fetching previous summaries: "
                            +:+ exn_str e);
                    (ERROR, "Error getting context: " +:+ exn_str e)])%list).
Proof.
  unfold ContextManager.get_context_for_chapter.
  destruct (store_fault w (store_calls w)) as [e|] eqn:Hf.
  - eexists _, _. split; [|split; [|split]].
    + rewrite (try_except_raise _ _ _ _ _
                 (bind_raise _ _ _ _ _
                    (get_previous_chapter_summaries_fault _ _ _ _ Hf))).
      reflexivity.
    + reflexivity.
    + reflexivity.
    + intros e' [= <-]. split; [done|]. simpl. by rewrite <- app_assoc.
  - eexists _, _. split; [|split; [|split]].
    + apply try_except_ok.
      rewrite (bind_ok _ _ _ _ _ (get_previous_chapter_summaries_ok _ _ _ Hf)).
      reflexivity.
    + reflexivity.
    + reflexivity.
    + done.
Qed.

Lemma generate_chapter_summary_ok content n title w s :
  reply_at w (LLMService.summary_prompt content n title) 0 = Ok s ->
  LLMService.generate_chapter_summary content n title w
  = (Ok s,
     logging SUCCESS ("Summary generated for Chapter " +:+ Py.str n)
       (set_model_calls (S (model_calls w))
          (logging INFO ("Generating summary for Chapter " +:+ Py.str n) w))).
Proof.
  intros H. unfold LLMService.generate_chapter_summary. apply try_except_ok.
  unfold logger.info, logger.emit, modify. unfold bind at 1.
  unfold LLMService._call_with_retry.
  change (seq 0 (Z.to_nat 3)) with [0; 1; 2]%nat.
  erewrite bind_ok; [|apply retry_step_ok; exact H]. reflexivity.
Qed.

Lemma update_chapter_ok chapter_id u w :
  store_fault w (store_calls w) = None ->
  (exists c, c ∈ chapters w /\ Chapter.id c = chapter_id) ->
  exists c,
    update_chapter chapter_id u w
    = (Ok c,
       logging INFO ("Updated chapter " +:+ chapter_id)
         (set_chapters (update_rows chapter_id u (chapters w)) (requested w))).
Proof.
  intros Hf (c & Hc & Hid).
  assert (Hin : apply_updates u c
                ∈ filter (fun r => Chapter.id r = chapter_id)
                    (update_rows chapter_id u (chapters w))).
  { apply list_elem_of_filter. split; [by rewrite apply_updates_id|].
    unfold update_rows. apply list_elem_of_fmap.
    exists c. by rewrite decide_True. }
  destruct (filter _ (update_rows chapter_id u (chapters w)))
    as [|c1 rest] eqn:Hd; [by apply elem_of_nil in Hin|].
  exists c1. unfold update_chapter. apply try_except_ok.
  rewrite (bind_ok _ _ _ _ _ (execute_ok _ _ Hf)). cbn [fst snd].
  change (chapters (requested w)) with (chapters w). by rewrite Hd.
Qed.

Lemma summary_fails_at_title chapter w :
  truthy (Chapter.content chapter) = true ->
  ContextManager.generate_and_store_summary chapter w
  = (Raise (AttributeError
              "'Chapter' object has no attribute 'chapter_title'"),
     logging ERROR
       "Error generating summary: 'Chapter' object has no attribute 'chapter_title'"
       w).
Proof.
  intros Hcontent. unfold ContextManager.generate_and_store_summary.
  by rewrite Hcontent.
Qed.

(** X13. For a chapter with content, [generate_and_store_summary] fails
    before it reaches the model: the title is read as
    [chapter.chapter_title], which [Chapter] does not declare (its field is
    [title]). The function logs the error and raises [AttributeError]
    again, with no call to the model and no request to the store. *)
Theorem generate_and_store_summary_with_content chapter w :
  truthy (Chapter.content chapter) = true ->
  ContextManager.generate_and_store_summary chapter w
  = (Raise (AttributeError
              "'Chapter' object has no attribute 'chapter_title'"),
     logging ERROR
       "Error generating summary: 'Chapter' object has no attribute 'chapter_title'"
       w).
Proof. apply summary_fails_at_title. Qed.

Lemma generate_and_store_summary_with_content_witness :
  ContextManager.generate_and_store_summary Examples.chapter3
    Examples.world123
  = (Raise (AttributeError
              "'Chapter' object has no attribute 'chapter_title'"),
     logging ERROR
       "Error generating summary: 'Chapter' object has no attribute 'chapter_title'"
       Examples.world123).
Proof.
  apply (generate_and_store_summary_with_content Examples.chapter3
           Examples.world123).
  reflexivity.
Defined.

Lemma apply_updates_key u c :
  Chapter.book_id (apply_updates u c) = Chapter.book_id c
  /\ Chapter.chapter_number (apply_updates u c) = Chapter.chapter_number c.
Proof.
  unfold apply_updates.
  by destruct (set_content u), (set_summary u), (set_notes u), (set_status u).
Qed.

Lemma with_rating_model book_id chapter_num approval w :
  model_reply (with_rating book_id chapter_num approval w) = model_reply w
  /\ model_calls (with_rating book_id chapter_num approval w) = model_calls w
  /\ store_fault (with_rating book_id chapter_num approval w) = store_fault w.
Proof.
  unfold with_rating.
  destruct (Api.rating approval); [|done].
  destruct (workflow_states w !! book_id) as [st|]; [|done].
  by destruct (WorkflowState.ratings st).
Qed.

(** X14. Approval feeds the Context Chain: when a chapter is approved and the
    model gives a summary that is not empty at the first attempt (the store
    answering), the context of every later chapter of the book contains
    that summary. *)
Theorem approved_summary_reaches_context
    book_id book_uuid chapter_num later approval chapter w s :
  Api.approved approval = true ->
  uuid_parse w book_id = Some book_uuid ->
  rating_recordable book_id approval w ->
  store_answers w ->
  find_chapter chapter_num (rows_of_book book_uuid w) = Some chapter ->
  reply_at w
    (LLMService.summary_prompt (Chapter.content chapter) chapter_num
       (Chapter.title chapter)) 0 = Ok s ->
  s <> "" ->
  chapter_num < later ->
  exists response w' summaries w'',
    Api.approve_chapter book_id chapter_num approval w = (Ok response, w')
    /\ ContextManager.get_context_for_chapter book_uuid later w'
       = (Ok summaries, w'')
    /\ s ∈ summaries.
Proof.
  intros Happroved Huuid Hrating Hstore Hfind Hreply Hs Hlater.
  set (wr := with_rating book_id chapter_num approval w).
  destruct (with_rating_store book_id chapter_num approval w)
    as (Hwr1 & Hwr2 & _). fold wr in Hwr1, Hwr2.
  destruct (with_rating_model book_id chapter_num approval w)
    as (Hwr3 & Hwr4 & Hwr5). fold wr in Hwr3, Hwr4, Hwr5.
  apply find_chapter_Some in Hfind as Hchapter. destruct Hchapter as [Hin Hnum].
  apply rows_of_book_elem in Hin as [Hin Hbook].
  assert (Hread : get_chapters_by_book book_uuid wr
                  = (Ok (rows_of_book book_uuid w), requested wr)).
  { rewrite get_chapters_by_book_ok by (rewrite Hwr1; apply Hstore).
    by rewrite (rows_of_book_chapters _ _ _ Hwr2). }
  assert (Hreply' : reply_at (requested wr)
                      (LLMService.summary_prompt (Chapter.content chapter)
                         chapter_num (Chapter.title chapter)) 0 = Ok s).
  { unfold reply_at in *. simpl. by rewrite Hwr3, Hwr4. }
  pose proof (generate_chapter_summary_ok _ _ _ _ _ Hreply') as Hsum.
  match type of Hsum with
  | _ = (_, ?w2) =>
      destruct (update_chapter_ok (Chapter.id chapter)
                  (Updates None (Some s) None None)
                  (logging SUCCESS
                     ("Summary generated for chapter " +:+ Py.str chapter_num)
                     w2))
        as [saved Hsave]
  end.
  { simpl. rewrite Hwr5. apply Hstore. }
  { exists chapter. split; [|done]. simpl. by rewrite Hwr2. }
  assert (Htruthy : truthy (Some s) = true) by (by destruct s).
  eexists _, _, _, _. split; [|split].
  - unfold Api.approve_chapter. apply try_except_ok.
    rewrite (bind_ok _ _ _ _ _ (UUID_ok _ _ _ Huuid)).
    rewrite (bind_ok _ _ _ _ _ (state_of_run _ _)).
    rewrite (bind_ok _ _ _ _ _ (rating_step _ chapter_num _ _ Hrating)).
    fold wr. rewrite (bind_ok _ _ _ _ _ Hread). rewrite Hfind, Happroved.
    rewrite (bind_ok _ _ _ _ _
               (try_except_ok _ _ _ _ _ (bind_ok _ _ _ _ _ Hsum))).
    rewrite Htruthy.
    rewrite (bind_ok _ _ _ _ _
               (try_except_ok _ _ _ _ _ (bind_ok _ _ _ _ _ Hsave))).
    apply approval_tail.
  - unfold ContextManager.get_context_for_chapter. apply try_except_ok.
    match goal with
    | |- bind _ _ ?w0 = _ =>
        assert (Hf' : store_fault w0 (store_calls w0) = None)
          by (simpl; rewrite Hwr5; apply Hstore)
    end.
    rewrite (bind_ok _ _ _ _ _ (get_previous_chapter_summaries_ok _ _ _ Hf')).
    reflexivity.
  - apply list_elem_of_omap. exists (Some s). split; [|by rewrite Htruthy].
    unfold summaries_before. apply list_elem_of_fmap.
    exists (apply_updates (Updates None (Some s) None None) chapter).
    split; [done|]. rewrite sort_by_Permutation.
    destruct (apply_updates_key (Updates None (Some s) None None) chapter)
      as [Hb Hn].
    apply list_elem_of_filter. split; [rewrite Hb, Hn; split; [done|lia]|].
    simpl. rewrite Hwr2. unfold update_rows. apply list_elem_of_fmap.
    exists chapter. by rewrite decide_True.
Qed.

Lemma approved_summary_reaches_context_witness :
  exists response w' summaries w'',
    Api.approve_chapter "b1" 1 Examples.approval_yes Examples.world_reviewing
    = (Ok response, w')
    /\ ContextManager.get_context_for_chapter "b1" 2 w' = (Ok summaries, w'')
    /\ "text 0" ∈ summaries.
Proof.
  apply (approved_summary_reaches_context "b1" "b1" 1 2 Examples.approval_yes
           Examples.review1 Examples.world_reviewing "text 0");
    [reflexivity|reflexivity| |by intros k|reflexivity|reflexivity|done|lia].
  intros r st _ Hst. vm_compute in Hst. injection Hst as <-. by eexists.
Defined.

End ContextChain.

(** ** Rebuilding the Context Chain *)

Section Rebuild.
Import DatabaseService.

(** The loop of [rebuild_context_chain] stops at the first chapter that has
    content and no summary. *)
Lemma rebuild_loop_run cs :
  forall count w,
    ContextManager.rebuild_loop cs count w
    = match filter (fun c => lacks_summary c = true) cs with
      | [] => (Ok count, w)
      | _ :: _ =>
          (Raise (AttributeError
                    "'Chapter' object has no attribute 'chapter_title'"),
           logging ERROR
             "Error generating summary: 'Chapter' object has no attribute 'chapter_title'"
             w)
      end.
Proof.
  induction cs as [|c cs IH]; intros count w; [done|].
  cbn [ContextManager.rebuild_loop]. rewrite filter_cons.
  fold (lacks_summary c).
  destruct (lacks_summary c) eqn:Hc.
  - rewrite decide_True by done.
    apply andb_prop in Hc as [Hcontent _].
    by rewrite (bind_raise _ _ _ _ _ (summary_fails_at_title _ _ Hcontent)).
  - rewrite decide_False by done. apply IH.
Qed.

(** X15. [rebuild_context_chain] on a read that succeeds: when no chapter
    of the book has content without a summary it returns 0; otherwise it
    fails at the first such chapter, at [chapter.chapter_title], logs the
    error twice and raises [AttributeError]. In both cases one request
    went to the store, no model was called and no record changed. *)
Theorem rebuild_context_chain_result book_id w :
  store_fault w (store_calls w) = None ->
  ContextManager.rebuild_context_chain book_id w
  = match filter (fun c => lacks_summary c = true)
            (rows_of_book book_id w) with
    | [] =>
        (Ok 0,
         logging INFO "Rebuilt context chain: 0 summaries generated"
           (requested w))
    | _ :: _ =>
        (Raise (AttributeError
                  "'Chapter' object has no attribute 'chapter_title'"),
         logging ERROR
           "Error rebuilding context chain: 'Chapter' object has no attribute 'chapter_title'"
           (logging ERROR
              "Error generating summary: 'Chapter' object has no attribute 'chapter_title'"
              (requested w)))
    end.
Proof.
  intros Hf. unfold ContextManager.rebuild_context_chain.
  pose proof (rebuild_loop_run (rows_of_book book_id w) 0 (requested w))
    as Hloop.
  destruct (filter (fun c => lacks_summary c = true) (rows_of_book book_id w)).
  - apply try_except_ok.
    rewrite (bind_ok _ _ _ _ _ (get_chapters_by_book_ok _ _ Hf)).
    by rewrite (bind_ok _ _ _ _ _ Hloop).
  - erewrite try_except_raise;
      [|rewrite (bind_ok _ _ _ _ _ (get_chapters_by_book_ok _ _ Hf));
        by rewrite (bind_raise _ _ _ _ _ Hloop)].
    reflexivity.
Qed.

Lemma rebuild_context_chain_result_witness :
  ContextManager.rebuild_context_chain "b1" Examples.world123
  = (Raise (AttributeError
              "'Chapter' object has no attribute 'chapter_title'"),
     logging ERROR
       "Error rebuilding context chain: 'Chapter' object has no attribute 'chapter_title'"
       (logging ERROR
          "Error generating summary: 'Chapter' object has no attribute 'chapter_title'"
          (requested Examples.world123)))
  /\ ContextManager.rebuild_context_chain "b1"
       (Examples.world_with [Examples.chapter1; Examples.chapter2] no_fault
          echo_model)
     = (Ok 0,
        logging INFO "Rebuilt context chain: 0 summaries generated"
          (requested
             (Examples.world_with [Examples.chapter1; Examples.chapter2]
                no_fault echo_model))).
Proof.
  split.
  - exact (rebuild_context_chain_result "b1" Examples.world123 eq_refl).
  - exact (rebuild_context_chain_result "b1"
             (Examples.world_with [Examples.chapter1; Examples.chapter2]
                no_fault echo_model) eq_refl).
Defined.

End Rebuild.

(** ** The chapter endpoints *)

Section Endpoints.

Lemma bind_cases {A B} (m : M A) (k : A -> M B) w r w' :
  bind m k w = (r, w') ->
  (exists a w1, m w = (Ok a, w1) /\ k a w1 = (r, w'))
  \/ (exists e, m w = (Raise e, w') /\ r = Raise e).
Proof.
  unfold bind. destruct (m w) as [[a|e] w1].
  - left. by exists a, w1.
  - intros [= <- <-]. right. by exists e.
Qed.

Lemma quiet_refl w : quiet w w.
Proof. by repeat split. Qed.

Lemma quiet_trans w1 w2 w3 : quiet w1 w2 -> quiet w2 w3 -> quiet w1 w3.
Proof.
  intros (H1 & H2 & H3) (H4 & H5 & H6).
  repeat split; congruence.
Qed.

Lemma quiet_keeps {A} (m : M A) w r w' :
  keeps model_calls m -> keeps chapters m -> keeps workflow_states m ->
  m w = (r, w') -> quiet w w'.
Proof.
  intros H1 H2 H3 Hm.
  repeat split; [apply (keeps_at _ _ _ _ _ H1 Hm)
                |apply (keeps_at _ _ _ _ _ H2 Hm)
                |apply (keeps_at _ _ _ _ _ H3 Hm)].
Qed.

Lemma UUID_quiet book_id w r w' : Api.UUID book_id w = (r, w') -> quiet w w'.
Proof. apply quiet_keeps; keeps_with by_computation. Qed.

Lemma get_book_quiet book_id w r w' :
  DatabaseService.get_book book_id w = (r, w') -> quiet w w'.
Proof. apply quiet_keeps; keeps_with by_computation. Qed.

Lemma get_outline_by_book_quiet book_id w r w' :
  DatabaseService.get_outline_by_book book_id w = (r, w') -> quiet w w'.
Proof. apply quiet_keeps; keeps_with by_computation. Qed.

Lemma get_chapters_by_book_quiet book_id w r w' :
  DatabaseService.get_chapters_by_book book_id w = (r, w') -> quiet w w'.
Proof. apply quiet_keeps; keeps_with by_computation. Qed.

Lemma get_outline_by_book_ok book_id w :
  store_fault w (store_calls w) = None ->
  DatabaseService.get_outline_by_book book_id w
  = (Ok (head (reverse (filter (fun o => Outline.book_id o = book_id)
                          (outlines w)))),
     requested w).
Proof.
  intros H. unfold DatabaseService.get_outline_by_book, DatabaseService.select.
  apply try_except_ok. rewrite (bind_ok _ _ _ _ _ (execute_ok _ _ H)). simpl.
  by destruct (reverse _).
Qed.

Lemma step_guard_closed step :
  step <> "chapter_generation" -> step <> "chapter_review" ->
  negb (String.eqb step "chapter_generation"
        || String.eqb step "chapter_review") = true.
Proof.
  intros H1 H2.
  destruct (String.eqb_spec step "chapter_generation"); [done|].
  by destruct (String.eqb_spec step "chapter_review").
Qed.

(** X16. While the workflow step of the book is neither [chapter_generation]
    nor [chapter_review], the generate-chapter endpoint generates nothing,
    whatever the store does: it raises an HTTP error (429 or 500, never
    400), calls no model, creates no record and leaves the workflow states
    alone. When its reads succeed the error is its own guard's, which the
    handler has turned into a 500 (or a 429 when the step text itself
    mentions a rate limit). *)
Theorem generate_chapter_step_guard book_id n w :
  step_of book_id w <> "chapter_generation" ->
  step_of book_id w <> "chapter_review" ->
  exists code detail w',
    Api.generate_chapter book_id n w
    = (Raise (HTTPException code detail), w')
    /\ (code = 429 \/ code = 500)
    /\ quiet w w'
    /\ (forall u,
          uuid_parse w book_id = Some u ->
          store_fault w (store_calls w) = None ->
          store_fault w (S (store_calls w)) = None ->
          HTTPException code detail
          = if Api.mentions_rate_limit
                 (not_approved_message (step_of book_id w))
            then HTTPException 429 Api.rate_limit_detail
            else HTTPException 500
                   (not_approved_message (step_of book_id w))).
Proof.
  intros Hs1 Hs2.
  assert (Hbody : exists e w1,
    (book_uuid <- Api.UUID book_id ;;
     book <- DatabaseService.get_book book_uuid ;;
     outline_record <- DatabaseService.get_outline_by_book book_uuid ;;
     state <- Api.state_of book_id ;;
     logger.info ("Generate chapter " +:+ Py.str n
                  +:+ " - Current workflow step: "
                  +:+ Api.get_or state WorkflowState.step "") ;;
     if negb (String.eqb (Api.get_or state WorkflowState.step "")
                "chapter_generation"
              || String.eqb (Api.get_or state WorkflowState.step "")
                   "chapter_review")
     then raise (HTTPException 400
                   ("Outline must be approved first. Current step: "
                    +:+ Api.get_or state WorkflowState.step ""))
     else ret tt) w = (Raise e, w1)
    /\ quiet w w1
    /\ (forall u,
          uuid_parse w book_id = Some u ->
          store_fault w (store_calls w) = None ->
          store_fault w (S (store_calls w)) = None ->
          e = HTTPException 400
                ("Outline must be approved first. Current step: "
                 +:+ step_of book_id w))).
  { destruct (Api.UUID book_id w) as [[u|e] wa] eqn:HU.
    2:{ exists e, wa. split; [by rewrite (bind_raise _ _ _ _ _ HU)|].
        split; [by eapply UUID_quiet|].
        intros u Hu. by rewrite (UUID_ok _ _ _ Hu) in HU. }
    rewrite (bind_ok _ _ _ _ _ HU).
    assert (wa = w) as ->.
    { revert HU. unfold Api.UUID, bind, get_world.
      destruct (uuid_parse w book_id); by intros [= _ <-]. }
    destruct (DatabaseService.get_book u w) as [[book|e] wb] eqn:Hb.
    2:{ exists e, wb. split; [by rewrite (bind_raise _ _ _ _ _ Hb)|].
        split; [by eapply get_book_quiet|].
        intros u' _ Hf. by rewrite (get_book_ok _ _ Hf) in Hb. }
    rewrite (bind_ok _ _ _ _ _ Hb).
    destruct (DatabaseService.get_outline_by_book u wb)
      as [[outline_record|e] wc] eqn:Ho.
    2:{ exists e, wc. split; [by rewrite (bind_raise _ _ _ _ _ Ho)|].
        split.
        { eapply quiet_trans; [by eapply get_book_quiet|].
          by eapply get_outline_by_book_quiet. }
        intros u' _ Hf Hf2. rewrite (get_book_ok _ _ Hf) in Hb.
        injection Hb as _ <-.
        by rewrite (get_outline_by_book_ok u (requested w) Hf2) in Ho. }
    rewrite (bind_ok _ _ _ _ _ Ho).
    assert (Hq : quiet w wc).
    { eapply quiet_trans; [by eapply get_book_quiet|].
      by eapply get_outline_by_book_quiet. }
    rewrite (bind_ok _ _ _ _ _ (state_of_run _ _)).
    unfold logger.info, logger.emit, modify. unfold bind at 1.
    destruct Hq as (Hq1 & Hq2 & Hq3). rewrite Hq3. fold (step_of book_id w).
    rewrite (step_guard_closed _ Hs1 Hs2).
    eexists _, _. split; [reflexivity|]. split; [by repeat split|]. done. }
  destruct Hbody as (e & w1 & Hbody & Hq & Hexact).
  assert (Hrun : Api.generate_chapter book_id n w
                 = (let error_msg := exn_str e in
                    logger.error ("Error generating chapter: " +:+ error_msg) ;;
                    if Api.mentions_rate_limit error_msg
                    then raise (HTTPException 429 Api.rate_limit_detail)
                    else raise (HTTPException 500 error_msg)) w1).
  { unfold Api.generate_chapter.
    match goal with
    | |- try_except ?m _ w = _ => assert (Hm : m w = (Raise e, w1))
    end.
    { revert Hbody. unfold bind.
      destruct (Api.UUID book_id w) as [[u|e0] wa];
        [|by intros [= <- <-]].
      destruct (DatabaseService.get_book u wa) as [[book|e0] wb];
        [|by intros [= <- <-]].
      destruct (DatabaseService.get_outline_by_book u wb)
        as [[outline_record|e0] wc]; [|by intros [= <- <-]].
      destruct (Api.state_of book_id wc) as [[state|e0] wd];
        [|by intros [= <- <-]].
      destruct (logger.info _ wd) as [[[]|e0] we]; [|by intros [= <- <-]].
      destruct (negb _); [|done]. by intros [= <- <-]. }
    by rewrite (try_except_raise _ _ _ _ _ Hm). }
  rewrite Hrun. cbv zeta. unfold bind, logger.error, logger.emit, modify.
  destruct (Api.mentions_rate_limit (exn_str e)) eqn:Hm.
  - eexists _, _, _. split; [reflexivity|]. split; [by left|].
    split; [exact Hq|].
    intros u Hu Hf Hf2. specialize (Hexact u Hu Hf Hf2). subst e.
    unfold not_approved_message. by rewrite Hm.
  - eexists _, _, _. split; [reflexivity|]. split; [by right|].
    split; [exact Hq|].
    intros u Hu Hf Hf2. specialize (Hexact u Hu Hf Hf2). subst e.
    unfold not_approved_message. by rewrite Hm.
Qed.

Lemma generate_chapter_step_guard_witness :
  exists code detail w',
    Api.generate_chapter "b1" 1 (Examples.world_at_step "outline_review")
    = (Raise (HTTPException code detail), w')
    /\ (code = 429 \/ code = 500)
    /\ quiet (Examples.world_at_step "outline_review") w'.
Proof.
  destruct (generate_chapter_step_guard "b1" 1
              (Examples.world_at_step "outline_review"))
    as (code & detail & w' & Hrun & Hcode & Hq & _); [done|done|].
  by exists code, detail, w'.
Defined.


Lemma info_run msg w : logger.info msg w = (Ok tt, logging INFO msg w).
Proof. reflexivity. Qed.

Lemma success_run msg w :
  logger.success msg w = (Ok tt, logging SUCCESS msg w).
Proof. reflexivity. Qed.

Lemma generate_chapter_exhausted title outline n chapter_title summaries
    notes w :
  (forall prompt j, (j < 3)%nat -> rate_limit_failure (reply_at w prompt j)) ->
  (forall prompt, waits_go_through 0 w prompt 3) ->
  exists w',
    LLMService.generate_chapter title outline n chapter_title summaries notes w
    = (Raise (Exception LLMService.rate_limit_message), w')
    /\ model_calls w' = (model_calls w + 3)%nat
    /\ chapters w' = chapters w
    /\ workflow_states w' = workflow_states w.
Proof.
  intros Hrl Hwf. unfold LLMService.generate_chapter. cbv zeta.
  set (prompt := LLMService.chapter_prompt title outline n chapter_title
                   summaries notes).
  set (w0 := logging INFO ("Generating Chapter " +:+ Py.str n +:+ ": "
                           +:+ fmt chapter_title) w).
  destruct (exhausted_from prompt 3 3 0 w0) as (w1 & Hrun & Hcalls);
    [done|lia|exact (Hwf prompt)|exact (Hrl prompt)|].
  pose proof (keeps_at chapters _ _ _ _
                (retry_loop_keeps chapters (seq 0 3) prompt 3
                   (fun _ _ => eq_refl) (fun _ _ => eq_refl)
                   (fun _ _ => eq_refl)) Hrun) as Hch.
  pose proof (keeps_at workflow_states _ _ _ _
                (retry_loop_keeps workflow_states (seq 0 3) prompt 3
                   (fun _ _ => eq_refl) (fun _ _ => eq_refl)
                   (fun _ _ => eq_refl)) Hrun) as Hst.
  match goal with
  | |- exists w', try_except ?m _ w = _ /\ _ =>
      assert (Hm : m w = (Raise (Exception LLMService.rate_limit_message), w1))
  end.
  { rewrite (bind_ok _ _ _ _ _ (info_run _ w)). fold w0.
    unfold LLMService._call_with_retry. change (Z.to_nat 3) with 3%nat.
    by rewrite (bind_raise _ _ _ _ _ Hrun). }
  eexists. split; [|split; [|split]].
  - by rewrite (try_except_raise _ _ _ _ _ Hm).
  - simpl. exact Hcalls.
  - simpl. exact Hch.
  - simpl. exact Hst.
Qed.

(** X17. When the model is rate-limited on three attempts in a row, with
    delays that can be computed and that [time.sleep] accepts, and the
    state of the book holds a number of chapters, the generate-chapter
    endpoint answers 429 with the rate-limit text: the message the client
    raises after its last attempt is one the handler of the endpoint
    recognises. Three calls were made and no record was created. *)
Theorem generate_chapter_rate_limited book_id u n w book o text count :
  uuid_parse w book_id = Some u ->
  store_answers w ->
  head (filter (fun b => Book.id b = u) (books w)) = Some book ->
  head (reverse (filter (fun o => Outline.book_id o = u) (outlines w)))
  = Some o ->
  Outline.outline o = Some text ->
  step_of book_id w = "chapter_generation"
  \/ step_of book_id w = "chapter_review" ->
  requested_chapters book_id w = Some count ->
  (forall prompt j, (j < 3)%nat -> rate_limit_failure (reply_at w prompt j)) ->
  (forall prompt, waits_go_through 0 w prompt 3) ->
  exists w',
    Api.generate_chapter book_id n w
    = (Raise (HTTPException 429 Api.rate_limit_detail), w')
    /\ model_calls w' = (model_calls w + 3)%nat
    /\ chapters w' = chapters w
    /\ workflow_states w' = workflow_states w.
Proof.
  intros Hu Hstore Hbook Ho Htext Hstep Hreq Hrl Hwf.
  unfold Api.generate_chapter.
  match goal with
  | |- context [LLMService.generate_chapter] => idtac
  end.
  assert (Hopen : negb (String.eqb (step_of book_id w) "chapter_generation"
                        || String.eqb (step_of book_id w) "chapter_review")
                  = false) by (by destruct Hstep as [-> | ->]).
  match goal with
  | |- exists w', try_except ?m ?h w = _ /\ _ =>
      assert (Hm : exists w1,
                m w = (Raise (Exception LLMService.rate_limit_message), w1)
                /\ model_calls w1 = (model_calls w + 3)%nat
                /\ chapters w1 = chapters w
                /\ workflow_states w1 = workflow_states w)
  end.
  { rewrite (bind_ok _ _ _ _ _ (UUID_ok _ _ _ Hu)).
    rewrite (bind_ok _ _ _ _ _ (get_book_ok _ _ (Hstore _))).
    rewrite (bind_ok _ _ _ _ _
               (get_outline_by_book_ok u (requested w) (Hstore _))).
    rewrite (bind_ok _ _ _ _ _ (state_of_run _ _)).
    change (Api.get_or (workflow_states (requested (requested w)) !! book_id)
              WorkflowState.step "") with (step_of book_id w).
    rewrite (bind_ok _ _ _ _ _ (info_run _ _)). rewrite Hopen.
    match goal with
    | |- exists w1, bind _ _ ?w0 = _ /\ _ =>
        rewrite (bind_ok _ _ _ _ _
                   (get_previous_chapter_summaries_ok u n w0 (Hstore _)))
    end.
    simpl outlines. rewrite Ho, Htext.
    unfold bind at 1. unfold ret at 1.
    match goal with
    | |- context [Api.parse_outline_chapters text ?x] =>
        change x with (requested_chapters book_id w)
    end.
    rewrite Hreq. erewrite bind_ok; [|reflexivity].
    rewrite (bind_ok _ _ _ _ _ (info_run _ _)).
    simpl books. rewrite Hbook. unfold bind at 1. unfold ret at 1.
    match goal with
    | |- context [LLMService.generate_chapter ?a ?b ?c ?d ?e ?f] =>
        match goal with
        | |- exists w1, bind _ _ ?w0 = _ /\ _ =>
            destruct (generate_chapter_exhausted a b c d e f w0)
              as (w1 & Hgen & Hc1 & Hc2 & Hc3);
              [exact Hrl|exact Hwf|]
        end
    end.
    exists w1. split; [by rewrite (bind_raise _ _ _ _ _ Hgen)|].
    by rewrite Hc1, Hc2, Hc3. }
  destruct Hm as (w1 & Hm & Hc1 & Hc2 & Hc3).
  eexists. split; [|split; [|split]].
  - by rewrite (try_except_raise _ _ _ _ _ Hm).
  - simpl. exact Hc1.
  - simpl. exact Hc2.
  - simpl. exact Hc3.
Qed.

Lemma generate_chapter_rate_limited_witness :
  exists w',
    Api.generate_chapter "b1" 1 Examples.world_busy
    = (Raise (HTTPException 429 Api.rate_limit_detail), w')
    /\ model_calls w' = 3%nat
    /\ chapters w' = [].
Proof.
  destruct (generate_chapter_rate_limited "b1" "b1" 1 Examples.world_busy
              Examples.book1 Examples.outline1
              ("Chapter 1: Intro" +:+ Examples.nl +:+ "Chapter 2: Next") 2)
    as (w' & Hrun & Hcalls & Hrows & _);
    [reflexivity|by intros k|reflexivity|reflexivity|reflexivity|by left
    |reflexivity
    |intros prompt j _; by eexists
    |apply busy_waits_go_through|].
  by exists w'.
Defined.


Lemma update_state_run book_id f w :
  Api.update_state book_id f w
  = (Ok tt,
     match workflow_states w !! book_id with
     | Some s => set_workflow_states (<[book_id := f s]> (workflow_states w)) w
     | None => w
     end).
Proof. reflexivity. Qed.

Lemma read_after_rating book_id u n approval w :
  store_fault w (store_calls w) = None ->
  DatabaseService.get_chapters_by_book u (with_rating book_id n approval w)
  = (Ok (DatabaseService.rows_of_book u w),
     requested (with_rating book_id n approval w)).
Proof.
  intros Hf.
  destruct (with_rating_store book_id n approval w) as (Hwr1 & Hwr2 & _).
  rewrite get_chapters_by_book_ok by (by rewrite Hwr1).
  by rewrite (rows_of_book_chapters _ _ _ Hwr2).
Qed.

(** X18. An approval for a chapter that has no record is answered 404, after
    its rating was recorded: the rating is stored before the chapter is
    looked up. *)
Theorem approve_chapter_missing_chapter book_id u n approval w :
  uuid_parse w book_id = Some u ->
  rating_recordable book_id approval w ->
  store_fault w (store_calls w) = None ->
  find_chapter n (DatabaseService.rows_of_book u w) = None ->
  Api.approve_chapter book_id n approval w
  = (Raise (HTTPException 404 "Chapter not found"),
     requested (with_rating book_id n approval w))
  /\ (forall r s rs,
        Api.rating approval = Some r ->
        workflow_states w !! book_id = Some s ->
        WorkflowState.ratings s = Some rs ->
        workflow_states (requested (with_rating book_id n approval w))
          !! book_id
        = Some (WorkflowState.with_ratings
                  (rs ++ [("chapter_" +:+ Py.str n, r)])%list s)).
Proof.
  intros Hu Hrating Hf Hfind. split.
  - destruct (with_rating_store book_id n approval w) as (Hwr1 & Hwr2 & _).
    unfold Api.approve_chapter.
    match goal with
    | |- try_except ?m _ w = _ =>
        assert (Hm : m w = (Raise (HTTPException 404 "Chapter not found"),
                            requested (with_rating book_id n approval w)))
    end.
    { rewrite (bind_ok _ _ _ _ _ (UUID_ok _ _ _ Hu)).
      rewrite (bind_ok _ _ _ _ _ (state_of_run _ _)).
      rewrite (bind_ok _ _ _ _ _ (rating_step _ n _ _ Hrating)).
      rewrite (bind_ok _ _ _ _ _ (read_after_rating _ _ n _ _ Hf)).
      by rewrite Hfind. }
    by rewrite (try_except_raise _ _ _ _ _ Hm).
  - intros r s rs Hr Hs Hrs. unfold with_rating. rewrite Hr, Hs, Hrs.
    simpl. by rewrite lookup_insert_eq.
Qed.

Lemma approve_chapter_missing_chapter_witness :
  fst (Api.approve_chapter "b1" 7 Examples.approval_yes
         Examples.world_reviewing)
  = Raise (HTTPException 404 "Chapter not found")
  /\ (workflow_states
        (snd (Api.approve_chapter "b1" 7 Examples.approval_yes
                Examples.world_reviewing)) !! "b1")
       ≫= WorkflowState.ratings
     = Some [("chapter_7", 8)].
Proof.
  destruct (approve_chapter_missing_chapter "b1" "b1" 7 Examples.approval_yes
              Examples.world_reviewing) as [Hrun Hrating];
    [reflexivity| |reflexivity|reflexivity|].
  { intros r st _ Hst. vm_compute in Hst. injection Hst as <-. by eexists. }
  rewrite Hrun. split; [reflexivity|].
  cbn [snd]. by rewrite (Hrating 8 Examples.state1 [] eq_refl eq_refl eq_refl).
Defined.

(** X19. A request for changes ([approved] false) for a chapter that exists:
    without feedback it is refused with a 400; with feedback the answer is
    [needs_revision] with the feedback, which is kept under the chapter
    number in the workflow state of the book and is dropped when the book
    has no workflow state. No model is called and no record changes. *)
Theorem approve_chapter_rejection book_id u n approval chapter w :
  Api.approved approval = false ->
  uuid_parse w book_id = Some u ->
  rating_recordable book_id approval w ->
  store_fault w (store_calls w) = None ->
  find_chapter n (DatabaseService.rows_of_book u w) = Some chapter ->
  let wr := requested (with_rating book_id n approval w) in
  (truthy (Api.feedback approval) = false ->
   Api.approve_chapter book_id n approval w
   = (Raise (HTTPException 400 "Feedback required for changes"), wr))
  /\ (forall text,
        Api.feedback approval = Some text -> text <> "" ->
        exists w',
          Api.approve_chapter book_id n approval w
          = (Ok {| Api.message := "Feedback received. Regenerating chapter...";
                   Api.approval_status := "needs_revision";
                   Api.next_step := None;
                   Api.returned_feedback := Some text |}, w')
          /\ model_calls w' = model_calls w
          /\ chapters w' = chapters w
          /\ (forall s,
                workflow_states wr !! book_id = Some s ->
                exists s' kept,
                  workflow_states w' !! book_id = Some s'
                  /\ WorkflowState.chapter_feedback s' = Some kept
                  /\ kept !! n = Some text)
          /\ (workflow_states wr !! book_id = None -> w' = wr)).
Proof.
  intros Happroved Hu Hrating Hf Hfind wr.
  destruct (with_rating_store book_id n approval w) as (Hwr1 & Hwr2 & _).
  destruct (with_rating_model book_id n approval w) as (_ & Hwr4 & _).
  split.
  - intros Hfb. unfold Api.approve_chapter.
    match goal with
    | |- try_except ?m _ w = _ =>
        assert (Hm : m w
                     = (Raise (HTTPException 400
                                 "Feedback required for changes"), wr))
    end.
    { rewrite (bind_ok _ _ _ _ _ (UUID_ok _ _ _ Hu)).
      rewrite (bind_ok _ _ _ _ _ (state_of_run _ _)).
      rewrite (bind_ok _ _ _ _ _ (rating_step _ n _ _ Hrating)).
      rewrite (bind_ok _ _ _ _ _ (read_after_rating _ _ n _ _ Hf)).
      by rewrite Hfind, Happroved, Hfb. }
    by rewrite (try_except_raise _ _ _ _ _ Hm).
  - intros text Hfb Htext.
    assert (Htruthy : truthy (Api.feedback approval) = true)
      by (rewrite Hfb; by destruct text).
    eexists. split; [|split; [|split; [|split]]].
    + unfold Api.approve_chapter. apply try_except_ok.
      rewrite (bind_ok _ _ _ _ _ (UUID_ok _ _ _ Hu)).
      rewrite (bind_ok _ _ _ _ _ (state_of_run _ _)).
      rewrite (bind_ok _ _ _ _ _ (rating_step _ n _ _ Hrating)).
      rewrite (bind_ok _ _ _ _ _ (read_after_rating _ _ n _ _ Hf)).
      rewrite Hfind, Happroved, Htruthy.
      cbn [negb]. rewrite (bind_ok _ _ _ _ _ (update_state_run _ _ _)).
      rewrite Hfb. reflexivity.
    + fold wr. destruct (workflow_states wr !! book_id); simpl; exact Hwr4.
    + fold wr. destruct (workflow_states wr !! book_id); simpl; exact Hwr2.
    + fold wr. intros s Hs. rewrite Hs. eexists _, _.
      split; [apply lookup_insert_eq|]. split; [reflexivity|].
      apply lookup_insert_eq.
    + fold wr. by intros ->.
Qed.

Lemma approve_chapter_rejection_witness :
  exists w',
    Api.approve_chapter "b1" 1 Examples.approval_changes
      Examples.world_reviewing
    = (Ok {| Api.message := "Feedback received. Regenerating chapter...";
             Api.approval_status := "needs_revision";
             Api.next_step := None;
             Api.returned_feedback := Some "shorter" |}, w')
    /\ model_calls w' = 0%nat.
Proof.
  destruct (approve_chapter_rejection "b1" "b1" 1 Examples.approval_changes
              Examples.review1 Examples.world_reviewing) as [_ Hok];
    [reflexivity|reflexivity| |reflexivity|reflexivity|].
  { intros r st Hr. discriminate Hr. }
  destruct (Hok "shorter" eq_refl ltac:(done)) as (w' & Hrun & Hcalls & _).
  by exists w'.
Defined.

End Endpoints.

(** ** From the approval of the outline to the first chapter *)

Section OutlineApproval.

Lemma modify_run f w : modify f w = (Ok tt, f w).
Proof. reflexivity. Qed.

Lemma outline_rating_step book_id approval w :
  rating_recordable book_id approval w ->
  match Api.rating approval, workflow_states w !! book_id with
  | Some r, Some s =>
      match WorkflowState.ratings s with
      | Some rs =>
          Api.update_state book_id
            (WorkflowState.with_ratings (rs ++ [("outline", r)])%list)
      | None => raise (KeyError "'ratings'")
      end
  | _, _ => ret tt
  end w = (Ok tt, with_outline_rating book_id approval w).
Proof.
  intros Hrec. unfold with_outline_rating.
  destruct (Api.rating approval) as [r|] eqn:Hr; [|done].
  destruct (workflow_states w !! book_id) as [s|] eqn:Hs; [|done].
  destruct (Hrec r s Hr Hs) as [rs Hrs]. rewrite Hrs.
  unfold Api.update_state, modify. by rewrite Hs.
Qed.

Lemma with_outline_rating_frame book_id approval w :
  chapters (with_outline_rating book_id approval w) = chapters w
  /\ outlines (with_outline_rating book_id approval w) = outlines w
  /\ books (with_outline_rating book_id approval w) = books w
  /\ model_calls (with_outline_rating book_id approval w) = model_calls w
  /\ model_reply (with_outline_rating book_id approval w) = model_reply w
  /\ store_fault (with_outline_rating book_id approval w) = store_fault w
  /\ store_calls (with_outline_rating book_id approval w) = store_calls w
  /\ uuid_parse (with_outline_rating book_id approval w) = uuid_parse w
  /\ requested_chapters book_id (with_outline_rating book_id approval w)
     = requested_chapters book_id w.
Proof.
  unfold with_outline_rating, requested_chapters.
  destruct (Api.rating approval); [|done].
  destruct (workflow_states w !! book_id) as [st|] eqn:Hst; [|by rewrite Hst].
  destruct (WorkflowState.ratings st); [|by rewrite Hst].
  repeat split. simpl. by rewrite lookup_insert_eq.
Qed.

Lemma approve_outline_ok book_id u approval w :
  Api.approved approval = true ->
  uuid_parse w book_id = Some u ->
  rating_recordable book_id approval w ->
  store_fault w (store_calls w) = None ->
  exists w',
    Api.approve_outline book_id approval w
    = (Ok {| Api.message := "Outline approved! Ready to generate chapters.";
             Api.approval_status := "approved";
             Api.next_step := Some "generate_chapter_1";
             Api.returned_feedback := None |}, w')
    /\ workflow_states w' !! book_id
       = Some (approved_state
                 (workflow_states (with_outline_rating book_id approval w)
                    !! book_id))
    /\ step_of book_id w' = "chapter_generation"
    /\ requested_chapters book_id w' = requested_chapters book_id w
    /\ (chapters w', outlines w', books w', model_calls w')
       = (chapters w, outlines w, books w, model_calls w)
    /\ (store_fault w', model_reply w', uuid_parse w')
       = (store_fault w, model_reply w, uuid_parse w).
Proof.
  intros Happroved Hu Hrating Hf.
  destruct (with_outline_rating_frame book_id approval (requested w))
    as (H1 & H2 & H3 & H4 & H5 & H6 & H7 & H8 & H9).
  set (wr := with_outline_rating book_id approval (requested w)) in *.
  assert (Hstate : workflow_states wr !! book_id
                   = workflow_states (with_outline_rating book_id approval w)
                       !! book_id).
  { unfold wr, with_outline_rating. simpl.
    destruct (Api.rating approval); [|done].
    destruct (workflow_states w !! book_id) as [st|]; [|done].
    by destruct (WorkflowState.ratings st). }
  eexists. split; [|split; [|split; [|split; [|split]]]].
  - unfold Api.approve_outline. apply try_except_ok.
    rewrite (bind_ok _ _ _ _ _ (UUID_ok _ _ _ Hu)).
    rewrite (bind_ok _ _ _ _ _ (get_outline_by_book_ok _ _ Hf)).
    rewrite (bind_ok _ _ _ _ _ (state_of_run _ _)).
    rewrite (bind_ok _ _ _ _ _
               (outline_rating_step _ _ (requested w) Hrating)).
    fold wr. rewrite Happroved.
    rewrite (bind_ok _ _ _ _ _ (modify_run _ _)).
    rewrite (bind_ok _ _ _ _ _ (update_state_run _ _ _)).
    reflexivity.
  - rewrite <- Hstate. unfold approved_state.
    destruct (workflow_states wr !! book_id) as [st|] eqn:Hst.
    + rewrite Hst. simpl. by rewrite lookup_insert_eq.
    + simpl. rewrite lookup_insert_eq. simpl. by rewrite lookup_insert_eq.
  - unfold step_of.
    destruct (workflow_states wr !! book_id) as [st|] eqn:Hst.
    + rewrite Hst. simpl. by rewrite lookup_insert_eq.
    + simpl. rewrite lookup_insert_eq. simpl. by rewrite lookup_insert_eq.
  - transitivity (requested_chapters book_id wr); [|exact H9].
    unfold requested_chapters.
    destruct (workflow_states wr !! book_id) as [st|] eqn:Hst.
    + rewrite Hst. simpl. by rewrite lookup_insert_eq.
    + simpl. rewrite lookup_insert_eq. simpl. by rewrite lookup_insert_eq.
  - destruct (workflow_states wr !! book_id) as [st|] eqn:Hst.
    + rewrite Hst. simpl. by rewrite H1, H2, H3, H4.
    + simpl. rewrite lookup_insert_eq. simpl. by rewrite H1, H2, H3, H4.
  - destruct (workflow_states wr !! book_id) as [st|] eqn:Hst.
    + rewrite Hst. simpl. by rewrite H5, H6, H8.
    + simpl. rewrite lookup_insert_eq. simpl. by rewrite H5, H6, H8.
Qed.

(** X20. An approval of the outline opens the guard of the generate-chapter
    endpoint: it answers [approved], and afterwards the workflow step of the
    book is [chapter_generation], with the default state (10 chapters
    asked for and expected) when the book had none. It calls no model and
    changes no record of the store. *)
Theorem approve_outline_opens_guard book_id u approval w :
  Api.approved approval = true ->
  uuid_parse w book_id = Some u ->
  rating_recordable book_id approval w ->
  store_fault w (store_calls w) = None ->
  exists w',
    Api.approve_outline book_id approval w
    = (Ok {| Api.message := "Outline approved! Ready to generate chapters.";
             Api.approval_status := "approved";
             Api.next_step := Some "generate_chapter_1";
             Api.returned_feedback := None |}, w')
    /\ step_of book_id w' = "chapter_generation"
    /\ (workflow_states w !! book_id = None ->
        workflow_states w' !! book_id
        = Some (WorkflowState.with_step "chapter_generation"
                  Api.approved_default_state))
    /\ (forall st,
          workflow_states w !! book_id = Some st ->
          exists st',
            workflow_states w' !! book_id = Some st'
            /\ WorkflowState.total_chapters st'
               = WorkflowState.total_chapters st
            /\ WorkflowState.num_chapters_requested st'
               = WorkflowState.num_chapters_requested st)
    /\ (chapters w', outlines w', books w', model_calls w')
       = (chapters w, outlines w, books w, model_calls w).
Proof.
  intros Happroved Hu Hrating Hf.
  destruct (approve_outline_ok book_id u approval w Happroved Hu Hrating Hf)
    as (w' & Hrun & Hstate & Hstep & _ & Hframe & _).
  exists w'. split; [done|]. split; [done|]. split; [|split; [|done]].
  - intros Hnone. rewrite Hstate. unfold with_outline_rating.
    destruct (Api.rating approval); by rewrite !Hnone.
  - intros st Hst. rewrite Hstate. unfold with_outline_rating.
    destruct (Api.rating approval) as [r|]; [|rewrite Hst; by eexists].
    rewrite Hst.
    destruct (WorkflowState.ratings st) as [rs|]; [|rewrite Hst; by eexists].
    simpl. rewrite lookup_insert_eq. by eexists.
Qed.

Lemma approve_outline_opens_guard_witness :
  exists w',
    Api.approve_outline "b1" Examples.approval_yes
      (Examples.world_at_step "outline_review")
    = (Ok {| Api.message := "Outline approved! Ready to generate chapters.";
             Api.approval_status := "approved";
             Api.next_step := Some "generate_chapter_1";
             Api.returned_feedback := None |}, w')
    /\ step_of "b1" w' = "chapter_generation".
Proof.
  destruct (approve_outline_opens_guard "b1" "b1" Examples.approval_yes
              (Examples.world_at_step "outline_review"))
    as (w' & Hrun & Hstep & _); [reflexivity|reflexivity| |reflexivity|].
  { intros r st _ Hst. vm_compute in Hst. injection Hst as <-. by eexists. }
  by exists w'.
Defined.


Lemma generate_chapter_ok title outline n chapter_title summaries notes w s :
  reply_at w
    (LLMService.chapter_prompt title outline n chapter_title summaries notes)
    0 = Ok s ->
  LLMService.generate_chapter title outline n chapter_title summaries notes w
  = (Ok s,
     logging SUCCESS
       ("Chapter " +:+ Py.str n +:+ " generated ("
        +:+ Py.str (Z.of_nat (String.length s)) +:+ " chars)")
       (set_model_calls (S (model_calls w))
          (logging INFO ("Generating Chapter " +:+ Py.str n +:+ ": "
                         +:+ fmt chapter_title) w))).
Proof.
  intros H. unfold LLMService.generate_chapter. apply try_except_ok.
  rewrite (bind_ok _ _ _ _ _ (info_run _ w)).
  unfold LLMService._call_with_retry.
  change (seq 0 (Z.to_nat 3)) with [0; 1; 2]%nat.
  erewrite bind_ok; [|apply retry_step_ok; exact H]. reflexivity.
Qed.

Lemma create_chapter_run chapter w :
  store_fault w (store_calls w) = None ->
  DatabaseService.create_chapter chapter w
  = (Ok (DatabaseService.inserted_row (requested w) chapter),
     logging INFO
       ("Created chapter " +:+ Py.str (Chapter.chapter_number chapter)
        +:+ " for book " +:+ Chapter.book_id chapter)
       (set_chapters
          (chapters w ++ [DatabaseService.inserted_row (requested w) chapter])
          (requested w))).
Proof.
  intros H. unfold DatabaseService.create_chapter. apply try_except_ok.
  by rewrite (bind_ok _ _ _ _ _ (execute_ok _ _ H)).
Qed.

Lemma endpoint_run book_id u n w book o text s count :
  uuid_parse w book_id = Some u ->
  store_answers w ->
  book_of u w = Some book ->
  outline_of u w = Some o ->
  Outline.outline o = Some text ->
  step_of book_id w = "chapter_generation"
  \/ step_of book_id w = "chapter_review" ->
  requested_chapters book_id w = Some count ->
  reply_at w
    (LLMService.chapter_prompt (Book.title book) (Some text) n
       (Some (title_in_outline text count n))
       (omap (fun s => if truthy s then s else None)
          (DatabaseService.summaries_before u n w))
       None) 0 = Ok s ->
  exists row w',
    Api.generate_chapter book_id n w
    = (Ok {| Api.chapter_number := n;
             Api.title := title_in_outline text count n;
             Api.content := s;
             Api.status := "pending_approval" |}, w')
    /\ chapters w' = (chapters w ++ [row])%list
    /\ (Chapter.book_id row, Chapter.chapter_number row, Chapter.title row,
        Chapter.content row, Chapter.summary row)
       = (u, n, Some (title_in_outline text count n), Some s, None)
    /\ model_calls w' = S (model_calls w)
    /\ workflow_states w'
       = match workflow_states w !! book_id with
         | Some st =>
             <[book_id := WorkflowState.with_current_chapter n st]>
               (workflow_states w)
         | None => workflow_states w
         end.
Proof.
  intros Hu Hstore Hbook Ho Htext Hstep Hcount Hreply.
  assert (Hopen : negb (String.eqb (step_of book_id w) "chapter_generation"
                        || String.eqb (step_of book_id w) "chapter_review")
                  = false) by (by destruct Hstep as [-> | ->]).
  unfold book_of in Hbook. unfold outline_of in Ho.
  eexists _, _. split; [|split; [|split; [|split]]].
  - unfold Api.generate_chapter. apply try_except_ok.
    rewrite (bind_ok _ _ _ _ _ (UUID_ok _ _ _ Hu)).
    rewrite (bind_ok _ _ _ _ _ (get_book_ok _ _ (Hstore _))).
    rewrite (bind_ok _ _ _ _ _
               (get_outline_by_book_ok u (requested w) (Hstore _))).
    rewrite (bind_ok _ _ _ _ _ (state_of_run _ _)).
    change (Api.get_or (workflow_states (requested (requested w)) !! book_id)
              WorkflowState.step "") with (step_of book_id w).
    rewrite (bind_ok _ _ _ _ _ (info_run _ _)). rewrite Hopen.
    match goal with
    | |- bind _ _ ?w0 = _ =>
        rewrite (bind_ok _ _ _ _ _
                   (get_previous_chapter_summaries_ok u n w0 (Hstore _)))
    end.
    simpl outlines. rewrite Ho, Htext.
    unfold bind at 1. unfold ret at 1.
    change (Api.get_or (workflow_states (requested (requested w)) !! book_id)
              WorkflowState.num_chapters_requested (Some 10))
      with (requested_chapters book_id w).
    rewrite Hcount. erewrite bind_ok; [|reflexivity].
    fold (title_in_outline text count n).
    rewrite (bind_ok _ _ _ _ _ (info_run _ _)).
    simpl books. rewrite Hbook. unfold bind at 1. unfold ret at 1.
    erewrite bind_ok; [|apply generate_chapter_ok; exact Hreply].
    erewrite bind_ok; [|apply create_chapter_run; apply Hstore].
    rewrite (bind_ok _ _ _ _ _ (update_state_run _ _ _)).
    reflexivity.
  - simpl. destruct (workflow_states w !! book_id); reflexivity.
  - reflexivity.
  - simpl. destruct (workflow_states w !! book_id); reflexivity.
  - simpl. destruct (workflow_states w !! book_id); reflexivity.
Qed.

Lemma perm_singleton_head {A} (l : list A) x : l ≡ₚ [x] -> head l = Some x.
Proof. intros H%Permutation_singleton_r. by rewrite H. Qed.

(** X21. The generate-chapter endpoint when everything answers and the
    state of the book holds a number of chapters: the response carries the
    title found in the outline and the text the model gave, one
    record with that title and text is appended for the book, the current
    chapter of the workflow state becomes [n], and one call was made to the
    model. When the book had no record of chapter [n], the new record is
    the one an approval of chapter [n] will find. *)
Theorem generate_chapter_endpoint_succeeds book_id u n w book o text s count :
  uuid_parse w book_id = Some u ->
  store_answers w ->
  book_of u w = Some book ->
  outline_of u w = Some o ->
  Outline.outline o = Some text ->
  step_of book_id w = "chapter_generation"
  \/ step_of book_id w = "chapter_review" ->
  requested_chapters book_id w = Some count ->
  reply_at w
    (LLMService.chapter_prompt (Book.title book) (Some text) n
       (Some (title_in_outline text count n))
       (omap (fun s => if truthy s then s else None)
          (DatabaseService.summaries_before u n w))
       None) 0 = Ok s ->
  exists row w',
    Api.generate_chapter book_id n w
    = (Ok {| Api.chapter_number := n;
             Api.title := title_in_outline text count n;
             Api.content := s;
             Api.status := "pending_approval" |}, w')
    /\ chapters w' = (chapters w ++ [row])%list
    /\ (Chapter.book_id row, Chapter.chapter_number row, Chapter.title row,
        Chapter.content row, Chapter.summary row)
       = (u, n, Some (title_in_outline text count n), Some s, None)
    /\ model_calls w' = S (model_calls w)
    /\ (forall st,
          workflow_states w !! book_id = Some st ->
          workflow_states w' !! book_id
          = Some (WorkflowState.with_current_chapter n st))
    /\ (find_chapter n (DatabaseService.rows_of_book u w) = None ->
        find_chapter n (DatabaseService.rows_of_book u w') = Some row).
Proof.
  intros Hu Hstore Hbook Ho Htext Hstep Hcount Hreply.
  destruct (endpoint_run book_id u n w book o text s count)
    as (row & w' & Hrun & Hrows & Hrow & Hcalls & Hstates); try done.
  exists row, w'. repeat (split; [done|]). split.
  - intros st Hst. rewrite Hstates, Hst. apply lookup_insert_eq.
  - intros Hnone. injection Hrow as Hb Hn _ _ _.
    unfold find_chapter. apply perm_singleton_head.
    unfold DatabaseService.rows_of_book. rewrite sort_by_Permutation, Hrows.
    rewrite filter_app, filter_app, filter_cons, filter_nil.
    rewrite decide_True by done. cbn [app].
    rewrite filter_cons, filter_nil, decide_True by done.
    assert (Hold : filter (fun c => Chapter.chapter_number c = n)
                     (filter (fun c => Chapter.book_id c = u) (chapters w))
                   = []).
    { destruct (filter _ (filter _ (chapters w))) as [|c cs] eqn:Hc; [done|].
      assert (Hin : c ∈ filter (fun c => Chapter.chapter_number c = n)
                          (filter (fun c => Chapter.book_id c = u)
                             (chapters w))) by (rewrite Hc; left).
      apply list_elem_of_filter in Hin as [Hnum Hin].
      destruct (find_chapter_None n _ c Hnone); [|done].
      unfold DatabaseService.rows_of_book. by rewrite sort_by_Permutation. }
    by rewrite Hold.
Qed.

Lemma generate_chapter_endpoint_succeeds_witness :
  exists row w',
    Api.generate_chapter "b1" 1 Examples.world0
    = (Ok {| Api.chapter_number := 1; Api.title := "Intro";
             Api.content := "text 0"; Api.status := "pending_approval" |}, w')
    /\ chapters w' = [row]
    /\ find_chapter 1 (DatabaseService.rows_of_book "b1" w') = Some row.
Proof.
  destruct (generate_chapter_endpoint_succeeds "b1" "b1" 1 Examples.world0
              Examples.book1 Examples.outline1
              ("Chapter 1: Intro" +:+ Examples.nl +:+ "Chapter 2: Next")
              "text 0" 2)
    as (row & w' & Hrun & Hrows & _ & _ & _ & Hfind);
    [reflexivity|by intros k|reflexivity|reflexivity|reflexivity|by left
    |reflexivity|reflexivity|].
  exists row, w'. split; [exact Hrun|]. split; [exact Hrows|].
  by apply Hfind.
Defined.

(** X22. Approval and generation compose: after an approval of the outline, a
    request for any chapter of the book is served (the store and the model
    answering, the book having an outline text, and the number of chapters
    asked for, as the endpoint reads it from the state of the book, being
    a number): one record with the requested number is appended. *)
Theorem outline_approval_then_generation book_id u approval n w book o text
    count :
  Api.approved approval = true ->
  uuid_parse w book_id = Some u ->
  rating_recordable book_id approval w ->
  store_answers w ->
  model_answers w ->
  book_of u w = Some book ->
  outline_of u w = Some o ->
  Outline.outline o = Some text ->
  requested_chapters book_id w = Some count ->
  exists response w',
    (Api.approve_outline book_id approval ;; Api.generate_chapter book_id n) w
    = (Ok response, w')
    /\ Api.chapter_number response = n
    /\ Api.title response = title_in_outline text count n
    /\ chapter_keys w' = (chapter_keys w ++ [(u, n)])%list
    /\ step_of book_id w' = "chapter_generation".
Proof.
  intros Happroved Hu Hrating Hstore Hmodel Hbook Ho Htext Hcount.
  destruct (approve_outline_ok book_id u approval w Happroved Hu Hrating
              (Hstore _))
    as (w1 & Hrun1 & Hstate & Hstep & Hreq & [= Hc Hos Hbs Hmc]
        & [= Hsf Hmr Hup]).
  destruct (Hmodel (model_calls w)
              (LLMService.chapter_prompt (Book.title book) (Some text) n
                 (Some (title_in_outline text count n))
                 (omap (fun s => if truthy s then s else None)
                    (DatabaseService.summaries_before u n w))
                 None)) as [s Hs].
  destruct (endpoint_run book_id u n w1 book o text s count)
    as (row & w' & Hrun & Hrows & Hrow & Hcalls & Hstates).
  - by rewrite Hup.
  - intros k. rewrite Hsf. apply Hstore.
  - unfold book_of. by rewrite Hbs.
  - unfold outline_of. by rewrite Hos.
  - done.
  - by left.
  - by rewrite Hreq.
  - unfold reply_at, DatabaseService.summaries_before.
    rewrite Hmr, Hmc, Hc, Nat.add_0_r. exact Hs.
  - eexists _, w'. split; [|split; [|split; [|split]]].
    + rewrite (bind_ok _ _ _ _ _ Hrun1). exact Hrun.
    + reflexivity.
    + reflexivity.
    + unfold chapter_keys. rewrite Hrows, Hc, fmap_app.
      injection Hrow as Hb Hn _ _ _. simpl. by rewrite Hb, Hn.
    + unfold step_of in *. rewrite Hstates.
      destruct (workflow_states w1 !! book_id) as [st|] eqn:Hst; [|done].
      rewrite lookup_insert_eq. exact Hstep.
Qed.

Lemma outline_approval_then_generation_witness :
  exists response w',
    (Api.approve_outline "b1" Examples.approval_yes ;;
     Api.generate_chapter "b1" 1) (Examples.world_at_step "outline_review")
    = (Ok response, w')
    /\ Api.chapter_number response = 1
    /\ chapter_keys w' = [("b1", 1)].
Proof.
  destruct (outline_approval_then_generation "b1" "b1" Examples.approval_yes
              1 (Examples.world_at_step "outline_review") Examples.book1
              Examples.outline1
              ("Chapter 1: Intro" +:+ Examples.nl +:+ "Chapter 2: Next") 2)
    as (response & w' & Hrun & Hn & _ & Hkeys & _);
    [reflexivity|reflexivity| |by intros k|intros k p; by eexists
    |reflexivity|reflexivity|reflexivity|reflexivity|].
  { intros r st _ Hst. vm_compute in Hst. injection Hst as <-. by eexists. }
  by exists response, w'.
Defined.

End OutlineApproval.

(** ** The outline endpoints and the status endpoint *)

Section OutlineEndpoints.
Import DatabaseService.

Lemma error_run msg w : logger.error msg w = (Ok tt, logging ERROR msg w).
Proof. reflexivity. Qed.

Lemma filter_fmap_preserved {A} (P : A -> Prop) `{!forall x, Decision (P x)}
    (f : A -> A) (l : list A) :
  (forall x, P (f x) <-> P x) ->
  filter P (f <$> l) = f <$> filter P l.
Proof.
  intros Hf. induction l as [|x l IH]; [done|].
  cbn [fmap list_fmap]. rewrite !filter_cons, IH.
  destruct (decide (P x)) as [Hx|Hx].
  - by rewrite decide_True by (by apply Hf).
  - by rewrite decide_False by (by rewrite Hf).
Qed.

Lemma apply_outline_updates_key u o :
  Outline.id (apply_outline_updates u o) = Outline.id o
  /\ Outline.book_id (apply_outline_updates u o) = Outline.book_id o.
Proof.
  unfold apply_outline_updates.
  by destruct (set_outline u), (set_notes_after u).
Qed.

Lemma outline_of_update book_uuid u o w0 w :
  outlines w0 = update_outline_rows (Outline.id o) u (outlines w) ->
  outline_of book_uuid w = Some o ->
  outline_of book_uuid w0 = Some (apply_outline_updates u o).
Proof.
  unfold outline_of. intros -> Ho. unfold update_outline_rows.
  rewrite filter_fmap_preserved.
  - rewrite <- fmap_reverse.
    destruct (reverse _) as [|o' l]; [done|]. injection Ho as ->.
    simpl. by rewrite decide_True.
  - intros x. destruct (decide (Outline.id x = Outline.id o)); [|done].
    by destruct (apply_outline_updates_key u x) as [_ ->].
Qed.

Lemma update_outline_ok outline_id u w :
  store_fault w (store_calls w) = None ->
  (exists o, o ∈ outlines w /\ Outline.id o = outline_id) ->
  exists o,
    update_outline outline_id u w
    = (Ok o,
       logging INFO ("Updated outline " +:+ outline_id)
         (set_outlines (update_outline_rows outline_id u (outlines w))
            (requested w))).
Proof.
  intros Hf (o & Ho & Hid).
  assert (Hin : apply_outline_updates u o
                ∈ filter (fun r => Outline.id r = outline_id)
                    (update_outline_rows outline_id u (outlines w))).
  { apply list_elem_of_filter. split.
    - by destruct (apply_outline_updates_key u o) as [-> _].
    - unfold update_outline_rows. apply list_elem_of_fmap.
      exists o. by rewrite decide_True. }
  destruct (filter _ (update_outline_rows outline_id u (outlines w)))
    as [|o1 rest] eqn:Hd; [by apply elem_of_nil in Hin|].
  exists o1. unfold update_outline. apply try_except_ok.
  rewrite (bind_ok _ _ _ _ _ (execute_ok _ _ Hf)). cbn [fst snd].
  change (outlines (requested w)) with (outlines w). by rewrite Hd.
Qed.

Lemma outline_of_elem book_uuid w o :
  outline_of book_uuid w = Some o ->
  o ∈ outlines w /\ Outline.book_id o = book_uuid.
Proof.
  unfold outline_of. intros H%head_Some_elem_of.
  apply elem_of_reverse, list_elem_of_filter in H. tauto.
Qed.

(** X23. The error discipline of the endpoints: whatever goes wrong, the
    generate-chapter and generate-outline endpoints raise an HTTP error 429
    (with the rate-limit text) or 500, the approve-outline and status
    endpoints raise an HTTP error 500, and the approve-chapter endpoint
    raises an HTTP error. The 400 and 404 that the bodies of the first four
    raise are therefore never seen as such. *)
Theorem endpoint_errors_are_http :
  (forall book_id n w e,
     fst (Api.generate_chapter book_id n w) = Raise e ->
     e = HTTPException 429 Api.rate_limit_detail
     \/ exists detail, e = HTTPException 500 detail)
  /\ (forall book_id w e,
        fst (Api.generate_outline book_id w) = Raise e ->
        e = HTTPException 429 Api.rate_limit_detail
        \/ exists detail, e = HTTPException 500 detail)
  /\ (forall book_id approval w e,
        fst (Api.approve_outline book_id approval w) = Raise e ->
        exists detail, e = HTTPException 500 detail)
  /\ (forall book_id w e,
        fst (Api.get_status book_id w) = Raise e ->
        exists detail, e = HTTPException 500 detail)
  /\ (forall book_id n approval w e,
        fst (Api.approve_chapter book_id n approval w) = Raise e ->
        is_HTTPException e = true).
Proof.
  split; [|split; [|split; [|split]]].
  - intros book_id n w e. unfold Api.generate_chapter, try_except.
    match goal with
    | |- fst (let (_, _) := ?inner w in _) = _ -> _ =>
        destruct (inner w) as [[r|e0] w0]
    end; [done|].
    unfold bind, logger.error, logger.emit, modify. cbv zeta.
    destruct (Api.mentions_rate_limit (exn_str e0)); simpl; intros [= <-].
    + by left.
    + right. by eexists.
  - intros book_id w e. unfold Api.generate_outline, try_except.
    match goal with
    | |- fst (let (_, _) := ?inner w in _) = _ -> _ =>
        destruct (inner w) as [[r|e0] w0]
    end; [done|].
    unfold bind, logger.error, logger.emit, modify. cbv zeta.
    destruct (Api.mentions_rate_limit (exn_str e0)); simpl; intros [= <-].
    + by left.
    + right. by eexists.
  - intros book_id approval w e. unfold Api.approve_outline, try_except.
    match goal with
    | |- fst (let (_, _) := ?inner w in _) = _ -> _ =>
        destruct (inner w) as [[r|e0] w0]
    end; [done|].
    unfold bind, logger.error, logger.emit, modify. simpl.
    intros [= <-]. by eexists.
  - intros book_id w e. unfold Api.get_status, try_except.
    match goal with
    | |- fst (let (_, _) := ?inner w in _) = _ -> _ =>
        destruct (inner w) as [[r|e0] w0]
    end; [done|].
    simpl. intros [= <-]. by eexists.
  - intros book_id n approval w e. unfold Api.approve_chapter, try_except.
    match goal with
    | |- fst (let (_, _) := ?inner w in _) = _ -> _ =>
        destruct (inner w) as [[r|e0] w0]
    end; [done|].
    destruct (is_HTTPException e0) eqn:He0; [by intros [= <-]|].
    cbv zeta. unfold bind, logger.error, logger.emit, modify.
    destruct (Api.mentions_rate_limit (exn_str e0)); [by intros [= <-]|].
    destruct (Py.contains "not found" (Py.lower (exn_str e0)));
      by intros [= <-].
Qed.

(** X24. A request for changes to the outline ([approved] false): without
    feedback the 400 of the body reaches the client as a 500; with feedback
    and no outline record the failure is a 500 as well; with feedback and
    an outline record the feedback is stored as [notes_after] of that
    record, which is the record read next, and the answer is
    [needs_revision]. *)
Theorem approve_outline_rejection book_id u approval w :
  Api.approved approval = false ->
  uuid_parse w book_id = Some u ->
  rating_recordable book_id approval w ->
  store_fault w (store_calls w) = None ->
  (truthy (Api.feedback approval) = false ->
   fst (Api.approve_outline book_id approval w)
   = Raise (HTTPException 500 "400: Feedback required for changes"))
  /\ (forall text,
        Api.feedback approval = Some text -> text <> "" ->
        outline_of u w = None ->
        fst (Api.approve_outline book_id approval w)
        = Raise (HTTPException 500
                   "'NoneType' object has no attribute 'id'"))
  /\ (forall text o,
        Api.feedback approval = Some text -> text <> "" ->
        outline_of u w = Some o ->
        store_fault w (S (store_calls w)) = None ->
        exists w',
          Api.approve_outline book_id approval w
          = (Ok {| Api.message := "Feedback received. Regenerating outline...";
                   Api.approval_status := "needs_revision";
                   Api.next_step := Some "regenerate_outline";
                   Api.returned_feedback := None |}, w')
          /\ outline_of u w' = Some (Outline.with_notes_after (Some text) o)
          /\ chapters w' = chapters w
          /\ model_calls w' = model_calls w).
Proof.
  intros Happroved Hu Hrating Hf.
  destruct (with_outline_rating_frame book_id approval (requested w))
    as (H1 & H2 & H3 & H4 & H5 & H6 & H7 & H8 & H9).
  set (wr := with_outline_rating book_id approval (requested w)) in *.
  assert (Hprefix : forall k : option Outline.t -> M Api.ApprovalResponse,
    (book_uuid <- Api.UUID book_id ;;
     outline_record <- get_outline_by_book book_uuid ;;
     state <- Api.state_of book_id ;;
     match Api.rating approval, state with
     | Some r, Some s =>
         match WorkflowState.ratings s with
         | Some rs =>
             Api.update_state book_id
               (WorkflowState.with_ratings (rs ++ [("outline", r)])%list)
         | None => raise (KeyError "'ratings'")
         end
     | _, _ => ret tt
     end ;;
     k outline_record) w = k (outline_of u w) wr).
  { intros k.
    rewrite (bind_ok _ _ _ _ _ (UUID_ok _ _ _ Hu)).
    rewrite (bind_ok _ _ _ _ _ (get_outline_by_book_ok _ _ Hf)).
    rewrite (bind_ok _ _ _ _ _ (state_of_run _ _)).
    by rewrite (bind_ok _ _ _ _ _
                  (outline_rating_step _ _ (requested w) Hrating)). }
  split; [|split].
  - intros Hfb. unfold Api.approve_outline, try_except.
    rewrite (Hprefix (fun outline_record => _)).
    by rewrite Happroved, Hfb.
  - intros text Hfb Htext Hnone.
    assert (Htruthy : truthy (Api.feedback approval) = true)
      by (rewrite Hfb; by destruct text).
    unfold Api.approve_outline, try_except.
    rewrite (Hprefix (fun outline_record => _)).
    by rewrite Happroved, Htruthy, Hnone.
  - intros text o Hfb Htext Ho Hf2.
    assert (Htruthy : truthy (Api.feedback approval) = true)
      by (rewrite Hfb; by destruct text).
    destruct (outline_of_elem _ _ _ Ho) as [Hin Hbook].
    destruct (update_outline_ok (Outline.id o)
                (OutlineUpdates None (Some text)) wr)
      as [saved Hsave].
    { by rewrite H6, H7. }
    { exists o. by rewrite H2. }
    eexists. split; [|split; [|split]].
    + unfold Api.approve_outline. apply try_except_ok.
      rewrite (Hprefix (fun outline_record => _)).
      rewrite Happroved, Htruthy, Ho. cbn [negb].
      unfold bind at 1. unfold ret at 1. rewrite Hfb.
      rewrite (bind_ok _ _ _ _ _ Hsave). reflexivity.
    + eapply (outline_of_update u (OutlineUpdates None (Some text)) o _ w);
        [|exact Ho]. simpl. by rewrite H2.
    + simpl. exact H1.
    + simpl. exact H4.
Qed.

Lemma approve_outline_rejection_witness :
  exists w',
    Api.approve_outline "b1" Examples.approval_changes
      (Examples.world_at_step "outline_review")
    = (Ok {| Api.message := "Feedback received. Regenerating outline...";
             Api.approval_status := "needs_revision";
             Api.next_step := Some "regenerate_outline";
             Api.returned_feedback := None |}, w')
    /\ outline_of "b1" w'
       = Some (Outline.with_notes_after (Some "shorter") Examples.outline1).
Proof.
  destruct (approve_outline_rejection "b1" "b1" Examples.approval_changes
              (Examples.world_at_step "outline_review")) as (_ & _ & Hok);
    [reflexivity|reflexivity| |reflexivity|].
  { intros r st Hr. discriminate Hr. }
  destruct (Hok "shorter" Examples.outline1 eq_refl ltac:(done) eq_refl
              eq_refl) as (w' & Hrun & Hnotes & _).
  by exists w'.
Defined.


Lemma generate_outline_ok title notes n w s :
  reply_at w (LLMService.outline_prompt title notes n) 0 = Ok s ->
  LLMService.generate_outline title notes n w
  = (Ok s,
     logging SUCCESS
       ("Outline generated successfully ("
        +:+ Py.str (Z.of_nat (String.length s)) +:+ " chars)")
       (set_model_calls (S (model_calls w))
          (logging INFO ("Generating outline for: " +:+ title) w))).
Proof.
  intros H. unfold LLMService.generate_outline. apply try_except_ok.
  rewrite (bind_ok _ _ _ _ _ (info_run _ w)).
  unfold LLMService._call_with_retry.
  change (seq 0 (Z.to_nat 3)) with [0; 1; 2]%nat.
  erewrite bind_ok; [|apply retry_step_ok; exact H]. reflexivity.
Qed.

Lemma parse_outline_chapters_length_le text n :
  (length (OutlineParser.parse_outline_chapters text n) <= Z.to_nat n)%nat.
Proof.
  rewrite parse_outline_chapters_kept.
  assert (Hlen : (length (Py.sort_by OutlineParser.number
                            (ParserSpec.kept text n))
                  <= Z.to_nat (Z.max 1 n))%nat).
  { rewrite sort_by_length, kept_length. lia. }
  destruct (slice_to_length n _ Hlen) as [Hcut _].
  destruct (OutlineParser.renumber_from 1 _) as [|e l] eqn:Hr.
  - by rewrite default_chapters_length.
  - rewrite <- Hr, renumber_from_length. exact Hcut.
Qed.

(** X25. The generate-outline endpoint when everything answers and the
    number of chapters asked for, as the endpoint reads it from the state
    of the book, is a number: the response carries the text the model gave
    and the chapters parsed from it; the text is stored in the outline
    record of the book, which is the record read next; the workflow step
    becomes [outline_review] (so that chapters are refused until the
    outline is approved) and the number of chapters expected is the number
    parsed, which never exceeds the number asked for, or 0 when that
    number is negative. *)
Theorem generate_outline_endpoint_succeeds book_id u w book o s count :
  uuid_parse w book_id = Some u ->
  store_answers w ->
  outline_of u w = Some o ->
  book_of u w = Some book ->
  requested_chapters book_id w = Some count ->
  reply_at w
    (LLMService.outline_prompt (Book.title book)
       (if truthy (Outline.notes_before o)
        then fmt (Outline.notes_before o) else "")
       (Some count)) 0 = Ok s ->
  exists w',
    Api.generate_outline book_id w
    = (Ok {| Api.outline_book_id := book_id;
             Api.outline_text := s;
             Api.outline_chapters :=
               OutlineParser.parse_outline_chapters s count;
             Api.outline_status := "pending_approval" |}, w')
    /\ workflow_states w' !! book_id
       = Some (Api.outline_review_state
                 (Z.of_nat (length (OutlineParser.parse_outline_chapters s
                                      count)))
                 (Some count)
                 (default Api.empty_state (workflow_states w !! book_id)))
    /\ step_of book_id w' = "outline_review"
    /\ Z.of_nat (length (OutlineParser.parse_outline_chapters s count))
       <= Z.max 0 count
    /\ outline_of u w' = Some (Outline.with_outline (Some s) o)
    /\ chapters w' = chapters w
    /\ model_calls w' = S (model_calls w).
Proof.
  intros Hu Hstore Ho Hbook Hcount Hreply.
  destruct (outline_of_elem _ _ _ Ho) as [Hin Hob].
  unfold book_of in Hbook.
  eexists. split; [|split; [|split; [|split; [|split; [|split]]]]].
  - unfold Api.generate_outline. apply try_except_ok.
    rewrite (bind_ok _ _ _ _ _ (UUID_ok _ _ _ Hu)).
    rewrite (bind_ok _ _ _ _ _ (get_outline_by_book_ok _ _ (Hstore _))).
    rewrite (bind_ok _ _ _ _ _ (get_book_ok u (requested w) (Hstore _))).
    fold (outline_of u w). rewrite Ho.
    rewrite (bind_ok _ _ _ _ _ (state_of_run _ _)).
    change (Api.get_or (workflow_states (requested (requested w)) !! book_id)
              WorkflowState.num_chapters_requested (Some 10))
      with (requested_chapters book_id w).
    rewrite Hcount.
    simpl books. rewrite Hbook. unfold bind at 1. unfold ret at 1.
    rewrite (bind_ok _ _ _ _ _ (info_run _ _)).
    erewrite bind_ok; [|apply generate_outline_ok; exact Hreply].
    erewrite bind_ok; [|reflexivity].
    match goal with
    | |- bind (update_outline ?i ?upd) _ ?w0 = _ =>
        destruct (update_outline_ok i upd w0) as [saved Hsave];
          [apply Hstore|by exists o|]
    end.
    rewrite (bind_ok _ _ _ _ _ Hsave).
    rewrite (bind_ok _ _ _ _ _ (modify_run _ _)).
    reflexivity.
  - simpl. apply lookup_insert_eq.
  - unfold step_of. simpl. by rewrite lookup_insert_eq.
  - pose proof (parse_outline_chapters_length_le s count). lia.
  - eapply (outline_of_update u (OutlineUpdates (Some s) None) o _ w);
      [|exact Ho]. reflexivity.
  - reflexivity.
  - reflexivity.
Qed.

Lemma generate_outline_endpoint_succeeds_witness :
  exists w',
    Api.generate_outline "b1" Examples.world0
    = (Ok {| Api.outline_book_id := "b1";
             Api.outline_text := "text 0";
             Api.outline_chapters :=
               OutlineParser.parse_outline_chapters "text 0" 2;
             Api.outline_status := "pending_approval" |}, w')
    /\ step_of "b1" w' = "outline_review".
Proof.
  destruct (generate_outline_endpoint_succeeds "b1" "b1" Examples.world0
              Examples.book1 Examples.outline1 "text 0" 2)
    as (w' & Hrun & _ & Hstep & _);
    [reflexivity|by intros k|reflexivity|reflexivity|reflexivity
    |reflexivity|].
  by exists w'.
Defined.

(** X26. The status endpoint reads and changes nothing (three requests to the
    store are counted). It reports the title of the book, as approved the
    chapters of the book whose summary is set, and the outline as approved
    whenever the guard of the generate-chapter endpoint is open; for a book
    without workflow state it reports the step [created], a pending
    outline and no chapter expected. *)
Theorem get_status_reads_only book_id u w book :
  uuid_parse w book_id = Some u ->
  store_answers w ->
  book_of u w = Some book ->
  exists response,
    Api.get_status book_id w
    = (Ok response, requested (requested (requested w)))
    /\ Api.status_title response = Book.title book
    /\ Api.chapters_approved response
       = Z.of_nat (length (filter (fun c => truthy (Chapter.summary c) = true
                                           /\ Chapter.book_id c = u)
                             (chapters w)))
    /\ (step_of book_id w = "chapter_generation"
        \/ step_of book_id w = "chapter_review" ->
        Api.status_outline response = "approved")
    /\ (workflow_states w !! book_id = None ->
        (Api.workflow_step response, Api.status_outline response,
         Api.chapters_total response, Api.current_chapter response,
         Api.status_ratings response)
        = ("created", "pending", 0, 0, [])).
Proof.
  intros Hu Hstore Hbook. unfold book_of in Hbook.
  eexists. split; [|split; [|split; [|split]]].
  - unfold Api.get_status. apply try_except_ok.
    rewrite (bind_ok _ _ _ _ _ (UUID_ok _ _ _ Hu)).
    rewrite (bind_ok _ _ _ _ _ (get_book_ok _ _ (Hstore _))).
    rewrite (bind_ok _ _ _ _ _
               (get_outline_by_book_ok u (requested w) (Hstore _))).
    rewrite (bind_ok _ _ _ _ _
               (get_chapters_by_book_ok u (requested (requested w))
                  (Hstore _))).
    rewrite (bind_ok _ _ _ _ _ (state_of_run _ _)).
    rewrite Hbook. unfold bind at 1. unfold ret at 1. reflexivity.
  - reflexivity.
  - cbn [Api.chapters_approved]. f_equal.
    change (rows_of_book u (requested (requested w)))
      with (rows_of_book u w).
    apply Permutation_length. unfold rows_of_book.
    rewrite sort_by_Permutation.
    by rewrite list_filter_filter.
  - unfold step_of. cbn [Api.status_outline].
    change (workflow_states (requested (requested (requested w))))
      with (workflow_states w).
    destruct (workflow_states w !! book_id) as [st|]; [|by intros [|]].
    simpl. destruct (WorkflowState.step st) as [step|]; [|by intros [|]].
    by intros [-> | ->].
  - cbn [Api.workflow_step Api.status_outline Api.chapters_total
         Api.current_chapter Api.status_ratings].
    change (workflow_states (requested (requested (requested w))))
      with (workflow_states w).
    by intros ->.
Qed.

Lemma get_status_reads_only_witness :
  exists response,
    Api.get_status "b1" Examples.world123
    = (Ok response, requested (requested (requested Examples.world123)))
    /\ Api.chapters_approved response = 2.
Proof.
  destruct (get_status_reads_only "b1" "b1" Examples.world123 Examples.book1)
    as (response & Hrun & _ & Happroved & _);
    [reflexivity|by intros k|reflexivity|].
  exists response. split; [exact Hrun|]. rewrite Happroved. reflexivity.
Defined.

End OutlineEndpoints.

(** ** The interactive parser on the outlines the prompt asks for *)

Section ParserRoundTrip.
Import OutlineParser ParserSpec.

Lemma contains_eq needle s :
  Py.contains needle s
  = match Py.strip_prefix needle s with
    | Some _ => true
    | None => match s with
              | EmptyString => false
              | String _ s' => Py.contains needle s'
              end
    end.
Proof. by destruct s. Qed.

Lemma sub_description_eq s :
  Py.sub_description s
  = if Py.at_description s then EmptyString
    else match s with
         | EmptyString => EmptyString
         | String c s' => String c (Py.sub_description s')
         end.
Proof. by destruct s. Qed.

Lemma strip_prefix_app needle a b r :
  Py.strip_prefix needle a = Some r ->
  Py.strip_prefix needle (a ++ b) = Some (r ++ b)%string.
Proof.
  revert a. induction needle as [|x needle IH]; intros a H.
  - destruct a; injection H as <-; by destruct b.
  - destruct a as [|y a]; [done|]. simpl in *.
    destruct (Ascii.eqb x y); [by apply IH|done].
Qed.

Lemma contains_app_l needle a b :
  Py.contains needle a = true -> Py.contains needle (a ++ b) = true.
Proof.
  induction a as [|c a IH].
  - rewrite (contains_eq _ ""), (contains_eq _ ("" ++ b)).
    destruct (Py.strip_prefix needle "") as [r|] eqn:H; [|done].
    intros _. by rewrite (strip_prefix_app _ _ b _ H).
  - rewrite (contains_eq _ (String c a)), (contains_eq _ (String c a ++ b)).
    destruct (Py.strip_prefix needle (String c a)) as [r|] eqn:H.
    + intros _. by rewrite (strip_prefix_app _ _ b _ H).
    + intros Ha. change (String c a ++ b)%string with (String c (a ++ b)).
      destruct (Py.strip_prefix needle (String c (a ++ b))); [done|].
      apply IH, Ha.
Qed.

Lemma contains_app_r needle a b :
  Py.contains needle b = true -> Py.contains needle (a ++ b) = true.
Proof.
  intros Hb. induction a as [|c a IH]; [done|].
  change (String c a ++ b)%string with (String c (a ++ b)).
  rewrite contains_eq.
  by destruct (Py.strip_prefix needle (String c (a ++ b))).
Qed.

Lemma contains_tail needle c s :
  Py.contains needle (String c s) = false -> Py.contains needle s = false.
Proof.
  rewrite contains_eq.
  by destruct (Py.strip_prefix needle (String c s)).
Qed.

Lemma lower_app a b : Py.lower (a ++ b) = (Py.lower a ++ Py.lower b)%string.
Proof. induction a as [|c a IH]; simpl; [done|by rewrite IH]. Qed.

Lemma strip_prefix_ci_lower p s :
  is_Some (Py.strip_prefix_ci p s) <-> is_Some (Py.strip_prefix p (Py.lower s)).
Proof.
  revert s. induction p as [|a p IH]; intros s.
  - destruct s; simpl; split; eauto.
  - destruct s as [|b s]; simpl; [done|].
    destruct (Ascii.eqb a (Py.lower_char b)); [apply IH|done].
Qed.

Lemma lower_d_no_space c :
  Ascii.eqb "d" (Py.lower_char c) = true -> Py.isspace c = false.
Proof. destruct c as [[] [] [] [] [] [] [] []]; by vm_compute. Qed.

Lemma all_chars_app p a b :
  Py.all_chars p (a ++ b) = Py.all_chars p a && Py.all_chars p b.
Proof.
  induction a as [|c a IH]; simpl; [done|]. by rewrite IH, andb_assoc.
Qed.

Lemma all_chars_impl (p q : ascii -> bool) s :
  (forall c, p c = true -> q c = true) ->
  Py.all_chars p s = true -> Py.all_chars q s = true.
Proof.
  intros Hpq. induction s as [|c s IH]; simpl; [done|].
  intros [Hc Hs]%andb_prop. by rewrite (Hpq _ Hc), IH.
Qed.

(** A needle whose first character does not occur is not found. *)
Lemma contains_first_char first needle s :
  Py.all_chars (fun c => negb (Ascii.eqb first c)) s = true ->
  Py.contains (String first needle) s = false.
Proof.
  induction s as [|c s IH]; [done|]. simpl Py.all_chars.
  intros [Hc Hs]%andb_prop. rewrite contains_eq. cbn [Py.strip_prefix].
  destruct (Ascii.eqb first c); [done|]. by apply IH.
Qed.

Lemma all_chars_lower (q : ascii -> bool) s :
  Py.all_chars (fun c => q (Py.lower_char c)) s = Py.all_chars q (Py.lower s).
Proof. induction s as [|c s IH]; simpl; [done|by rewrite IH]. Qed.

(** *** What [re.sub] leaves of a title *)

Lemma sub_description_prefix s :
  exists r, s = (Py.sub_description s ++ r)%string.
Proof.
  induction s as [|c s [r IH]]; rewrite sub_description_eq.
  - exists "". by destruct (Py.at_description "").
  - destruct (Py.at_description (String c s)); [by eexists|].
    exists r. change (String c s = String c (Py.sub_description s ++ r)).
    by f_equal.
Qed.

Lemma at_description_contains s :
  Py.at_description s = true ->
  Py.contains "description:" (Py.lower s) = true.
Proof.
  unfold Py.at_description. intros H.
  destruct (Py.strip_prefix_ci "description:" (Py.lstrip s)) as [r|] eqn:Hr;
    [clear H|done].
  destruct (lstrip_spec s) as (ws & Hs & _). rewrite Hs, lower_app.
  apply contains_app_r.
  destruct (proj1 (strip_prefix_ci_lower "description:" (Py.lstrip s)))
    as [r' Hr']; [by eexists|].
  rewrite contains_eq. by rewrite Hr'.
Qed.

Lemma sub_description_id t :
  Py.contains "description:" (Py.lower t) = false -> Py.sub_description t = t.
Proof.
  induction t as [|c t IH]; intros H; rewrite sub_description_eq.
  - by destruct (Py.at_description "").
  - destruct (Py.at_description (String c t)) eqn:Hat.
    + apply at_description_contains in Hat. congruence.
    + f_equal. apply IH. by eapply contains_tail.
Qed.

Lemma sub_description_clean s :
  Py.contains "description:" (Py.lower (Py.sub_description s)) = false.
Proof.
  induction s as [|c s IH]; rewrite sub_description_eq.
  - by destruct (Py.at_description "").
  - destruct (Py.at_description (String c s)) eqn:Hat; [done|].
    change (Py.lower (String c (Py.sub_description s)))
      with (String (Py.lower_char c) (Py.lower (Py.sub_description s))).
    rewrite contains_eq.
    destruct (Py.strip_prefix "description:"
                (String (Py.lower_char c) (Py.lower (Py.sub_description s))))
      as [r|] eqn:Hr; [|exact IH].
    exfalso. destruct (sub_description_prefix s) as [rest Hrest].
    assert (Hfull : is_Some (Py.strip_prefix "description:"
                               (Py.lower (String c s)))).
    { rewrite Hrest.
      change (String c (Py.sub_description s ++ rest))
        with (String c (Py.sub_description s) ++ rest)%string.
      rewrite lower_app. erewrite strip_prefix_app; [by eexists|exact Hr]. }
    apply strip_prefix_ci_lower in Hfull as [r' Hr'].
    assert (Hc : Py.isspace c = false).
    { apply lower_d_no_space. cbn [Py.strip_prefix] in Hr.
      by destruct (Ascii.eqb "d" (Py.lower_char c)). }
    unfold Py.at_description, Py.lstrip in Hat. simpl Py.span in Hat.
    rewrite Hc in Hat. simpl snd in Hat. by rewrite Hr' in Hat.
Qed.

(** *** Decimal numerals *)

Lemma digit_char_decimal d :
  0 <= d < 10 ->
  Py.isdecimal (Py.digit_char d) = true
  /\ Py.digit_value (Py.digit_char d) = d.
Proof.
  intros Hd.
  assert (H : d = 0 \/ d = 1 \/ d = 2 \/ d = 3 \/ d = 4 \/ d = 5 \/ d = 6
              \/ d = 7 \/ d = 8 \/ d = 9) by lia.
  by destruct H as [->|[->|[->|[->|[->|[->|[->|[->|[->| ->]]]]]]]]].
Qed.

Lemma append_assoc (a b c : string) :
  ((a ++ b) ++ c = a ++ (b ++ c))%string.
Proof.
  induction a as [|x a IH]; [done|].
  change (String x ((a ++ b) ++ c) = String x (a ++ (b ++ c))).
  by f_equal.
Qed.

Lemma str_pos_acc_app fuel n acc :
  Py.str_pos_acc fuel n acc = (Py.str_pos_acc fuel n "" ++ acc)%string.
Proof.
  revert n acc. induction fuel as [|fuel IH]; intros n acc; simpl; [done|].
  destruct (n <? 10); [done|].
  rewrite (IH _ (String _ acc)), (IH _ (String _ "")).
  by rewrite append_assoc.
Qed.

Lemma int_acc_snoc acc s c :
  Py.int_acc acc (s ++ String c "")
  = 10 * Py.int_acc acc s + Py.digit_value c.
Proof.
  revert acc. induction s as [|x s IH]; intros acc; simpl; [done|apply IH].
Qed.

Lemma str_pos_acc_spec fuel n :
  0 <= n < 2 ^ Z.of_nat fuel ->
  Py.all_chars Py.isdecimal (Py.str_pos_acc fuel n "") = true
  /\ Py.int (Py.str_pos_acc fuel n "") = n
  /\ (fuel <> 0%nat -> Py.str_pos_acc fuel n "" <> "").
Proof.
  revert n. induction fuel as [|fuel IH]; intros n Hn.
  - simpl. split; [done|]. split; [|done]. unfold Py.int. simpl.
    change (2 ^ Z.of_nat 0) with 1 in Hn. lia.
  - simpl Py.str_pos_acc.
    assert (Hm : 0 <= n mod 10 < 10) by (apply Z.mod_pos_bound; lia).
    destruct (digit_char_decimal _ Hm) as [Hdec Hval].
    destruct (Z.ltb_spec n 10) as [Hlt|Hge].
    + simpl. rewrite Hdec. split; [done|]. split; [|done].
      unfold Py.int. simpl. rewrite Hval. apply Z.mod_small. lia.
    + rewrite str_pos_acc_app.
      assert (Hq : 0 <= n / 10 < 2 ^ Z.of_nat fuel).
      { split; [apply Z.div_pos; lia|].
        apply Z.div_lt_upper_bound; [lia|].
        rewrite Nat2Z.inj_succ, Z.pow_succ_r in Hn by lia. lia. }
      destruct (IH _ Hq) as (Hall & Hint & _).
      split; [|split].
      * rewrite all_chars_app, Hall. simpl. by rewrite Hdec.
      * unfold Py.int in *. rewrite int_acc_snoc, Hint, Hval.
        pose proof (Z.div_mod n 10). lia.
      * intros _. by destruct (Py.str_pos_acc fuel (n / 10) "").
Qed.

Lemma str_spec n :
  0 <= n ->
  Py.str n <> "" /\ Py.all_chars Py.isdecimal (Py.str n) = true
  /\ Py.int (Py.str n) = n.
Proof.
  intros Hn. unfold Py.str.
  destruct (Z.ltb_spec n 0) as [|_]; [lia|].
  assert (Hb : 0 <= n < 2 ^ Z.of_nat (S (Z.to_nat (Z.log2 n)))).
  { split; [done|]. rewrite Nat2Z.inj_succ, Z2Nat.id by apply Z.log2_nonneg.
    destruct (decide (n = 0)) as [->|]; [done|].
    apply Z.log2_spec. lia. }
  destruct (str_pos_acc_spec _ _ Hb) as (Hall & Hint & Hne).
  split; [by apply Hne|done].
Qed.

(** *** Lines *)

Lemma split_lines_line s rest :
  Py.contains (String Py.newline "") s = false ->
  Py.split_lines (s ++ String Py.newline rest) = s :: Py.split_lines rest.
Proof.
  induction s as [|c s IH]; intros H.
  - done.
  - rewrite contains_eq in H. cbn [Py.strip_prefix] in H.
    change (String c s ++ String Py.newline rest)%string
      with (String c (s ++ String Py.newline rest)).
    cbn [Py.split_lines]. rewrite (Ascii.eqb_sym c).
    destruct (Ascii.eqb Py.newline c); [done|]. by rewrite IH.
Qed.

Lemma split_lines_last s :
  Py.contains (String Py.newline "") s = false -> Py.split_lines s = [s].
Proof.
  induction s as [|c s IH]; intros H; [done|].
  rewrite contains_eq in H. cbn [Py.strip_prefix] in H.
  cbn [Py.split_lines]. rewrite (Ascii.eqb_sym c).
  destruct (Ascii.eqb Py.newline c); [done|]. by rewrite IH.
Qed.

Lemma split_lines_unlines ls :
  ls <> [] ->
  Forall (fun s => Py.contains (String Py.newline "") s = false) ls ->
  Py.split_lines (unlines ls) = ls.
Proof.
  intros Hne Hall. induction Hall as [|s ls Hs Hall IH]; [done|].
  destruct ls as [|s' ls].
  - by apply split_lines_last.
  - change (unlines (s :: s' :: ls))
      with (s ++ String Py.newline (unlines (s' :: ls)))%string.
    rewrite split_lines_line by done. f_equal. by apply IH.
Qed.

Lemma no_newline_app a b :
  Py.contains (String Py.newline "") a = false ->
  Py.contains (String Py.newline "") b = false ->
  Py.contains (String Py.newline "") (a ++ b) = false.
Proof.
  intros Ha Hb. induction a as [|c a IH]; [done|].
  change (String c a ++ b)%string with (String c (a ++ b)).
  rewrite contains_eq in Ha. rewrite contains_eq.
  cbn [Py.strip_prefix] in Ha |- *.
  destruct (Ascii.eqb Py.newline c); [done|]. by apply IH.
Qed.

Lemma decimal_no_newline s :
  Py.all_chars Py.isdecimal s = true ->
  Py.contains (String Py.newline "") s = false.
Proof.
  intros H. apply contains_first_char.
  revert H. apply all_chars_impl. intros c.
  destruct c as [[] [] [] [] [] [] [] []]; by vm_compute.
Qed.

(** *** Heading lines and prose *)

Lemma strip_fixed t :
  t <> "" -> Py.strip t = t ->
  exists c t', t = String c t' /\ Py.isspace c = false /\ Py.rstrip t = t.
Proof.
  assert (Hr : forall s, (String.length (Py.rstrip s) <= String.length s)%nat).
  { induction s as [|c s IH]; simpl; [done|].
    destruct (Py.rstrip s); [destruct (Py.isspace c)|]; simpl in *; lia. }
  assert (Hl : forall s, (String.length (Py.lstrip s) <= String.length s)%nat).
  { unfold Py.lstrip. induction s as [|c s IH]; simpl; [done|].
    destruct (Py.isspace c); [|done].
    destruct (Py.span Py.isspace s). simpl in *. lia. }
  intros Hne Hs. destruct t as [|c t']; [done|]. exists c, t'.
  destruct (Py.isspace c) eqn:Hc.
  - exfalso. unfold Py.strip in Hs.
    assert (Hlen : (String.length (Py.lstrip (String c t'))
                    <= String.length t')%nat).
    { unfold Py.lstrip. simpl. rewrite Hc. specialize (Hl t').
      unfold Py.lstrip in Hl. by destruct (Py.span Py.isspace t'). }
    specialize (Hr (Py.lstrip (String c t'))). rewrite Hs in Hr.
    simpl in Hr. lia.
  - split; [done|]. split; [done|].
    unfold Py.strip, Py.lstrip in Hs. simpl in Hs. by rewrite Hc in Hs.
Qed.

Lemma heading_line_entry idx t :
  0 <= idx -> plain_title t ->
  heading_entry (heading_line (Entry idx t)) = Some (Entry idx t).
Proof.
  intros Hidx (Hne & Hstrip & _ & Hplace & Hdesc).
  destruct (strip_fixed t Hne Hstrip) as (c & t' & -> & Hc & Hr).
  destruct (str_spec idx Hidx) as (Hs & Hdec & Hint).
  unfold heading_line. simpl number. simpl title.
  rewrite (well_formed_heading_entry _ c t' Hs Hdec Hc Hr Hplace).
  by rewrite Hint, (sub_description_id _ Hdesc).
Qed.

Lemma heading_line_no_newline idx t :
  0 <= idx -> plain_title t ->
  Py.contains (String Py.newline "") (heading_line (Entry idx t)) = false.
Proof.
  intros Hidx (_ & _ & Hnl & _). destruct (str_spec idx Hidx) as (_ & Hdec & _).
  unfold heading_line. simpl number. simpl title.
  apply (no_newline_app "Chapter "); [done|].
  apply no_newline_app; [by apply decimal_no_newline|].
  by apply (no_newline_app ": ").
Qed.

Lemma prose_no_entry line : prose line -> heading_entry line = None.
Proof.
  intros [_ Hno]. unfold heading_entry.
  destruct (Py.match_heading (Py.strip line)) as [[g1 g2]|] eqn:H; [|done].
  destruct Hno. by eapply match_heading_begins.
Qed.

Lemma prose_no_entries lines :
  Forall prose lines -> omap heading_entry lines = [].
Proof.
  induction 1 as [|line lines Hline _ IH]; [done|].
  simpl. by rewrite (prose_no_entry _ Hline).
Qed.

Lemma section_lines_entries idx sections :
  0 <= idx ->
  Forall (fun s => plain_title s.1 /\ Forall prose s.2) sections ->
  omap heading_entry (section_lines idx sections)
  = number_from idx (sections.*1)
  /\ Forall (fun s => Py.contains (String Py.newline "") s = false)
       (section_lines idx sections).
Proof.
  intros Hidx Hall. revert idx Hidx.
  induction Hall as [|[t body] sections [Ht Hbody] _ IH]; intros idx Hidx;
    [done|].
  destruct (IH (idx + 1)) as [Hrest Hlines]; [lia|]. simpl in Ht, Hbody.
  split.
  - simpl. rewrite (heading_line_entry _ _ Hidx Ht). f_equal.
    by rewrite omap_app, (prose_no_entries _ Hbody), Hrest.
  - simpl. constructor; [by apply heading_line_no_newline|].
    apply Forall_app. split; [|done].
    eapply Forall_impl; [exact Hbody|]. by intros line [Hnl _].
Qed.

(** *** The steps of the parser on entries already in order *)

Lemma first_by_number_ordered seen idx titles :
  (forall k, k ∈ seen -> k < idx) ->
  first_by_number seen (number_from idx titles) = number_from idx titles.
Proof.
  revert seen idx. induction titles as [|t titles IH]; intros seen idx Hseen;
    [done|].
  simpl. destruct (decide (idx ∈ seen)) as [Hin|_].
  - apply Hseen in Hin. lia.
  - f_equal. apply IH. intros k [->%elem_of_singleton|Hk]%elem_of_union;
      [lia|]. apply Hseen in Hk. lia.
Qed.

Lemma take_number_from k idx titles :
  take k (number_from idx titles) = number_from idx (take k titles).
Proof.
  revert k idx. induction titles as [|t titles IH]; intros [|k] idx; simpl;
    try done. by rewrite IH.
Qed.

Lemma sort_by_number_from idx titles :
  Py.sort_by number (number_from idx titles) = number_from idx titles.
Proof.
  revert idx. induction titles as [|t titles IH]; intros idx; [done|].
  change (Py.sort_by number (number_from idx (t :: titles)))
    with (Py.insert_by number (Entry idx t)
            (Py.sort_by number (number_from (idx + 1) titles))).
  rewrite IH. destruct titles as [|t' titles]; [done|]. simpl.
  by destruct (Z.leb_spec idx (idx + 1)); [|lia].
Qed.

Lemma renumber_number_from idx titles :
  renumber_from idx (number_from idx titles) = number_from idx titles.
Proof.
  revert idx. induction titles as [|t titles IH]; intros idx; simpl; [done|].
  by rewrite IH.
Qed.

(** X27. The interactive parser reads back an outline written in the format the
    outline prompt asks for: whatever lines without heading come before and
    between the chapters, the result is the list of the titles in order,
    numbered from 1, cut at the expected count. The titles are plain:
    stripped, on one line, no placeholder, and free of a description. *)
Theorem parse_outline_chapters_round_trip preamble sections expected_count :
  1 <= expected_count ->
  sections <> [] ->
  Forall prose preamble ->
  Forall (fun s => plain_title s.1 /\ Forall prose s.2) sections ->
  parse_outline_chapters (written_outline preamble sections) expected_count
  = take (Z.to_nat expected_count) (number_from 1 (sections.*1)).
Proof.
  intros Hcount Hne Hpre Hsections.
  destruct (section_lines_entries 1 sections) as [Hentries Hlines];
    [lia|done|].
  assert (Hheadings : heading_entries (written_outline preamble sections)
                      = number_from 1 (sections.*1)).
  { unfold heading_entries, written_outline.
    rewrite split_lines_unlines.
    - by rewrite omap_app, (prose_no_entries _ Hpre), Hentries.
    - destruct sections as [|[t body] sections]; [done|].
      by destruct preamble.
    - apply Forall_app. split; [|done].
      eapply Forall_impl; [exact Hpre|]. by intros line [Hnl _]. }
  rewrite parse_outline_chapters_kept. unfold kept. rewrite Hheadings.
  rewrite first_by_number_ordered by set_solver.
  rewrite take_number_from, sort_by_number_from.
  unfold Py.slice_to. destruct (Z.leb_spec 0 expected_count); [|lia].
  rewrite take_number_from, take_take, renumber_number_from.
  replace (Z.to_nat expected_count `min` Z.to_nat (1 `max` expected_count))%nat
    with (Z.to_nat expected_count) by lia.
  rewrite take_number_from.
  destruct sections as [|[t body] sections]; [done|].
  destruct (Z.to_nat expected_count) as [|k] eqn:Hk; [lia|]. done.
Qed.

Lemma parse_outline_chapters_round_trip_witness :
  parse_outline_chapters
    (written_outline ["## CHAPTERS"; ""]
       [("Beginnings", ["Summary of the early years"; ""]);
        ("Middle Years", [])]) 2
  = take (Z.to_nat 2) (number_from 1 ["Beginnings"; "Middle Years"]).
Proof.
  assert (Hprose : forall line,
            Py.contains (String Py.newline "") line = false ->
            Py.strip_prefix_ci "chapter" (Py.strip line) = None ->
            prose line).
  { intros line Hnl Hword. split; [done|].
    intros (word & ws & ds & ws' & rest & Hline & Hlower & _).
    rewrite Hline in Hword. clear Hline.
    assert (Hsome : forall p w r, Py.lower w = p ->
                      Py.strip_prefix_ci p (w ++ r) = Some r).
    { clear. intros p w. revert p.
      induction w as [|c w IH]; intros p r <-; [by destruct r|].
      simpl. rewrite Ascii.eqb_refl. by apply IH. }
    by rewrite (Hsome _ _ _ Hlower) in Hword. }
  apply (parse_outline_chapters_round_trip ["## CHAPTERS"; ""]
           [("Beginnings", ["Summary of the early years"; ""]);
            ("Middle Years", [])] 2).
  - lia.
  - done.
  - repeat constructor; by apply Hprose.
  - repeat constructor; try (by apply Hprose); done.
Defined.

(** X28. No title the interactive parser returns carries a description or the
    placeholder of the prompt: what follows [Description:] on a heading line
    is cut off, headings with the placeholder title are skipped, and the
    default titles are [Chapter i]. *)
Theorem parsed_titles_are_clean outline_text expected_count e :
  e ∈ parse_outline_chapters outline_text expected_count ->
  Py.contains "description:" (Py.lower (title e)) = false
  /\ Py.contains "[chapter title here]" (Py.lower (title e)) = false.
Proof.
  intros He.
  assert (Hdefault : forall i : nat,
            let t := "Chapter " +:+ Py.str (Z.of_nat i) in
            Py.contains "description:" (Py.lower t) = false
            /\ Py.contains "[chapter title here]" (Py.lower t) = false).
  { intros i t. destruct (str_spec (Z.of_nat i)) as (_ & Hdec & _); [lia|].
    unfold t. split; apply contains_first_char; rewrite <- all_chars_lower,
      all_chars_app; apply andb_true_intro; (split; [done|]);
      revert Hdec; apply all_chars_impl; intros c;
      destruct c as [[] [] [] [] [] [] [] []]; by vm_compute. }
  assert (Hheading : forall e',
            e' ∈ heading_entries outline_text ->
            Py.contains "description:" (Py.lower (title e')) = false
            /\ Py.contains "[chapter title here]" (Py.lower (title e'))
               = false).
  { intros e' (line & _ & Hline)%list_elem_of_omap.
    unfold heading_entry in Hline.
    destruct (Py.match_heading (Py.strip line)) as [[g1 g2]|]; [|done].
    destruct (is_placeholder (Py.strip g2)) eqn:Hp; [done|].
    injection Hline as <-. simpl. split; [apply sub_description_clean|].
    apply orb_false_elim in Hp as [Hp _].
    destruct (sub_description_prefix (Py.strip g2)) as [r Hr].
    destruct (Py.contains "[chapter title here]"
                (Py.lower (Py.sub_description (Py.strip g2)))) eqn:Hc;
      [|done].
    apply (contains_app_l _ _ (Py.lower r)) in Hc.
    rewrite <- lower_app, <- Hr in Hc. congruence. }
  rewrite parse_outline_chapters_kept in He.
  destruct (renumber_from 1 _) as [|e0 l] eqn:Hr.
  - unfold default_chapters in He.
    apply list_elem_of_fmap in He as (i & -> & _). apply Hdefault.
  - rewrite <- Hr in He.
    assert (Ht : title e ∈ title <$> renumber_from 1
                   (Py.slice_to expected_count
                      (Py.sort_by number (kept outline_text expected_count))))
      by (by apply list_elem_of_fmap_2).
    rewrite renumber_from_titles in Ht.
    apply list_elem_of_fmap in Ht as (e' & -> & He').
    apply Hheading.
    assert (Hs : e' ∈ Py.sort_by number (kept outline_text expected_count)).
    { eapply elem_of_sublist; [exact He'|]. unfold Py.slice_to.
      destruct (0 <=? expected_count); apply sublist_take. }
    rewrite sort_by_Permutation in Hs.
    eapply elem_of_sublist; [exact Hs|]. unfold kept.
    etrans; [apply sublist_take|apply first_by_number_sublist].
Qed.

Lemma parsed_titles_are_clean_witness :
  Py.contains "description:" (Py.lower "Origins") = false
  /\ Py.contains "[chapter title here]" (Py.lower "Origins") = false.
Proof.
  apply (parsed_titles_are_clean
           ("Chapter 1: [Chapter Title Here]" +:+ Examples.nl
            +:+ "Chapter 1: Origins Description: how it began")
           3 (Entry 1 "Origins")).
  vm_compute. left.
Defined.

End ParserRoundTrip.
